(** * pawbot: the network-provisioning core of NanoWeb.py

    A shallow embedding of [src/NanoWeb.py]: the credential store
    ([CredManager]), the retry primitive ([retry_until]), the station side of
    [ConnectionManager] (connect, scan) and the HTTP engine ([Nanoweb.handle]
    with its readers, writers and the captive-portal handlers).

    Conventions of the embedding.
    - A Python value is a [pyval]; a Python exception is an [exn].
    - An effectful function is a computation [M A]: it takes the [world]
      (filesystem, radios, credential store, the connection being served) and
      gives back a [result] and the new world.  [await f(...)] is the
      computation itself; calling an [async def] without awaiting it only
      builds the coroutine object ([spawn]) and runs none of its body.
    - [print] calls are left out: the console is not part of the world.
    - The module runs on MicroPython only (it imports [uasyncio], [uerrno],
      [network] and [ujson]); where runtimes differ, the embedding follows
      MicroPython.
    - Functions of the Python runtime whose text format is not the subject
      of this development ([json.dumps], [json.loads], [int], [str.format]),
      and those whose result the runtime is free to choose within a contract
      ([sorted] on equal keys, where a read of a text file ends), are the
      fields of the class [Runtime], the contract among them. *)

From Stdlib Require Import ZArith QArith Qround List String Ascii Bool Lia.
From Stdlib Require Import Permutation Sorted DecimalString.
Import ListNotations.
Close Scope Q_scope.
Open Scope list_scope.
Open Scope string_scope.

(* ================================================================= *)
(** ** Python values *)

#[local] Set Warnings "-register-all".

Inductive pyval : Type :=
| PNone
| PBool (b : bool)
| PInt (z : Z)
| PFloat (q : Q)
| PStr (s : string)
| PList (items : list pyval)
| PDict (items : list (pyval * pyval)).

(** Truth value of an object, as [if v] and [not v] test it.  A float is
    carried as the exact quotient it was computed from. *)
Definition truthy (v : pyval) : bool :=
  match v with
  | PNone => false
  | PBool b => b
  | PInt z => negb (z =? 0)%Z
  | PFloat q => negb (Qnum q =? 0)%Z
  | PStr s => negb (s =? EmptyString)
  | PList items => match items with [] => false | _ :: _ => true end
  | PDict items => match items with [] => false | _ :: _ => true end
  end.

(** Only immutable values can be dictionary keys. *)
Definition hashable (v : pyval) : bool :=
  match v with
  | PList _ | PDict _ => false
  | _ => true
  end.

Definition as_number (v : pyval) : option Q :=
  match v with
  | PBool b => Some (inject_Z (if b then 1 else 0))
  | PInt z => Some (inject_Z z)
  | PFloat q => Some q
  | _ => None
  end.

(** [a == b] on None, numbers (bool included: [True == 1]) and strings.  The
    modelled code compares nothing else: a list or dict used as a key raises
    [TypeError] before any comparison. *)
Definition py_eqb (a b : pyval) : bool :=
  match a, b with
  | PNone, PNone => true
  | PStr s, PStr t => (s =? t)
  | _, _ =>
      match as_number a, as_number b with
      | Some x, Some y => Qeq_bool x y
      | _, _ => false
      end
  end.

(** *** dict, as an insertion-ordered association list with unique keys *)

Definition dict : Type := list (pyval * pyval).

Fixpoint dict_lookup (k : pyval) (d : dict) : option pyval :=
  match d with
  | [] => None
  | (k', v) :: rest => if py_eqb k k' then Some v else dict_lookup k rest
  end.

(** [d[k] = v]: an existing key keeps its place (and its key object). *)
Fixpoint dict_store (k v : pyval) (d : dict) : dict :=
  match d with
  | [] => [(k, v)]
  | (k', v') :: rest =>
      if py_eqb k k' then (k', v) :: rest else (k', v') :: dict_store k v rest
  end.

(** [del d[k]]. *)
Definition dict_remove (k : pyval) (d : dict) : dict :=
  filter (fun kv => negb (py_eqb k (fst kv))) d.

Definition dict_mem (k : pyval) (d : dict) : bool :=
  match dict_lookup k d with Some _ => true | None => false end.

(* ================================================================= *)
(** ** Exceptions and computations *)

Inductive exn : Type :=
| TypeError
| ValueError
| UnicodeError
| AttributeError
| IndexError
| KeyError
| ZeroDivisionError
| OSError (errno : Z)
| HttpError (code : Z) (reason : string).

(** uerrno *)
Definition ENOENT : Z := 2.
Definition ECONNRESET : Z := 104.

(** [Running]: the computation had not finished when its fuel ran out (only
    the handler chain of [generate_output] is unbounded). *)
Inductive result (A : Type) : Type :=
| Ok (a : A)
| Raise (e : exn)
| Running.
Arguments Ok {A} a.
Arguments Raise {A} e.
Arguments Running {A}.

(* ================================================================= *)
(** ** The world the firmware runs in *)

(** A path of the filesystem: a readable file, or one that [open] refuses
    with [OSError(errno)].  A path that is not listed does not exist. *)
Inductive fentry : Type :=
| Data (content : string)
| Unreadable (errno : Z).

(** One entry of [WLAN.scan()]:
    (ssid, bssid, channel, RSSI, security, hidden); ssid and bssid are bytes. *)
Record network : Type := {
  net_ssid : string;
  net_bssid : string;
  net_channel : Z;
  net_rssi : Z;
  net_security : Z;
  net_hidden : bool
}.

(** The station radio.  [sta_link k] is what the k-th call of
    [isconnected()] reports; [sta_polls] counts the calls made so far. *)
Record station : Type := {
  sta_active : bool;
  sta_joining : option (pyval * pyval);
  sta_polls : nat;
  sta_link : nat -> bool;
  sta_visible : list network
}.

Record CredManager : Type := {
  storage : string;
  credentials : dict
}.

(** The connection a request handler serves: what [readline] will still
    deliver (one element per line), the chunks written so far (oldest
    first), and whether [aclose] was called. *)
Record connection : Type := {
  incoming : list string;
  outgoing : list string;
  closed : bool
}.

Record world : Type := {
  files : list (string * fentry);
  wlan_sta : station;
  wlan_ap_active : bool;
  slept : list Z;
  cred_manager : CredManager;
  conn : connection
}.

Definition with_files (f : list (string * fentry)) (w : world) : world :=
  {| files := f; wlan_sta := wlan_sta w; wlan_ap_active := wlan_ap_active w;
     slept := slept w; cred_manager := cred_manager w; conn := conn w |}.

Definition with_sta (s : station) (w : world) : world :=
  {| files := files w; wlan_sta := s; wlan_ap_active := wlan_ap_active w;
     slept := slept w; cred_manager := cred_manager w; conn := conn w |}.

Definition with_ap_active (b : bool) (w : world) : world :=
  {| files := files w; wlan_sta := wlan_sta w; wlan_ap_active := b;
     slept := slept w; cred_manager := cred_manager w; conn := conn w |}.

Definition with_slept (l : list Z) (w : world) : world :=
  {| files := files w; wlan_sta := wlan_sta w; wlan_ap_active := wlan_ap_active w;
     slept := l; cred_manager := cred_manager w; conn := conn w |}.

Definition with_credentials (d : dict) (w : world) : world :=
  {| files := files w; wlan_sta := wlan_sta w; wlan_ap_active := wlan_ap_active w;
     slept := slept w;
     cred_manager := {| storage := storage (cred_manager w); credentials := d |};
     conn := conn w |}.

Definition with_conn (c : connection) (w : world) : world :=
  {| files := files w; wlan_sta := wlan_sta w; wlan_ap_active := wlan_ap_active w;
     slept := slept w; cred_manager := cred_manager w; conn := c |}.

(** *** Computations *)

Definition M (A : Type) : Type := world -> result A * world.

Definition ret {A : Type} (a : A) : M A := fun w => (Ok a, w).

Definition raise {A : Type} (e : exn) : M A := fun w => (Raise e, w).

Definition bind {A B : Type} (m : M A) (k : A -> M B) : M B :=
  fun w =>
    match m w with
    | (Ok a, w') => k a w'
    | (Raise e, w') => (Raise e, w')
    | (Running, w') => (Running, w')
    end.

Declare Scope py_scope.
Delimit Scope py_scope with py.
Notation "x <- m ;; k" := (bind m (fun x => k))
  (at level 61, m at next level, right associativity) : py_scope.
Notation "m ;; k" := (bind m (fun _ => k))
  (at level 61, right associativity) : py_scope.
Open Scope py_scope.

(** A pure step that may raise. *)
Definition lift {A : Type} (r : result A) : M A := fun w => (r, w).

(** [try: body  except <E matching catches> as e: handler e]. *)
Definition try_except {A : Type} (body : M A) (catches : exn -> bool)
    (handler : exn -> M A) : M A :=
  fun w =>
    match body w with
    | (Raise e, w') => if catches e then handler e w' else (Raise e, w')
    | other => other
    end.

(** [try: body  finally: cleanup].  An exception of the body is raised again
    after the cleanup, unless the cleanup raises one of its own. *)
Definition try_finally {A : Type} (body : M A) (cleanup : M unit) : M A :=
  fun w =>
    match body w with
    | (Running, w') => (Running, w')
    | (r, w') =>
        match cleanup w' with
        | (Ok _, w'') => (r, w'')
        | (Raise e, w'') => (Raise e, w'')
        | (Running, w'') => (Running, w'')
        end
    end.

Definition any_exception (e : exn) : bool := true.

Definition is_OSError (e : exn) : bool :=
  match e with OSError _ => true | _ => false end.

Definition is_HttpError (e : exn) : bool :=
  match e with HttpError _ _ => true | _ => false end.

(** *** Coroutines *)

(** Calling an [async def] function builds a coroutine object and runs none
    of its body; only [await] runs it. *)
Definition coroutine (A : Type) : Type := M A.

Definition spawn {A : Type} (body : M A) : M (coroutine A) := ret body.

Definition await {A : Type} (c : coroutine A) : M A := c.

(** *** The Python runtime *)

Class Runtime : Type := {
  (** [json.dumps(v)] *)
  json_dumps : pyval -> string;
  (** [json.loads(s)]; [None] when it raises (the text is not JSON) *)
  json_loads : string -> option pyval;
  (** [int(s)]; [None] when it raises [ValueError] *)
  int_of_str : string -> option Z;
  (** [line.format( **context )] *)
  str_format : string -> dict -> result string;
  (** [sorted(networks, key=lambda network: network[3], reverse=True)].
      MicroPython sorts with a quicksort, which is not stable: where two
      entries of equal strength end up is left to the runtime *)
  sorted_by_rssi : list network -> list network;
  (** [f.read(n)] on a file opened in text mode, given what of the file is
      still unread: the characters it returns.  ([f.read(n)] on a file
      opened in binary mode is the next [n] bytes.) *)
  read_chars : nat -> string -> string;
  (** two facts of JSON the code relies on: the text of the empty object
      parses to it, and the empty text is not JSON *)
  json_loads_empty_object :
    json_loads (String "{" (String "}" EmptyString)) = Some (PDict []);
  json_loads_empty_text : json_loads EmptyString = None;
  (** what a sort is: the same entries, in descending order of the key *)
  sorted_by_rssi_perm : forall l, Permutation l (sorted_by_rssi l);
  sorted_by_rssi_sorted :
    forall l,
      StronglySorted (fun a b => (net_rssi b <= net_rssi a)%Z) (sorted_by_rssi l);
  (** what a read is: the text that comes next in the file, at most [n]
      characters of it, and not empty before the end of the file *)
  read_chars_prefix : forall n s, prefix (read_chars n s) s = true;
  read_chars_bound : forall n s, String.length (read_chars n s) <= n;
  read_chars_progress :
    forall n s, 0 < n -> s <> EmptyString -> read_chars n s <> EmptyString
}.

(* ================================================================= *)
(** ** Files *)

Fixpoint file_lookup (path : string) (fs : list (string * fentry)) : option fentry :=
  match fs with
  | [] => None
  | (p, e) :: rest => if p =? path then Some e else file_lookup path rest
  end.

(** [open(path, 'r')] (or ['rb']) followed by reading: the whole content. *)
Definition open_read (path : string) : M string :=
  fun w =>
    match file_lookup path (files w) with
    | Some (Data content) => (Ok content, w)
    | Some (Unreadable errno) => (Raise (OSError errno), w)
    | None => (Raise (OSError ENOENT), w)
    end.

(** [open(path, 'w')] followed by writing [content]: the file is replaced
    as a whole (the store below the file abstraction is taken as reliable). *)
Definition open_write (path content : string) : M unit :=
  fun w =>
    (Ok tt,
     with_files ((path, Data content)
                   :: filter (fun pe => negb (fst pe =? path)) (files w)) w).

(* ================================================================= *)
(** ** CredManager *)

Section CredManagerOps.
Context {rt : Runtime}.

(** [async def save(self)]: the body of the coroutine. *)
Definition save : coroutine unit :=
  fun w =>
    open_write (storage (cred_manager w))
               (json_dumps (PDict (credentials (cred_manager w)))) w.

(** [self.credentials[ssid] = password] *)
Definition credentials_setitem (ssid password : pyval) : M unit :=
  fun w =>
    if hashable ssid
    then (Ok tt, with_credentials (dict_store ssid password (credentials (cred_manager w))) w)
    else (Raise TypeError, w).

(** [def add(self, ssid, password)]: [self.save()] is called, not awaited. *)
Definition add (ssid password : pyval) : M unit :=
  credentials_setitem ssid password ;;
  _ <- spawn save ;;
  ret tt.

(** [ssid in self.credentials] *)
Definition credentials_contains (ssid : pyval) : M bool :=
  fun w =>
    if hashable ssid
    then (Ok (dict_mem ssid (credentials (cred_manager w))), w)
    else (Raise TypeError, w).

(** [del self.credentials[ssid]], reached only when the key is present. *)
Definition credentials_delitem (ssid : pyval) : M unit :=
  fun w => (Ok tt, with_credentials (dict_remove ssid (credentials (cred_manager w))) w).

(** [def remove(self, ssid)] *)
Definition remove (ssid : pyval) : M unit :=
  present <- credentials_contains ssid ;;
  if (present : bool)
  then credentials_delitem ssid ;;
       _ <- spawn save ;;
       ret tt
  else ret tt.

(** [def clear(self)] *)
Definition clear : M unit :=
  (fun w => (Ok tt, with_credentials [] w)) ;;
  _ <- spawn save ;;
  ret tt.

(** [def get(self, ssid)]: [None] of Python is [None] here. *)
Definition get (ssid : pyval) : M (option (pyval * pyval)) :=
  fun w =>
    if hashable ssid
    then
      match dict_lookup ssid (credentials (cred_manager w)) with
      | Some password =>
          if truthy password then (Ok (Some (ssid, password)), w) else (Ok None, w)
      | None => (Ok None, w)
      end
    else (Raise TypeError, w).

(** [def list(self)] *)
Definition list_credentials : M (list (pyval * pyval)) :=
  fun w => (Ok (credentials (cred_manager w)), w).

(** The invariant of the spec: the backing file holds the serialisation of
    the in-memory mapping. *)
Definition converged (w : world) : Prop :=
  file_lookup (storage (cred_manager w)) (files w)
  = Some (Data (json_dumps (PDict (credentials (cred_manager w))))).

End CredManagerOps.

(* ================================================================= *)
(** ** retry_until *)

Definition sleep_ms (delay_ms : Z) : M unit :=
  fun w => (Ok tt, with_slept (slept w ++ [delay_ms]) w).

(** [for i in range(n)], as MicroPython runs it (the module imports
    [uasyncio], [uerrno] and [network], so no other runtime loads it).  Its
    compiler turns a [for] over a call of [range] into a counter that starts
    at 0 and is compared with [i < n] before every round; no range object is
    built, so [n] is never asked to be an integer.  The number of rounds is
    the number of integers from 0 that are below [n]: a float counts up to
    its ceiling, [True] counts as 1; a value that is no number raises
    [TypeError] at the first comparison. *)
Definition range_len (n : pyval) : result nat :=
  match n with
  | PInt z => Ok (Z.to_nat z)
  | PBool b => Ok (if b then 1 else 0)%nat
  | PFloat q => Ok (Z.to_nat (Qceiling q))
  | _ => Raise TypeError
  end.

(** The [for] loop of [retry_until], with [n] iterations left. *)
Fixpoint retry_loop {R : Type} (predicate : R -> bool) (action : M R)
    (delay_ms : Z) (n : nat) : M (bool * option R) :=
  match n with
  | O => ret (false, None)
  | S n' =>
      result <- action ;;
      if predicate result
      then ret (true, Some result)
      else sleep_ms delay_ms ;; retry_loop predicate action delay_ms n'
  end.

Definition retry_until {R : Type} (predicate : R -> bool) (action : M R)
    (max_retries : pyval) (delay_ms : Z) : M (bool * option R) :=
  n <- lift (range_len max_retries) ;;
  retry_loop predicate action delay_ms n.

(** One failed attempt: the action, then the sleep. *)
Definition attempt {R : Type} (action : M R) (delay_ms : Z) (w : world) : world :=
  snd (sleep_ms delay_ms (snd (action w))).

Fixpoint attempts {R : Type} (action : M R) (delay_ms : Z) (n : nat) (w : world) : world :=
  match n with
  | O => w
  | S n' => attempts action delay_ms n' (attempt action delay_ms w)
  end.

(* ================================================================= *)
(** ** ConnectionManager: the station radio *)

Definition sta_set_active (b : bool) : M unit :=
  fun w =>
    let s := wlan_sta w in
    (Ok tt,
     with_sta {| sta_active := b; sta_joining := sta_joining s;
                 sta_polls := sta_polls s; sta_link := sta_link s;
                 sta_visible := sta_visible s |} w).

(** [self.wlan_sta.connect(ssid, password)].  What the radio does with a
    name or a secret that is not a string is not part of the module; the
    properties that depend on it are stated for strings. *)
Definition sta_connect (ssid password : pyval) : M unit :=
  fun w =>
    let s := wlan_sta w in
    (Ok tt,
     with_sta {| sta_active := sta_active s; sta_joining := Some (ssid, password);
                 sta_polls := sta_polls s; sta_link := sta_link s;
                 sta_visible := sta_visible s |} w).

(** [self.wlan_sta.isconnected()] *)
Definition sta_isconnected : M pyval :=
  fun w =>
    let s := wlan_sta w in
    (Ok (PBool (sta_link s (sta_polls s))),
     with_sta {| sta_active := sta_active s; sta_joining := sta_joining s;
                 sta_polls := S (sta_polls s); sta_link := sta_link s;
                 sta_visible := sta_visible s |} w).

(** [def __connected(self)] *)
Definition connected_now : M pyval := sta_isconnected.

(** [async def connected(self, max_retries = 3, delay_ms = 1000)] *)
Definition connected (max_retries : pyval) (delay_ms : Z) : M bool :=
  r <- retry_until (fun result => py_eqb result (PBool true)) connected_now
                   max_retries delay_ms ;;
  ret (fst r).

(** [a / b] on two integers is true division: the result is a float. *)
Definition truediv (a b : Z) : result pyval :=
  match b with
  | Zpos d => Ok (PFloat (Qmake a d))
  | Zneg d => Ok (PFloat (Qmake (- a) d))
  | Z0 => Raise ZeroDivisionError
  end.

(** [async def connect(self, ssid, password, timeout_ms = 10000)].  The calls
    of [status()] and [ifconfig()] only feed [print]. *)
Definition connect (ssid password : pyval) (timeout_ms : Z) : M bool :=
  let delay_ms := 1000%Z in
  sta_set_active true ;;
  sta_connect ssid password ;;
  max_retries <- lift (truediv timeout_ms delay_ms) ;;
  ok <- connected max_retries delay_ms ;;
  if negb ok
  then sta_set_active false ;; ret false
  else ret true.

(* ================================================================= *)
(** ** Text *)

(** A [bytes] object is a [string] (one character per byte), and a [str]
    is held as the UTF-8 encoding of its text, which is how MicroPython
    holds it: [decode] checks the bytes and keeps them.  Prefix, suffix,
    split and join act alike on a text and on its encoding; only [ord] needs
    the code points. *)

Definition is_cont (b : N) : bool := ((128 <=? b) && (b <=? 191))%N.

(** The check [decode] makes (MicroPython's [utf8_check]): every byte that
    starts a character is followed by the continuation bytes it announces,
    one after a byte in C0..DF, two after E0..EF, three after F0..F7, and no
    continuation byte stands elsewhere.  The value of the character is not
    looked at, so overlong forms and surrogates pass.  [need] is the number
    of continuation bytes still owed. *)
Fixpoint utf8_check (need : nat) (bs : list N) : bool :=
  match bs with
  | [] => match need with O => true | S _ => false end
  | b :: rest =>
      match need with
      | S n => if is_cont b then utf8_check n rest else false
      | O =>
          if (b <? 128)%N then utf8_check 0 rest
          else if (b <? 192)%N then false
          else if (b <? 224)%N then utf8_check 1 rest
          else if (b <? 240)%N then utf8_check 2 rest
          else if (b <? 248)%N then utf8_check 3 rest
          else false
      end
  end.

(** The payload bits of the byte that starts a character. *)
Definition lead_bits (b : N) : N :=
  if (b <? 128)%N then b
  else if (b <? 192)%N then b mod 64
  else if (b <? 224)%N then b mod 32
  else if (b <? 240)%N then b mod 16
  else b mod 8.

(** The code points of a checked text, as iterating over the str and [ord]
    give them: a character is a byte with the continuation bytes that
    follow it, its value the payload bits of these bytes put together.
    [cur] is the character being read. *)
Fixpoint utf8_ords (cur : option N) (bs : list N) : list N :=
  match bs with
  | [] => match cur with Some c => [c] | None => [] end
  | b :: rest =>
      if is_cont b
      then utf8_ords (Some (match cur with
                            | Some c => c * 64 + b mod 64
                            | None => b mod 64
                            end)%N) rest
      else match cur with
           | Some c => c :: utf8_ords (Some (lead_bits b)) rest
           | None => utf8_ords (Some (lead_bits b)) rest
           end
  end.

Definition byte_values (b : string) : list N :=
  map N_of_ascii (list_ascii_of_string b).

(** The code points of a byte sequence; [None] when the check refuses it. *)
Definition code_points (b : string) : option (list N) :=
  if utf8_check 0 (byte_values b)
  then Some (utf8_ords None (byte_values b))
  else None.

(** [b.decode('utf-8')] *)
Definition decode_utf8 (b : string) : result string :=
  match code_points b with
  | Some _ => Ok b
  | None => Raise UnicodeError
  end.

(** [b.decode('ascii')]: MicroPython's [decode] does not look at the name
    of the codec; the check is the same. *)
Definition decode_ascii (b : string) : result string := decode_utf8 b.

(** [[ord(c) for c in s]] of a str [s]. *)
Definition ords (s : string) : list N :=
  match code_points s with
  | Some cps => cps
  | None => []
  end.

(** [ConnectionManager.is_printable] *)
Definition is_printable (s : string) : bool :=
  forallb (fun c => (31 <? c) && (c <? 127))%N (ords s).

Definition hex_digit (n : N) : ascii :=
  ascii_of_N (if (n <? 10)%N then 48 + n else 87 + n).

(** ['{:02x}'.format(b)] for a byte [b]. *)
Definition hex2 (b : N) : string :=
  String (hex_digit (b / 16)) (String (hex_digit (b mod 16)) EmptyString).

(** [':'.join(['{:02x}'.format(b) for b in bssid])] *)
Definition format_bssid (bssid : string) : string :=
  String.concat ":" (map hex2 (byte_values bssid)).

(* ================================================================= *)
(** ** ConnectionManager: scanning *)

(** A row of the result: (ssid, bssid as colon-hex, rssi). *)
Definition scan_row : Type := (string * string * Z)%type.

(** The list comprehension of [scan_available_networks]: the three
    [ssid.decode('utf-8')] of an entry give the same outcome and are written
    once. *)
Fixpoint scan_rows (nets : list network) : result (list scan_row) :=
  match nets with
  | [] => Ok []
  | n :: rest =>
      match decode_utf8 (net_ssid n) with
      | Ok name =>
          match scan_rows rest with
          | Ok rows =>
              if negb (name =? EmptyString) && is_printable name
              then Ok ((name, format_bssid (net_bssid n), net_rssi n) :: rows)
              else Ok rows
          | Raise e => Raise e
          | Running => Running
          end
      | Raise e => Raise e
      | Running => Running
      end
  end.

(** [self.wlan_sta.scan()] *)
Definition sta_scan : M (list network) :=
  fun w => (Ok (sta_visible (wlan_sta w)), w).

(** [def scan_available_networks(self)] *)
Definition scan_available_networks {rt : Runtime} : M (list scan_row) :=
  networks <- sta_scan ;;
  lift (scan_rows (sorted_by_rssi networks)).

(** Strings with bytes that have no printable notation. *)
Definition bytes_of (codes : list N) : string :=
  string_of_list_ascii (map ascii_of_N codes).

(* ================================================================= *)
(** ** Strings of the protocol *)

Definition CRLF : string := String "013" (String "010" EmptyString).

Definition QUOTE : string := String "034" EmptyString.

Definition string_of_Z (z : Z) : string := NilZero.string_of_int (Z.to_int z).

(** White space for [str.split()] and [str.strip()]: the space and the
    five controls from tab to carriage return, and nothing else. *)
Definition is_space (c : ascii) : bool :=
  let n := nat_of_ascii c in
  ((n =? 32) || ((9 <=? n) && (n <=? 13)))%nat.

(** [s.split()]: the runs of characters between white space; [cur] is the
    run being read. *)
Fixpoint split_ws (cur s : string) : list string :=
  match s with
  | EmptyString => if cur =? EmptyString then [] else [cur]
  | String c rest =>
      if is_space c
      then (if cur =? EmptyString then split_ws EmptyString rest
            else cur :: split_ws EmptyString rest)
      else split_ws (cur ++ String c EmptyString) rest
  end.

Definition py_split (s : string) : list string := split_ws EmptyString s.

(** [s.split(":", 1)]: [Some (before, after)] for the two items around the
    first colon, [None] for the single item of a string without colon. *)
Fixpoint split_colon (s : string) : option (string * string) :=
  match s with
  | EmptyString => None
  | String c rest =>
      if (c =? ":")%char then Some (EmptyString, rest)
      else match split_colon rest with
           | Some (before, after) => Some (String c before, after)
           | None => None
           end
  end.

Fixpoint lstrip (s : string) : string :=
  match s with
  | EmptyString => EmptyString
  | String c rest => if is_space c then lstrip rest else s
  end.

Definition string_rev (s : string) : string :=
  string_of_list_ascii (rev (list_ascii_of_string s)).

(** [s.strip()] *)
Definition strip (s : string) : string :=
  string_rev (lstrip (string_rev (lstrip s))).

(** [s.endswith(suffix)] *)
Definition ends_with (suffix s : string) : bool :=
  prefix (string_rev suffix) (string_rev s).

(** [s[-1]]: [None] is the [IndexError] of the empty string. *)
Definition last_char (s : string) : option ascii :=
  match rev (list_ascii_of_string s) with
  | [] => None
  | c :: _ => Some c
  end.

(** [s[:-1]] *)
Definition drop_last (s : string) : string :=
  string_of_list_ascii (removelast (list_ascii_of_string s)).

(** [f.read(segment)] until it returns nothing, on a file opened in binary
    mode: the pieces of [s], [segment] bytes each, the last one apart. *)
Fixpoint segments (fuel segment : nat) (s : string) : list string :=
  match fuel with
  | O => []
  | S fuel' =>
      if s =? EmptyString then []
      else substring 0 segment s
           :: segments fuel' segment (substring segment (String.length s - segment) s)
  end.

(** The same loop on a file opened in text mode. *)
Fixpoint text_segments {rt : Runtime} (fuel segment : nat) (s : string)
    : list string :=
  match fuel with
  | O => []
  | S fuel' =>
      let data := read_chars segment s in
      if data =? EmptyString then []
      else data
           :: text_segments fuel' segment
                (substring (String.length data)
                           (String.length s - String.length data) s)
  end.

(** [for l in f]: the lines of a text file, each with its line end. *)
Fixpoint file_lines (cur s : string) : list string :=
  match s with
  | EmptyString => if cur =? EmptyString then [] else [cur]
  | String c rest =>
      if (c =? "010")%char
      then (cur ++ String c EmptyString)%string :: file_lines EmptyString rest
      else file_lines (cur ++ String c EmptyString) rest
  end.

(* ================================================================= *)
(** ** Request, and the transport of the connection *)

Record Request : Type := {
  url : string;
  method : string;
  headers : list (string * string);
  route : string
}.

Fixpoint header_lookup (name : string) (h : list (string * string)) : option string :=
  match h with
  | [] => None
  | (n, v) :: rest => if n =? name then Some v else header_lookup name rest
  end.

(** [request.headers[header] = value] *)
Fixpoint header_store (name value : string) (h : list (string * string))
    : list (string * string) :=
  match h with
  | [] => [(name, value)]
  | (n, v) :: rest =>
      if n =? name then (n, value) :: rest else (n, v) :: header_store name value rest
  end.

Definition set_headers (h : list (string * string)) (r : Request) : Request :=
  {| url := url r; method := method r; headers := h; route := route r |}.

Definition set_route (rt : string) (r : Request) : Request :=
  {| url := url r; method := method r; headers := headers r; route := rt |}.

(** [request.write] = [writer.awrite] *)
Definition conn_write (data : string) : M unit :=
  fun w =>
    let c := conn w in
    (Ok tt,
     with_conn {| incoming := incoming c; outgoing := outgoing c ++ [data];
                  closed := closed c |} w).

(** [reader.readline()]: the next line, or the empty bytes at the end. *)
Definition conn_readline : M string :=
  fun w =>
    let c := conn w in
    match incoming c with
    | [] => (Ok EmptyString, w)
    | line :: rest =>
        (Ok line,
         with_conn {| incoming := rest; outgoing := outgoing c; closed := closed c |} w)
    end.

(** [request.read(n)] = [reader.read(n)]: the next [n] bytes, all that is
    left when [n] is negative. *)
Definition conn_read (n : Z) : M string :=
  fun w =>
    let c := conn w in
    let pending := String.concat EmptyString (incoming c) in
    let k := if (n <? 0)%Z then String.length pending else Z.to_nat n in
    let rest := substring k (String.length pending - k) pending in
    (Ok (substring 0 k pending),
     with_conn {| incoming := (if rest =? EmptyString then [] else [rest]);
                  outgoing := outgoing c; closed := closed c |} w).

(** [writer.aclose()] *)
Definition conn_aclose : M unit :=
  fun w =>
    let c := conn w in
    (Ok tt,
     with_conn {| incoming := incoming c; outgoing := outgoing c; closed := true |} w).

(* ================================================================= *)
(** ** The HTTP engine *)

(** The context of a template: a dict, or a callable that produces it. *)
Inductive template_context : Type :=
| ContextDict (d : dict)
| ContextCall (f : M dict).

(** What a route maps to; [generate_output] tells the four shapes apart
    with [isinstance]. *)
Inductive handler : Type :=
| HContext (context : dict)
| HFile (path : string)
| HTemplate (path : string) (context : template_context)
| HCall (f : Request -> M (option handler)).

(** [if handler:] on the value a callable returned ([None] apart). *)
Definition handler_truthy (h : handler) : bool :=
  match h with
  | HContext d => match d with [] => false | _ :: _ => true end
  | HFile path => negb (path =? EmptyString)
  | HTemplate _ _ => true
  | HCall _ => true
  end.

Definition routes_table : Type := list (string * handler).

Fixpoint routes_lookup (u : string) (routes : routes_table) : option handler :=
  match routes with
  | [] => None
  | (r, h) :: rest => if r =? u then Some h else routes_lookup u rest
  end.

Definition extract_headers : list string :=
  ["Authorization"; "Content-Length"; "Content-Type"].

Definition assets_extensions : list string := ["html"; "css"; "js"].

Definition STATIC_DIR : string := "./".

Definition INDEX_FILE : string := STATIC_DIR ++ "index.html".

Definition OK_LINE : string := "HTTP/1.1 200 OK" ++ CRLF.

Section Http.
Context {rt : Runtime}.

(** [async def write(request, data)]: the encoding keeps the bytes. *)
Definition write (request : Request) (data : string) : M unit :=
  conn_write data.

(** [int(request.headers['Content-Length'])] *)
Definition parse_int (s : string) : M Z :=
  match int_of_str s with
  | Some n => ret n
  | None => raise ValueError
  end.

(** [async def read(request)] *)
Definition read (request : Request) : M string :=
  match header_lookup "Content-Length" (headers request) with
  | Some value =>
      length <- parse_int value ;;
      try_except (conn_read length) any_exception (fun _ => ret EmptyString)
  | None => ret EmptyString
  end.

(** [async def error(request, code, reason)] *)
Definition error (request : Request) (code : Z) (reason : string) : M unit :=
  conn_write ("HTTP/1.1 " ++ string_of_Z code ++ " " ++ reason ++ CRLF ++ CRLF) ;;
  conn_write ("<h1>" ++ reason ++ "</h1>").

(** [json.loads(s)] *)
Definition loads (s : string) : M pyval :=
  match json_loads s with
  | Some v => ret v
  | None => raise ValueError
  end.

(** [async def json_read(request)] *)
Definition json_read (request : Request) : M pyval :=
  content <- read request ;;
  try_except (loads content) any_exception (fun _ => loads "{}").

(** [async def json_write(request, response_json)] *)
Definition json_write (request : Request) (response_json : string) : M unit :=
  conn_write OK_LINE ;;
  conn_write ("Content-Type: application/json" ++ CRLF ++ CRLF) ;;
  conn_write response_json.

(** [json.dumps({"error": message})] *)
Definition error_body (message : string) : string :=
  json_dumps (PDict [(PStr "error", PStr message)]).

(** [async def json_error(request, code, reason, message)] *)
Definition json_error (request : Request) (code : Z) (reason message : string) : M unit :=
  conn_write ("HTTP/1.1 " ++ string_of_Z code ++ " " ++ reason ++ CRLF) ;;
  conn_write ("Content-Type: application/json" ++ CRLF ++ CRLF) ;;
  conn_write (error_body message).

Fixpoint write_all (request : Request) (chunks : list string) : M unit :=
  match chunks with
  | [] => ret tt
  | data :: rest => conn_write data ;; write_all request rest
  end.

(** The [except OSError as e] clause of [send_file] and of the template
    branch: anything but a missing file is raised again. *)
Definition file_not_found (e : exn) : M unit :=
  match e with
  | OSError errno =>
      if (errno =? ENOENT)%Z then raise (HttpError 404 "File Not Found") else raise e
  | _ => raise e
  end.

(** [async def send_file(request, filename, segment=64, binary=False)]:
    [binary] selects the mode of [open], and with it what one [read]
    returns. *)
Definition send_file (request : Request) (filename : string) (binary : bool) : M unit :=
  try_except
    (content <- open_read filename ;;
     write_all request
       (if binary
        then segments (String.length content) 64 content
        else text_segments (String.length content) 64 content))
    is_OSError file_not_found.

Fixpoint write_formatted (request : Request) (context : dict) (lines : list string)
    : M unit :=
  match lines with
  | [] => ret tt
  | l :: rest =>
      text <- lift (str_format l context) ;;
      write request text ;;
      write_formatted request context rest
  end.

(** The [tuple] branch of [generate_output]. *)
Definition render_template (request : Request) (filename : string)
    (context : template_context) : M unit :=
  write request (OK_LINE ++ CRLF) ;;
  context <- match context with
             | ContextCall f => f
             | ContextDict d => ret d
             end ;;
  try_except
    (content <- open_read filename ;;
     write_formatted request context (file_lines EmptyString content))
    is_OSError file_not_found.

(** [async def generate_output(self, request, handler)]; [fuel] bounds the
    number of callables that hand over to a next handler. *)
Fixpoint generate_output (fuel : nat) (request : Request) (h : handler) : M unit :=
  match h with
  | HContext context => render_template request (url request) (ContextDict context)
  | HFile path =>
      write request (OK_LINE ++ CRLF) ;;
      send_file request path false
  | HTemplate filename context => render_template request filename context
  | HCall f =>
      match fuel with
      | O => lift Running
      | S fuel' =>
          next <- f request ;;
          match next with
          | Some h' =>
              if handler_truthy h' then generate_output fuel' request h' else ret tt
          | None => ret tt
          end
      end
  end.

(** The header loop of [handle], over the lines still to be read: the
    headers kept, and the lines left after the one that ends the loop. *)
Fixpoint parse_headers (lines : list string) (kept : list (string * string))
    : result (list (string * string)) * list string :=
  match lines with
  | [] => (Ok kept, [])
  | line :: rest =>
      match decode_ascii line with
      | Ok text =>
          match split_colon text with
          | Some (header, value) =>
              let value := strip value in
              if existsb (String.eqb header) extract_headers
              then parse_headers rest (header_store header value kept)
              else parse_headers rest kept
          | None => (Ok kept, rest)
          end
      | Raise e => (Raise e, rest)
      | Running => (Running, rest)
      end
  end.

Definition read_headers (request : Request) : M Request :=
  fun w =>
    let c := conn w in
    let '(r, rest) := parse_headers (incoming c) (headers request) in
    let w' := with_conn {| incoming := rest; outgoing := outgoing c;
                           closed := closed c |} w in
    match r with
    | Ok kept => (Ok (set_headers kept request), w')
    | Raise e => (Raise e, w')
    | Running => (Running, w')
    end.

(** The [for route, handler in self.routes.items()] loop: the first route
    that matches, [None] when the loop runs to its [else]. *)
Fixpoint find_route (u : string) (routes : routes_table)
    : result (option (string * handler)) :=
  match routes with
  | [] => Ok None
  | (r, h) :: rest =>
      if r =? u then Ok (Some (r, h))
      else
        match last_char r with
        | None => Raise IndexError
        | Some c =>
            if (c =? "*")%char && prefix (drop_last r) u
            then Ok (Some (r, h))
            else find_route u rest
        end
  end.

Definition has_asset_extension (u : string) : bool :=
  existsb (fun extension => ends_with ("." ++ extension) u) assets_extensions.

(** Lines 450-482 of [handle]: routing. *)
Definition dispatch (fuel : nat) (routes : routes_table) (request : Request) : M unit :=
  match routes_lookup (url request) routes with
  | Some h =>
      generate_output fuel (set_route (url request) request) h
  | None =>
      found <- lift (find_route (url request) routes) ;;
      match found with
      | Some (r, h) => generate_output fuel (set_route r request) h
      | None =>
          if (url request =? EmptyString) || (url request =? "/")
          then send_file request INDEX_FILE false
          else if has_asset_extension (url request)
               then send_file request (STATIC_DIR ++ "/" ++ url request) true
               else raise (HttpError 404 "File Not Found")
      end
  end.

(** [except HttpError as e: ... await self.callback_error(request, code, message)],
    with [callback_error = staticmethod(error)]. *)
Definition render_http_error (request : Request) (e : exn) : M unit :=
  match e with
  | HttpError code message => error request code message
  | _ => raise e
  end.

(** [except OSError as e: if e.args[0] != uerrno.ECONNRESET: raise] *)
Definition skip_connection_reset (e : exn) : M unit :=
  match e with
  | OSError errno => if (errno =? ECONNRESET)%Z then ret tt else raise e
  | _ => raise e
  end.

Definition supported_version (version : string) : bool :=
  (version =? "HTTP/1.0") || (version =? "HTTP/1.1").

(** The body of the inner [try] of [handle]. *)
Definition handle_body (fuel : nat) (routes : routes_table) (request : Request)
    (version : string) : M unit :=
  if negb (supported_version version)
  then raise (HttpError 505 "Version Not Supported")
  else
    request <- read_headers request ;;
    (* callback_request is None *)
    dispatch fuel routes request.

(** The two nested [try] statements of [handle], with their [except] and
    [finally] clauses. *)
Definition handle_guarded (fuel : nat) (routes : routes_table) (request : Request)
    (version : string) : M unit :=
  try_finally
    (try_except
       (try_except (handle_body fuel routes request version)
                   is_HttpError (render_http_error request))
       is_OSError skip_connection_reset)
    conn_aclose.

(** [async def handle(self, reader, writer)] *)
Definition handle (fuel : nat) (routes : routes_table) : M unit :=
  items <- conn_readline ;;
  items <- lift (decode_ascii items) ;;
  match py_split items with
  | [method_; url_; version] =>
      handle_guarded fuel routes
        {| url := url_; method := method_; headers := []; route := EmptyString |}
        version
  | _ => ret tt
  end.

End Http.

(* ================================================================= *)
(** ** ConnectionManager: the captive portal *)

Section Portal.
Context {rt : Runtime}.

(** [async def auto_connect(self)]: the [for] loop over the credentials. *)
Fixpoint auto_connect_loop (creds : list (pyval * pyval)) : M bool :=
  match creds with
  | [] => ret false
  | (ssid, password) :: rest =>
      success <- connect ssid password 10000 ;;
      if (success : bool) then ret true else auto_connect_loop rest
  end.

Definition auto_connect : M bool :=
  creds <- list_credentials ;;
  match creds with
  | [] => ret false
  | _ :: _ => auto_connect_loop creds
  end.

(** [def disable_ap(self)] *)
Definition disable_ap : M unit :=
  fun w => (Ok tt, with_ap_active false w).

Definition internal_server_error (request : Request) : M (option handler) :=
  json_error request 500 "Internal Server Error" "Internal Server Error" ;;
  ret None.

Definition status_body (status : string) : string :=
  json_dumps (PDict [(PStr "status", PStr status)]).

(** [content.get(key)]: only a dict has the method. *)
Definition py_get (content : pyval) (key : string) : M pyval :=
  match content with
  | PDict items =>
      match dict_lookup (PStr key) items with
      | Some v => ret v
      | None => ret PNone
      end
  | _ => raise AttributeError
  end.

(** The body of the answer to [/ping], a literal of the source. *)
Definition PONG : string :=
  "{" ++ QUOTE ++ "status" ++ QUOTE ++ ": " ++ QUOTE ++ "pong" ++ QUOTE ++ "}".

(** [async def __ping(self, request)] *)
Definition ping (request : Request) : M (option handler) :=
  json_write request PONG ;;
  ret None.

Definition network_json (row : scan_row) : pyval :=
  let '(ssid, mac, rssi) := row in
  PDict [(PStr "ssid", PStr ssid); (PStr "mac", PStr mac); (PStr "rssi", PInt rssi)].

(** [async def __wifi_scan(self, request)] *)
Definition wifi_scan (request : Request) : M (option handler) :=
  try_except
    (rows <- scan_available_networks ;;
     json_write request
       (json_dumps (PDict [(PStr "networks", PList (map network_json rows))])) ;;
     ret None)
    any_exception (fun _ => internal_server_error request).

(** [async def __wifi_add(self, request)] *)
Definition wifi_add (request : Request) : M (option handler) :=
  try_except
    (content <- json_read request ;;
     ssid <- py_get content "ssid" ;;
     password <- py_get content "password" ;;
     if negb (truthy ssid) || negb (truthy password)
     then
       json_error request 400 "Bad Request" "both ssid and password must be provided" ;;
       ret None
     else
       add ssid password ;;
       await save ;;
       json_write request (status_body "credentials saved") ;;
       ret None)
    any_exception (fun _ => internal_server_error request).

Definition masked_json (cred : pyval * pyval) : pyval :=
  PDict [(PStr "ssid", fst cred); (PStr "password", PStr "****")].

(** [async def __wifi_list(self, request)] *)
Definition wifi_list (request : Request) : M (option handler) :=
  try_except
    (creds <- list_credentials ;;
     json_write request
       (json_dumps (PDict [(PStr "credentials", PList (map masked_json creds))])) ;;
     ret None)
    any_exception (fun _ => internal_server_error request).

(** [async def __wifi_clear(self, request)] *)
Definition wifi_clear (request : Request) : M (option handler) :=
  try_except
    (clear ;;
     await save ;;
     json_write request (status_body "credentials cleared") ;;
     ret None)
    any_exception (fun _ => internal_server_error request).

(** [async def __wifi_connect(self, request)] *)
Definition wifi_connect (request : Request) : M (option handler) :=
  try_except
    (success <- auto_connect ;;
     if (success : bool)
     then json_write request (status_body "success") ;; disable_ap ;; ret None
     else json_write request (status_body "failed") ;; ret None)
    any_exception (fun _ => internal_server_error request).

(** The route table of [start_access_portal]. *)
Definition portal_routes : routes_table :=
  [ ("/ping", HCall ping);
    ("/wifi/scan", HCall wifi_scan);
    ("/wifi/add", HCall wifi_add);
    ("/wifi/list", HCall wifi_list);
    ("/wifi/clear", HCall wifi_clear);
    ("/wifi/connect", HCall wifi_connect) ].

(** The portal serving one connection: no handler of the table hands over
    to a next one, so one unit of fuel is all [generate_output] uses. *)
Definition serve_portal : M unit := handle 1 portal_routes.

End Portal.

(* ================================================================= *)
(** ** Routing, in the words of the specification *)

(** Where a request goes, by the five cases of the routing precedence. *)
Inductive target : Type :=
| ExactRoute (h : handler)
| WildcardRoute (pattern : string) (h : handler)
| IndexDocument
| StaticAsset
| NotFound.

(** A pattern that ends in the wildcard marker and whose prefix matches the
    start of the url. *)
Definition wildcard_matches (pattern u : string) : bool :=
  ends_with "*" pattern && prefix (drop_last pattern) u.

Definition spec_resolve (routes : routes_table) (u : string) : target :=
  match routes_lookup u routes with
  | Some h => ExactRoute h
  | None =>
      match find (fun rh => wildcard_matches (fst rh) u) routes with
      | Some (pattern, h) => WildcardRoute pattern h
      | None =>
          if (u =? EmptyString) || (u =? "/") then IndexDocument
          else if has_asset_extension u then StaticAsset
          else NotFound
      end
  end.

Section Serve.
Context {rt : Runtime}.

(** What is done for each target. *)
Definition serve (fuel : nat) (t : target) (request : Request) : M unit :=
  match t with
  | ExactRoute h => generate_output fuel (set_route (url request) request) h
  | WildcardRoute pattern h => generate_output fuel (set_route pattern request) h
  | IndexDocument => send_file request INDEX_FILE false
  | StaticAsset => send_file request (STATIC_DIR ++ "/" ++ url request) true
  | NotFound => raise (HttpError 404 "File Not Found")
  end.

End Serve.

Definition nonempty_patterns (routes : routes_table) : bool :=
  forallb (fun rh => negb (fst rh =? EmptyString)) routes.

(* ================================================================= *)
(** ** A runtime to run the examples with *)

(** [json.dumps] on values whose strings need no escape (floats, which the
    examples never serialise, are written as a fraction). *)
Fixpoint sample_dumps (v : pyval) : string :=
  match v with
  | PNone => "null"
  | PBool true => "true"
  | PBool false => "false"
  | PInt z => string_of_Z z
  | PFloat q => string_of_Z (Qnum q) ++ "/" ++ string_of_Z (Zpos (Qden q))
  | PStr s => QUOTE ++ s ++ QUOTE
  | PList items => "[" ++ String.concat ", " (map sample_dumps items) ++ "]"
  | PDict items =>
      "{"
      ++ String.concat ", "
           (map (fun kv => (sample_dumps (fst kv) ++ ": " ++ sample_dumps (snd kv))%string)
                items)
      ++ "}"
  end.

(** The request bodies of the examples. *)
Definition body_ssid_only : string :=
  "{" ++ QUOTE ++ "ssid" ++ QUOTE ++ ":" ++ QUOTE ++ "home" ++ QUOTE ++ "}".

Definition body_ssid_password : string :=
  "{" ++ QUOTE ++ "ssid" ++ QUOTE ++ ":" ++ QUOTE ++ "home" ++ QUOTE ++ ","
  ++ QUOTE ++ "password" ++ QUOTE ++ ":" ++ QUOTE ++ "secret" ++ QUOTE ++ "}".

Definition body_ssid_list : string :=
  "{" ++ QUOTE ++ "ssid" ++ QUOTE ++ ":[" ++ QUOTE ++ "home" ++ QUOTE ++ "],"
  ++ QUOTE ++ "password" ++ QUOTE ++ ":" ++ QUOTE ++ "secret" ++ QUOTE ++ "}".

(** [json.loads] on the texts the examples use; any other text is taken as
    malformed. *)
Definition sample_loads (s : string) : option pyval :=
  if s =? "{}" then Some (PDict [])
  else if s =? body_ssid_only then Some (PDict [(PStr "ssid", PStr "home")])
  else if s =? body_ssid_password
       then Some (PDict [(PStr "ssid", PStr "home"); (PStr "password", PStr "secret")])
  else if s =? body_ssid_list
       then Some (PDict [(PStr "ssid", PList [PStr "home"]);
                         (PStr "password", PStr "secret")])
  else None.

Definition digit_value (c : ascii) : option Z :=
  let n := nat_of_ascii c in
  if ((48 <=? n) && (n <=? 57))%nat then Some (Z.of_nat (n - 48)) else None.

Fixpoint digits_value (acc : Z) (s : string) : option Z :=
  match s with
  | EmptyString => Some acc
  | String c rest =>
      match digit_value c with
      | Some d => digits_value (10 * acc + d) rest
      | None => None
      end
  end.

(** [int] on plain decimal numerals. *)
Definition sample_int (s : string) : option Z :=
  match s with
  | EmptyString => None
  | _ => digits_value 0 s
  end.

(** A sort for the examples: insertion from the right, descending. *)
Fixpoint insert_by_rssi (x : network) (l : list network) : list network :=
  match l with
  | [] => [x]
  | y :: rest =>
      if (net_rssi x <? net_rssi y)%Z
      then y :: insert_by_rssi x rest
      else x :: y :: rest
  end.

Fixpoint insertion_sort_by_rssi (l : list network) : list network :=
  match l with
  | [] => []
  | x :: rest => insert_by_rssi x (insertion_sort_by_rssi rest)
  end.

#[export] Instance sample_runtime : Runtime.
Proof.
  assert (forall x l, Permutation (x :: l) (insert_by_rssi x l)) as Hperm.
  { intros x l. induction l as [|y l IH]; simpl; [apply Permutation_refl|].
    destruct (net_rssi x <? net_rssi y)%Z.
    - eapply perm_trans; [apply perm_swap|]. now apply perm_skip.
    - apply Permutation_refl. }
  refine {| json_dumps := sample_dumps;
            json_loads := sample_loads;
            int_of_str := sample_int;
            str_format := fun line _ => Ok line;
            sorted_by_rssi := insertion_sort_by_rssi;
            read_chars := fun n s => substring 0 n s;
            json_loads_empty_object := eq_refl;
            json_loads_empty_text := eq_refl;
            sorted_by_rssi_perm := _;
            sorted_by_rssi_sorted := _;
            read_chars_prefix := _;
            read_chars_bound := _;
            read_chars_progress := _ |}.
  - intros l. induction l as [|x l IH]; simpl; [apply perm_nil|].
    eapply perm_trans; [apply perm_skip, IH | apply Hperm].
  - intros l. induction l as [|x l IH]; simpl; [constructor|].
    revert IH. generalize (insertion_sort_by_rssi l). clear l.
    intros l Hs. induction l as [|y l IH]; simpl.
    + constructor; constructor.
    + inversion Hs as [|? ? Hl Hy]; subst.
      destruct (net_rssi x <? net_rssi y)%Z eqn:E.
      * apply Z.ltb_lt in E. constructor; [now apply IH|].
        rewrite Forall_forall in *. intros z Hz.
        apply (Permutation_in _ (Permutation_sym (Hperm x l))) in Hz.
        destruct Hz as [<- | Hz]; [lia | now apply Hy].
      * apply Z.ltb_ge in E. constructor; [assumption|].
        constructor; [exact E|].
        rewrite Forall_forall in *. intros z Hz.
        specialize (Hy z Hz). lia.
  - intros n. induction n as [|n IH]; intros [|c s]; simpl; try reflexivity.
    destruct (ascii_dec c c) as [_|Hc]; [apply IH | now contradiction Hc].
  - intros n. induction n as [|n IH]; intros [|c s]; simpl; try lia.
    specialize (IH s). lia.
  - intros [|n] [|c s] Hn Hs; simpl; try lia; try discriminate.
    now contradiction Hs.
Defined.

(** A radio that never reports a link and sees no network. *)
Definition idle_station : station :=
  {| sta_active := false; sta_joining := None; sta_polls := 0;
     sta_link := fun _ => false; sta_visible := [] |}.

(** The device as [ConnectionManager()] finds it on a first boot: no
    credential file, hence an empty store. *)
Definition fresh_world : world :=
  {| files := [];
     wlan_sta := idle_station;
     wlan_ap_active := true;
     slept := [];
     cred_manager := {| storage := "wifi.dat"; credentials := [] |};
     conn := {| incoming := []; outgoing := []; closed := false |} |}.

(** The fresh device with the lines of one request arriving. *)
Definition receiving (lines : list string) : world :=
  with_conn {| incoming := lines; outgoing := []; closed := false |} fresh_world.

(** The world after [chunks] were written to the connection. *)
Definition wrote (chunks : list string) (w : world) : world :=
  with_conn {| incoming := incoming (conn w);
               outgoing := outgoing (conn w) ++ chunks;
               closed := closed (conn w) |} w.

(** The world after the connection was closed. *)
Definition hung_up (w : world) : world :=
  with_conn {| incoming := incoming (conn w);
               outgoing := outgoing (conn w);
               closed := true |} w.

(** The world after the lines up to [rest] were read. *)
Definition consumed (rest : list string) (w : world) : world :=
  with_conn {| incoming := rest;
               outgoing := outgoing (conn w);
               closed := closed (conn w) |} w.

(** The two shapes of an error response: the JSON one of [json_error], and
    the HTML one of [error]. *)
Definition json_error_chunks {rt : Runtime} (code : Z) (reason message : string)
    : list string :=
  [ "HTTP/1.1 " ++ string_of_Z code ++ " " ++ reason ++ CRLF;
    "Content-Type: application/json" ++ CRLF ++ CRLF;
    json_dumps (PDict [(PStr "error", PStr message)]) ].

Definition html_error_chunks (code : Z) (reason : string) : list string :=
  [ "HTTP/1.1 " ++ string_of_Z code ++ " " ++ reason ++ CRLF ++ CRLF;
    "<h1>" ++ reason ++ "</h1>" ].

Definition json_ok_chunks (body : string) : list string :=
  [ OK_LINE; "Content-Type: application/json" ++ CRLF ++ CRLF; body ].


(** [content.get(key)] on the items of a dict: a missing key gives None. *)
Definition field (key : string) (items : dict) : pyval :=
  match dict_lookup (PStr key) items with
  | Some v => v
  | None => PNone
  end.

Definition VALIDATION_MESSAGE : string := "both ssid and password must be provided".

(** A request for [/wifi/add] whose headers announce a body of 15 bytes. *)
Definition add_request : Request :=
  {| url := "/wifi/add"; method := "POST";
     headers := [("Content-Length", "15")]; route := "/wifi/add" |}.

(** The same request with another value of Content-Length. *)
Definition add_request_of (length : string) : Request :=
  {| url := "/wifi/add"; method := "POST";
     headers := [("Content-Length", length)]; route := "/wifi/add" |}.

(** The fresh device with [nets] in radio range. *)
Definition seeing (nets : list network) : world :=
  with_sta {| sta_active := true; sta_joining := None; sta_polls := 0;
              sta_link := fun _ => false; sta_visible := nets |} fresh_world.

Definition SAMPLE_BSSID : string := bytes_of [0; 17; 34; 171; 205; 239]%N.

Definition access_point (ssid : string) (rssi : Z) : network :=
  {| net_ssid := ssid; net_bssid := SAMPLE_BSSID; net_channel := 6;
     net_rssi := rssi; net_security := 3; net_hidden := false |}.

(** The name Cafe with an acute accent, in UTF-8 and in Latin-1. *)
Definition CAFE_UTF8 : string := "Caf" ++ bytes_of [195; 169]%N.

Definition CAFE_LATIN1 : string := "Caf" ++ bytes_of [233]%N.

(** The filter of the specification, on the bytes of a name: not empty, and
    every byte in the printable range 32..126. *)
Definition printable_bytes (name : string) : bool :=
  forallb (fun b => (32 <=? b) && (b <=? 126))%N (byte_values name).

Definition kept (n : network) : bool :=
  negb (net_ssid n =? EmptyString) && printable_bytes (net_ssid n).

(** The filter of the code, on the decoded name: not empty, and every
    code point in the printable range. *)
Definition shown (n : network) : bool :=
  negb (net_ssid n =? EmptyString) && is_printable (net_ssid n).

(** A name of plain ASCII bytes. *)
Definition plain_ascii (name : string) : Prop :=
  Forall (fun b => (b < 128)%N) (byte_values name).

Definition row_of (n : network) : scan_row :=
  (net_ssid n, format_bssid (net_bssid n), net_rssi n).

(** The order of the scan result: [a] may come before [b]. *)
Definition stronger_or_equal (a b : network) : Prop :=
  (net_rssi b <= net_rssi a)%Z.

(** The name of the entry passes the check of [decode]. *)
Definition decodable (n : network) : Prop := code_points (net_ssid n) <> None.

(** [self.wlan_sta.disconnect()] *)
Definition sta_disconnect : M unit :=
  fun w =>
    let s := wlan_sta w in
    (Ok tt,
     with_sta {| sta_active := sta_active s; sta_joining := None;
                 sta_polls := sta_polls s; sta_link := sta_link s;
                 sta_visible := sta_visible s |} w).

(** [async def disconnect(self, timeout_ms = 10000)]; the parameter is not
    used by the body. *)
Definition disconnect : M bool :=
  up <- connected_now ;;
  if truthy up
  then
    sta_disconnect ;;
    r <- retry_until (fun result => py_eqb result (PBool false)) connected_now
                     (PInt 3) 1000 ;;
    ret (fst r)
  else ret true.

(** [def disable_network(self)] *)
Definition disable_network : M unit := sta_set_active false.

(** [async def boot(self, event_loop)] *)
Definition boot : M bool :=
  _ <- disconnect ;;
  up <- connected (PInt 3) 1000 ;;
  if negb up then auto_connect else ret true.

(** What the radio will report at the [j]-th poll from now. *)
Definition link_at (w : world) (j : nat) : bool :=
  sta_link (wlan_sta w) (sta_polls (wlan_sta w) + j).

(** The world after [k] polls that found no link, each followed by a sleep
    of [delay_ms]. *)
Definition polled (k : nat) (delay_ms : Z) (w : world) : world :=
  attempts connected_now delay_ms k w.

(** The world after [polls] more calls of [isconnected()] and [sleeps]
    sleeps of [delay_ms]. *)
Definition advance (polls sleeps : nat) (delay_ms : Z) (w : world) : world :=
  let s := wlan_sta w in
  with_slept (slept w ++ repeat delay_ms sleeps)
    (with_sta {| sta_active := sta_active s; sta_joining := sta_joining s;
                 sta_polls := polls + sta_polls s; sta_link := sta_link s;
                 sta_visible := sta_visible s |} w).

(** The world after the station was told to leave its network. *)
Definition dropped (w : world) : world := snd (sta_disconnect w).

(** The world after the station was switched on and told to join. *)
Definition asked_to_join (ssid password : pyval) (w : world) : world :=
  let s := wlan_sta w in
  with_sta {| sta_active := true; sta_joining := Some (ssid, password);
              sta_polls := sta_polls s; sta_link := sta_link s;
              sta_visible := sta_visible s |} w.

(** The world after a [connect] that gave up: the station was told to join,
    polled [n] times with a sleep of one second after each poll, and
    switched off. *)
Definition gave_up (ssid password : pyval) (n : nat) (w : world) : world :=
  let s := wlan_sta w in
  with_slept (slept w ++ repeat 1000%Z n)
    (with_sta {| sta_active := false; sta_joining := Some (ssid, password);
                 sta_polls := n + sta_polls s; sta_link := sta_link s;
                 sta_visible := sta_visible s |} w).

(** The world after [connect] gave up on each of [creds] in turn, with the
    ten polls of its default timeout. *)
Fixpoint tried (creds : list (pyval * pyval)) (w : world) : world :=
  match creds with
  | [] => w
  | (ssid, password) :: rest => tried rest (gave_up ssid password 10 w)
  end.

(** Every stored name and secret is a string, which is what the radio's
    [connect] takes. *)
Definition text_credentials (creds : dict) : Prop :=
  Forall (fun c => exists ssid password : string, c = (PStr ssid, PStr password)) creds.

(** A computation that always comes to an end: it returns or raises. *)
Definition finishes {A : Type} (m : M A) : Prop :=
  forall w : world, fst (m w) <> Running.

(** A complete JSON response: the three chunks of [json_write] or of
    [json_error]. *)
Definition json_response {rt : Runtime} (chunks : list string) : Prop :=
  (exists body, chunks = json_ok_chunks body)
  \/ (exists code reason message, chunks = json_error_chunks code reason message).

(** The six handlers of the portal. *)
Definition portal_handlers {rt : Runtime} : list (Request -> M (option handler)) :=
  [ping; wifi_scan; wifi_add; wifi_list; wifi_clear; wifi_connect].


(** The entry of [/wifi/list] for a stored network. *)
Definition masked_entry (ssid : pyval) : pyval :=
  PDict [(PStr "ssid", ssid); (PStr "password", PStr "****")].

(** A digit of lower-case hexadecimal notation. *)
Definition is_lower_hex (c : ascii) : bool :=
  let n := nat_of_ascii c in
  (((48 <=? n) && (n <=? 57)) || ((97 <=? n) && (n <=? 102)))%nat.

(** A radio whose link comes up at the third poll. *)
Definition late_link_world : world :=
  with_sta {| sta_active := true; sta_joining := None; sta_polls := 0;
              sta_link := fun k => Nat.leb 2 k; sta_visible := [] |} fresh_world.

(** A radio whose link is up at every poll. *)
Definition linked_world : world :=
  with_sta {| sta_active := true; sta_joining := None; sta_polls := 0;
              sta_link := fun _ => true; sta_visible := [] |} fresh_world.

(* ================================================================= *)
(** * Properties *)

(* ================================================================= *)
(** ** retry_until *)

Section RetryUntil.
Context {R : Type}.
Variables (predicate : R -> bool) (action : M R) (delay_ms : Z).

(** A failed attempt leaves the loop one iteration shorter, in the world
    after the action and the sleep. *)
Lemma retry_loop_failed_attempt (n : nat) (w : world) (r : R) :
  fst (action w) = Ok r ->
  predicate r = false ->
  retry_loop predicate action delay_ms (S n) w
  = retry_loop predicate action delay_ms n (attempt action delay_ms w).
Proof.
  intros Hact Hpred.
  unfold attempt. simpl. unfold bind at 1.
  destruct (action w) as [res w1]. simpl in Hact. subst res.
  rewrite Hpred. reflexivity.
Qed.

Lemma retry_loop_first_success (n : nat) (w w' : world) (r : R) :
  action w = (Ok r, w') ->
  predicate r = true ->
  retry_loop predicate action delay_ms (S n) w = (Ok (true, Some r), w').
Proof.
  intros Hact Hpred. simpl. unfold bind. rewrite Hact, Hpred. reflexivity.
Qed.

Lemma retry_loop_exhausted (n : nat) :
  forall w : world,
    (forall k, k < n ->
       exists r, fst (action (attempts action delay_ms k w)) = Ok r
                 /\ predicate r = false) ->
    retry_loop predicate action delay_ms n w
    = (Ok (false, None), attempts action delay_ms n w).
Proof.
  induction n as [|n IH]; intros w Hnever.
  - reflexivity.
  - destruct (Hnever 0) as [r [Hact Hpred]]; [lia|].
    rewrite (retry_loop_failed_attempt n w r Hact Hpred).
    simpl attempts. apply IH.
    intros k Hk. apply (Hnever (S k)). lia.
Qed.

End RetryUntil.

Lemma range_len_count (n : nat) : range_len (PInt (Z.of_nat n)) = Ok n.
Proof. simpl. now rewrite Nat2Z.id. Qed.

(** An integer that is not positive gives a loop that never runs. *)
Lemma retry_until_nonpositive {R : Type} (predicate : R -> bool) (action : M R)
    (z delay_ms : Z) (w : world) :
  (z <= 0)%Z ->
  retry_until predicate action (PInt z) delay_ms w = (Ok (false, None), w).
Proof.
  intros Hz. unfold retry_until, bind, lift. simpl.
  replace (Z.to_nat z) with 0 by lia. reflexivity.
Qed.

Lemma retry_until_exhausted {R : Type} (predicate : R -> bool) (action : M R)
    (n : nat) (delay_ms : Z) (w : world) :
  (forall k, k < n ->
     exists r, fst (action (attempts action delay_ms k w)) = Ok r
               /\ predicate r = false) ->
  retry_until predicate action (PInt (Z.of_nat n)) delay_ms w
  = (Ok (false, None), attempts action delay_ms n w).
Proof.
  intros Hnever. unfold retry_until, bind, lift. rewrite range_len_count.
  now apply retry_loop_exhausted.
Qed.

(** C3.  For every predicate, action, retry count [max_retries] and delay:
    if the predicate holds for the first action result (there is one as soon
    as [max_retries] is at least 1), [retry_until] returns (True, result) in
    the world the action left, with no sleep in between; if the predicate is
    not satisfied by any of the results, [retry_until] returns (False, None)
    in the world reached by exactly [max_retries] rounds of action and
    sleep. *)
Theorem retry_until_spec :
  forall (R : Type) (predicate : R -> bool) (action : M R)
         (max_retries : nat) (delay_ms : Z) (w : world),
    (forall r w',
        0 < max_retries ->
        action w = (Ok r, w') ->
        predicate r = true ->
        retry_until predicate action (PInt (Z.of_nat max_retries)) delay_ms w
        = (Ok (true, Some r), w'))
    /\
    ((forall k, k < max_retries ->
        exists r, fst (action (attempts action delay_ms k w)) = Ok r
                  /\ predicate r = false) ->
     retry_until predicate action (PInt (Z.of_nat max_retries)) delay_ms w
     = (Ok (false, None), attempts action delay_ms max_retries w)).
Proof.
  intros R predicate action max_retries delay_ms w.
  unfold retry_until, bind, lift. rewrite range_len_count.
  split.
  - intros r w' Hpos Hact Hpred.
    destruct max_retries as [|n]; [lia|].
    now apply retry_loop_first_success.
  - intros Hnever. now apply retry_loop_exhausted.
Qed.

(** The polls and the sleeps of [n] failed rounds on the station radio. *)
Lemma attempts_connected_now (delay_ms : Z) (n : nat) :
  forall w : world,
    sta_polls (wlan_sta (attempts connected_now delay_ms n w))
    = sta_polls (wlan_sta w) + n
    /\ slept (attempts connected_now delay_ms n w) = (slept w ++ repeat delay_ms n)%list
    /\ sta_link (wlan_sta (attempts connected_now delay_ms n w)) = sta_link (wlan_sta w)
    /\ sta_active (wlan_sta (attempts connected_now delay_ms n w))
       = sta_active (wlan_sta w).
Proof.
  induction n as [|n IH]; intros w.
  - simpl. rewrite Nat.add_0_r, app_nil_r. auto.
  - simpl attempts.
    destruct (IH (attempt connected_now delay_ms w)) as [Hp [Hs [Hl Ha]]].
    rewrite Hp, Hs, Hl, Ha. simpl.
    repeat split; [lia|].
    now rewrite <- app_assoc.
Qed.

Lemma retry_until_spec_witness :
  retry_until (fun r => py_eqb r (PBool true)) connected_now (PInt 3) 1000 linked_world
  = (Ok (true, Some (PBool true)), snd (connected_now linked_world))
  /\
  retry_until (fun r => py_eqb r (PBool true)) connected_now (PInt 3) 1000 fresh_world
  = (Ok (false, None), attempts connected_now 1000 3 fresh_world).
Proof.
  split.
  - apply (proj1 (retry_until_spec pyval (fun r => py_eqb r (PBool true))
                    connected_now 3 1000 linked_world));
      [lia | reflexivity | reflexivity].
  - apply (proj2 (retry_until_spec pyval (fun r => py_eqb r (PBool true))
                    connected_now 3 1000 fresh_world)).
    intros k Hk. exists (PBool false).
    destruct k as [|[|[|k]]]; [split; reflexivity .. | lia].
Defined.

(* ================================================================= *)
(** ** Polling the station radio *)

Section RetryOutcome.
Context {R : Type}.
Variables (predicate : R -> bool) (action : M R) (delay_ms : Z).

Lemma retry_loop_success_at (k : nat) :
  forall (n : nat) (w w' : world) (r : R),
    k < n ->
    (forall j, j < k ->
       exists rj, fst (action (attempts action delay_ms j w)) = Ok rj
                  /\ predicate rj = false) ->
    action (attempts action delay_ms k w) = (Ok r, w') ->
    predicate r = true ->
    retry_loop predicate action delay_ms n w = (Ok (true, Some r), w').
Proof.
  induction k as [|k IH]; intros n w w' r Hk Hfail Hact Hpred.
  - destruct n as [|n]; [lia|]. now apply retry_loop_first_success.
  - destruct n as [|n]; [lia|].
    destruct (Hfail 0) as [r0 [Hact0 Hpred0]]; [lia|].
    rewrite (retry_loop_failed_attempt predicate action delay_ms n w r0 Hact0 Hpred0).
    apply IH; [lia| |exact Hact|exact Hpred].
    intros j Hj. apply (Hfail (S j)). lia.
Qed.

Lemma retry_loop_raises_at (k : nat) :
  forall (n : nat) (w w' : world) (e : exn),
    k < n ->
    (forall j, j < k ->
       exists rj, fst (action (attempts action delay_ms j w)) = Ok rj
                  /\ predicate rj = false) ->
    action (attempts action delay_ms k w) = (Raise e, w') ->
    retry_loop predicate action delay_ms n w = (Raise e, w').
Proof.
  induction k as [|k IH]; intros n w w' e Hk Hfail Hact.
  - destruct n as [|n]; [lia|]. simpl in Hact |- *. unfold bind. now rewrite Hact.
  - destruct n as [|n]; [lia|].
    destruct (Hfail 0) as [r0 [Hact0 Hpred0]]; [lia|].
    rewrite (retry_loop_failed_attempt predicate action delay_ms n w r0 Hact0 Hpred0).
    apply IH; [lia| |exact Hact].
    intros j Hj. apply (Hfail (S j)). lia.
Qed.

End RetryOutcome.

Lemma advance_zero (delay_ms : Z) (w : world) : advance 0 0 delay_ms w = w.
Proof.
  destruct w as [f [a j p l v] ap sl cm c]. unfold advance, with_slept, with_sta.
  simpl. now rewrite app_nil_r.
Qed.

Lemma attempt_connected_now (delay_ms : Z) (w : world) :
  attempt connected_now delay_ms w = advance 1 1 delay_ms w.
Proof. reflexivity. Qed.

Lemma advance_advance (p1 s1 p2 s2 : nat) (delay_ms : Z) (w : world) :
  advance p2 s2 delay_ms (advance p1 s1 delay_ms w)
  = advance (p1 + p2) (s1 + s2) delay_ms w.
Proof.
  unfold advance, with_slept, with_sta. simpl.
  rewrite <- app_assoc, repeat_app.
  now replace (p2 + (p1 + sta_polls (wlan_sta w)))
    with (p1 + p2 + sta_polls (wlan_sta w)) by lia.
Qed.

(** [k] failed rounds on the station radio: [k] polls and [k] sleeps. *)
Lemma polled_advance (delay_ms : Z) (k : nat) :
  forall w : world, polled k delay_ms w = advance k k delay_ms w.
Proof.
  unfold polled. induction k as [|k IH]; intros w.
  - symmetry. apply advance_zero.
  - simpl attempts. rewrite IH, attempt_connected_now, advance_advance. reflexivity.
Qed.

Lemma connected_now_advance (p s : nat) (delay_ms : Z) (w : world) :
  connected_now (advance p s delay_ms w)
  = (Ok (PBool (link_at w p)), advance (S p) s delay_ms w).
Proof.
  unfold connected_now, sta_isconnected, advance, link_at, with_slept, with_sta.
  simpl. now rewrite (Nat.add_comm p).
Qed.

Lemma link_at_advance (p s : nat) (delay_ms : Z) (w : world) (j : nat) :
  link_at (advance p s delay_ms w) j = link_at w (p + j).
Proof.
  unfold link_at, advance. simpl. f_equal. lia.
Qed.

(** The loop of [retry_until] on the station radio, with a predicate that
    waits for the link to be [wanted]. *)
Lemma poll_loop_never (wanted : bool) (n : nat) (delay_ms : Z) (w : world) :
  (forall j, j < n -> link_at w j = negb wanted) ->
  retry_loop (fun r => py_eqb r (PBool wanted)) connected_now delay_ms n w
  = (Ok (false, None), advance n n delay_ms w).
Proof.
  intros Hdown.
  rewrite retry_loop_exhausted.
  - fold (polled n delay_ms w). now rewrite polled_advance.
  - intros k Hk. exists (PBool (negb wanted)).
    fold (polled k delay_ms w). rewrite polled_advance, connected_now_advance.
    rewrite (Hdown k Hk). split; [reflexivity | now destruct wanted].
Qed.

Lemma poll_loop_found (wanted : bool) (n k : nat) (delay_ms : Z) (w : world) :
  k < n ->
  (forall j, j < k -> link_at w j = negb wanted) ->
  link_at w k = wanted ->
  retry_loop (fun r => py_eqb r (PBool wanted)) connected_now delay_ms n w
  = (Ok (true, Some (PBool wanted)), advance (S k) k delay_ms w).
Proof.
  intros Hk Hdown Hup.
  apply (retry_loop_success_at _ connected_now delay_ms k); try assumption.
  - intros j Hj. exists (PBool (negb wanted)).
    fold (polled j delay_ms w). rewrite polled_advance, connected_now_advance.
    rewrite (Hdown j Hj). split; [reflexivity | now destruct wanted].
  - fold (polled k delay_ms w). rewrite polled_advance, connected_now_advance.
    now rewrite Hup.
  - now destruct wanted.
Qed.

Lemma poll_until_never (wanted : bool) (n : nat) (delay_ms : Z) (w : world) :
  (forall j, j < n -> link_at w j = negb wanted) ->
  retry_until (fun r => py_eqb r (PBool wanted)) connected_now
              (PInt (Z.of_nat n)) delay_ms w
  = (Ok (false, None), advance n n delay_ms w).
Proof.
  intros Hdown. unfold retry_until, bind, lift. rewrite range_len_count.
  now apply poll_loop_never.
Qed.

Lemma poll_until_found (wanted : bool) (n k : nat) (delay_ms : Z) (w : world) :
  k < n ->
  (forall j, j < k -> link_at w j = negb wanted) ->
  link_at w k = wanted ->
  retry_until (fun r => py_eqb r (PBool wanted)) connected_now
              (PInt (Z.of_nat n)) delay_ms w
  = (Ok (true, Some (PBool wanted)), advance (S k) k delay_ms w).
Proof.
  intros Hk Hdown Hup. unfold retry_until, bind, lift. rewrite range_len_count.
  now apply poll_loop_found.
Qed.

(* ================================================================= *)
(** ** ConnectionManager.connect *)

(** The retry count of [connect]: the quotient [timeout_ms / 1000] is a
    float, and the loop of [retry_until] counts up to its ceiling. *)
Lemma range_len_timeout (timeout_ms : Z) :
  range_len (PFloat (Qmake timeout_ms 1000))
  = Ok (Z.to_nat ((timeout_ms + 999) / 1000)).
Proof.
  unfold range_len. do 2 f_equal.
  unfold Qceiling, Qfloor, Qopp. cbn [Qnum Qden].
  pose proof (Z.div_mod (- timeout_ms) 1000 ltac:(lia)) as Hdm.
  pose proof (Z.mod_pos_bound (- timeout_ms) 1000 ltac:(lia)) as Hb.
  apply (Z.div_unique (timeout_ms + 999) 1000 _ (999 - (- timeout_ms) mod 1000));
    lia.
Qed.

Lemma link_at_asked_to_join (ssid password : pyval) (w : world) (j : nat) :
  link_at (asked_to_join ssid password w) j = link_at w j.
Proof. reflexivity. Qed.

(** [connect], once the radio was told to join and the retry count was
    computed: the polling loop, and what follows it. *)
Lemma connect_unfold (ssid password : pyval) (timeout_ms : Z) (w : world) :
  connect ssid password timeout_ms w
  = (ok <- (r <- retry_loop (fun result => py_eqb result (PBool true))
                   connected_now 1000 (Z.to_nat ((timeout_ms + 999) / 1000)) ;;
            ret (fst r)) ;;
     if negb ok then sta_set_active false ;; ret false else ret true)
      (asked_to_join ssid password w).
Proof.
  unfold connect, connected, retry_until.
  unfold bind at 1 2 3. cbn [sta_set_active sta_connect lift truediv].
  unfold bind at 2, lift. rewrite range_len_timeout. reflexivity.
Qed.

(** [connect] in closed form, by what the polls find. *)
Lemma connect_outcome (ssid password : pyval) (timeout_ms : Z) (w : world) :
  let n := Z.to_nat ((timeout_ms + 999) / 1000) in
  ((forall j, j < n -> link_at w j = false) ->
     connect ssid password timeout_ms w = (Ok false, gave_up ssid password n w))
  /\ (forall k,
        k < n ->
        (forall j, j < k -> link_at w j = false) ->
        link_at w k = true ->
        connect ssid password timeout_ms w
        = (Ok true, advance (S k) k 1000 (asked_to_join ssid password w))).
Proof.
  intros n. rewrite connect_unfold. fold n.
  split.
  - intros Hdown. unfold bind at 1 2.
    rewrite (poll_loop_never true n 1000 (asked_to_join ssid password w)).
    + reflexivity.
    + intros j Hj. rewrite link_at_asked_to_join. now apply Hdown.
  - intros k Hk Hdown Hup. unfold bind at 1 2.
    rewrite (poll_loop_found true n k 1000 (asked_to_join ssid password w) Hk).
    + reflexivity.
    + intros j Hj. rewrite link_at_asked_to_join. now apply Hdown.
    + now rewrite link_at_asked_to_join.
Qed.



(* ================================================================= *)
(** ** CredManager *)

Section CredManagerFacts.
Context {rt : Runtime}.

(** No mutator touches the filesystem: the coroutine that [save()] builds
    is dropped without being run. *)
Lemma add_leaves_files (ssid password : pyval) (w : world) :
  files (snd (add ssid password w)) = files w.
Proof.
  unfold add, bind, credentials_setitem, spawn, ret.
  destruct (hashable ssid); reflexivity.
Qed.

Lemma remove_leaves_files (ssid : pyval) (w : world) :
  files (snd (remove ssid w)) = files w.
Proof.
  unfold remove, bind, credentials_contains, credentials_delitem, spawn, ret.
  destruct (hashable ssid); [|reflexivity].
  destruct (dict_mem ssid (credentials (cred_manager w))); reflexivity.
Qed.

Lemma clear_leaves_files (w : world) :
  files (snd (clear w)) = files w.
Proof. reflexivity. Qed.

Lemma file_lookup_written (path content : string) (fs : list (string * fentry)) :
  file_lookup path ((path, Data content) :: fs) = Some (Data content).
Proof. simpl. now rewrite String.eqb_refl. Qed.

(** Awaiting [save] is what makes file and mapping agree. *)
Lemma save_converges (w : world) :
  fst (await save w) = Ok tt /\ converged (snd (await save w)).
Proof.
  unfold await, save, open_write, converged. simpl.
  now rewrite String.eqb_refl.
Qed.

End CredManagerFacts.

(** C1, at a failing input.  On a device with no credential file,
    [add("home", "secret")] updates the in-memory mapping and writes
    nothing: the backing file still does not exist, so mapping and file have
    not converged when the mutator returns. *)
Theorem add_does_not_persist :
  forall rt : Runtime,
  let out := add (PStr "home") (PStr "secret") fresh_world in
  fst out = Ok tt
  /\ credentials (cred_manager (snd out)) = [(PStr "home", PStr "secret")]
  /\ file_lookup "wifi.dat" (files (snd out)) = None
  /\ ~ converged (snd out).
Proof.
  intros rt. simpl. split; [reflexivity|]. split; [reflexivity|]. split; [reflexivity|].
  unfold converged. simpl. discriminate.
Qed.

(** The same for [clear] once a file exists: the mapping is emptied, the
    file keeps the credential. *)
Lemma clear_does_not_persist :
  let saved := snd ((add (PStr "home") (PStr "secret") ;; await save) fresh_world) in
  let out := clear saved in
  converged saved
  /\ credentials (cred_manager (snd out)) = []
  /\ files (snd out) = files saved
  /\ ~ converged (snd out).
Proof.
  simpl. split; [reflexivity|]. split; [reflexivity|]. split; [reflexivity|].
  unfold converged. simpl. discriminate.
Qed.

Section DictFacts.

Lemma py_eqb_refl (k : pyval) : hashable k = true -> py_eqb k k = true.
Proof.
  destruct k; simpl; try discriminate; intros _;
    try reflexivity; try apply String.eqb_refl;
    apply Qeq_bool_iff; reflexivity.
Qed.

Lemma dict_lookup_store (k v : pyval) (d : dict) :
  hashable k = true -> dict_lookup k (dict_store k v d) = Some v.
Proof.
  intros Hk. induction d as [|[k' v'] d IH]; simpl.
  - now rewrite py_eqb_refl.
  - destruct (py_eqb k k') eqn:E; simpl; now rewrite E.
Qed.

Lemma dict_lookup_remove (k : pyval) (d : dict) :
  dict_lookup k (dict_remove k d) = None.
Proof.
  unfold dict_remove. induction d as [|[k' v'] d IH]; simpl; [reflexivity|].
  destruct (py_eqb k k') eqn:E; simpl; [assumption|].
  now rewrite E.
Qed.

Lemma Qeq_bool_sym (x y : Q) : Qeq_bool x y = Qeq_bool y x.
Proof. unfold Qeq_bool. apply Z.eqb_sym. Qed.

Lemma py_eqb_sym (a b : pyval) : py_eqb a b = py_eqb b a.
Proof.
  destruct a, b; simpl; try reflexivity;
    try apply Qeq_bool_sym; apply String.eqb_sym.
Qed.

Lemma py_eqb_trans (a b c : pyval) :
  py_eqb a b = true -> py_eqb b c = true -> py_eqb a c = true.
Proof.
  destruct a, b; simpl; try discriminate; destruct c; simpl; try discriminate;
    intros Hab Hbc; try reflexivity;
    try (apply String.eqb_eq in Hab, Hbc; subst; apply String.eqb_refl);
    apply Qeq_bool_iff in Hab, Hbc; apply Qeq_bool_iff;
    eapply Qeq_trans; eassumption.
Qed.

(** Keys that are equal to a same key are equal. *)
Lemma py_eqb_meet (a b k : pyval) :
  py_eqb a k = true -> py_eqb b k = true -> py_eqb a b = true.
Proof.
  intros Ha Hb. rewrite py_eqb_sym in Hb. exact (py_eqb_trans a k b Ha Hb).
Qed.

Lemma dict_lookup_store_other (other name v : pyval) (d : dict) :
  py_eqb other name = false ->
  dict_lookup other (dict_store name v d) = dict_lookup other d.
Proof.
  intros Hne. induction d as [|[k' v'] d IH]; simpl.
  - now rewrite Hne.
  - destruct (py_eqb name k') eqn:Enk; simpl.
    + destruct (py_eqb other k') eqn:Eok; [|reflexivity].
      rewrite (py_eqb_meet other name k' Eok Enk) in Hne. discriminate.
    + destruct (py_eqb other k'); [reflexivity | exact IH].
Qed.


End DictFacts.

Section GetFacts.
Context {rt : Runtime}.

Lemma get_after_add (name secret : pyval) (w : world) :
  hashable name = true ->
  fst ((add name secret ;; get name) w)
  = Ok (if truthy secret then Some (name, secret) else None).
Proof.
  intros Hname.
  unfold add, get, bind, credentials_setitem, spawn, ret. rewrite Hname. simpl.
  rewrite dict_lookup_store by assumption.
  destruct (truthy secret); reflexivity.
Qed.

Lemma get_after_remove (name : pyval) (w : world) :
  hashable name = true ->
  fst ((remove name ;; get name) w) = Ok None.
Proof.
  intros Hname.
  unfold remove, get, bind, credentials_contains, credentials_delitem, spawn, ret.
  rewrite Hname. unfold dict_mem.
  destruct (dict_lookup name (credentials (cred_manager w))) eqn:E; simpl.
  - now rewrite dict_lookup_remove.
  - now rewrite E.
Qed.

End GetFacts.

(** C6 as stated fails at the empty secret: [add("home", "")] followed by
    [get("home")] returns nothing, not the pair. *)
Lemma get_after_add_empty_secret :
  fst ((add (PStr "home") (PStr EmptyString) ;; get (PStr "home")) fresh_world) = Ok None
  /\ fst ((add (PStr "home") (PStr EmptyString) ;; get (PStr "home")) fresh_world)
     <> Ok (Some (PStr "home", PStr EmptyString)).
Proof. split; [reflexivity | discriminate]. Qed.

(** C6, amended.  For every name that can be a key (any string) and every
    secret: [get(name)] right after [add(name, secret)] returns
    (name, secret) when the secret is truthy, and nothing when it is falsy;
    [get(name)] after [remove(name)] returns nothing; [get(name)] returns
    nothing when the name is absent or the stored secret is falsy. *)
Theorem get_add_remove :
  forall (rt : Runtime) (name secret : pyval) (w : world),
    hashable name = true ->
    (truthy secret = true ->
       fst ((add name secret ;; get name) w) = Ok (Some (name, secret)))
    /\ (truthy secret = false ->
          fst ((add name secret ;; get name) w) = Ok None)
    /\ fst ((remove name ;; get name) w) = Ok None
    /\ (dict_lookup name (credentials (cred_manager w)) = None ->
          fst (get name w) = Ok None)
    /\ (forall stored,
          dict_lookup name (credentials (cred_manager w)) = Some stored ->
          truthy stored = false ->
          fst (get name w) = Ok None).
Proof.
  intros rt name secret w Hname.
  repeat split.
  - intros Hs. rewrite get_after_add by assumption. now rewrite Hs.
  - intros Hs. rewrite get_after_add by assumption. now rewrite Hs.
  - now apply get_after_remove.
  - intros Habsent. unfold get. now rewrite Hname, Habsent.
  - intros stored Hstored Hfalsy. unfold get. now rewrite Hname, Hstored, Hfalsy.
Qed.

Lemma get_add_remove_witness :
  fst ((add (PStr "home") (PStr "secret") ;; get (PStr "home")) fresh_world)
  = Ok (Some (PStr "home", PStr "secret"))
  /\ fst ((remove (PStr "home") ;; get (PStr "home")) fresh_world) = Ok None.
Proof.
  pose proof (get_add_remove sample_runtime (PStr "home") (PStr "secret")
                fresh_world eq_refl) as [Hadd [_ [Hremove _]]].
  split; [exact (Hadd eq_refl) | exact Hremove].
Defined.

(* ================================================================= *)
(** ** The writers of the HTTP engine *)

Section Writers.
Context {rt : Runtime}.

Lemma wrote_wrote (a b : list string) (w : world) :
  wrote b (wrote a w) = wrote (a ++ b) w.
Proof. unfold wrote, with_conn. simpl. now rewrite app_assoc. Qed.

Lemma conn_write_wrote (data : string) (w : world) :
  conn_write data w = (Ok tt, wrote [data] w).
Proof. reflexivity. Qed.

Lemma json_error_wrote (request : Request) (code : Z) (reason message : string)
    (w : world) :
  json_error request code reason message w
  = (Ok tt, wrote (json_error_chunks code reason message) w).
Proof.
  unfold json_error, bind, error_body, json_error_chunks.
  rewrite !conn_write_wrote, !wrote_wrote. reflexivity.
Qed.

Lemma json_write_wrote (request : Request) (body : string) (w : world) :
  json_write request body w = (Ok tt, wrote (json_ok_chunks body) w).
Proof.
  unfold json_write, bind, json_ok_chunks.
  rewrite !conn_write_wrote, !wrote_wrote. reflexivity.
Qed.

Lemma error_wrote (request : Request) (code : Z) (reason : string) (w : world) :
  error request code reason w = (Ok tt, wrote (html_error_chunks code reason) w).
Proof.
  unfold error, bind, html_error_chunks.
  rewrite !conn_write_wrote, !wrote_wrote. reflexivity.
Qed.

Lemma internal_server_error_wrote (request : Request) (w : world) :
  internal_server_error request w
  = (Ok None,
     wrote (json_error_chunks 500 "Internal Server Error" "Internal Server Error") w).
Proof.
  unfold internal_server_error, bind. now rewrite json_error_wrote.
Qed.

End Writers.

(* ================================================================= *)
(** ** Nanoweb.handle: the request line and the closing of the connection *)

Section Handle.
Context {rt : Runtime}.

Lemma handle_unfold (fuel : nat) (routes : routes_table) (w : world)
    (line : string) (rest : list string) (text : string) :
  incoming (conn w) = line :: rest ->
  decode_ascii line = Ok text ->
  handle fuel routes w
  = match py_split text with
    | [method_; url_; version] =>
        handle_guarded fuel routes
          {| url := url_; method := method_; headers := []; route := EmptyString |}
          version (consumed rest w)
    | _ => (Ok tt, consumed rest w)
    end.
Proof.
  intros Hin Hdec.
  unfold handle, bind, conn_readline, lift. rewrite Hin, Hdec.
  destruct (py_split text) as [|a [|b [|c [|d l]]]]; reflexivity.
Qed.

(** A request line that does not split into three items makes [handle]
    return at once: the line is consumed, nothing is written, and
    [writer.aclose()] is not reached. *)
Lemma handle_rejects_without_closing (fuel : nat) (routes : routes_table)
    (w : world) (line : string) (rest : list string) (text : string) :
  incoming (conn w) = line :: rest ->
  decode_ascii line = Ok text ->
  List.length (py_split text) <> 3 ->
  handle fuel routes w = (Ok tt, consumed rest w).
Proof.
  intros Hin Hdec Hlen.
  rewrite (handle_unfold fuel routes w line rest text Hin Hdec).
  destruct (py_split text) as [|a [|b [|c [|d l]]]]; try reflexivity.
  now contradiction Hlen.
Qed.

(** Past the request line, every way out of [handle] goes through the
    [finally] clause: the connection is closed. *)
Lemma handle_guarded_closes (fuel : nat) (routes : routes_table)
    (request : Request) (version : string) (w : world) :
  fst (handle_guarded fuel routes request version w) = Running
  \/ closed (conn (snd (handle_guarded fuel routes request version w))) = true.
Proof.
  unfold handle_guarded, try_finally.
  destruct (try_except _ _ _ w) as [[u|e|] w1]; simpl; auto.
Qed.

(** An [HttpError] of the body is answered by [error], in HTML, and the
    connection is closed. *)
Lemma handle_guarded_http_error (fuel : nat) (routes : routes_table)
    (request : Request) (version : string) (w w1 : world)
    (code : Z) (reason : string) :
  handle_body fuel routes request version w = (Raise (HttpError code reason), w1) ->
  handle_guarded fuel routes request version w
  = (Ok tt, hung_up (wrote (html_error_chunks code reason) w1)).
Proof.
  intros Hbody.
  unfold handle_guarded, try_finally, try_except. rewrite Hbody.
  cbn [is_HttpError render_http_error]. rewrite error_wrote. reflexivity.
Qed.

Lemma handle_body_unsupported (fuel : nat) (routes : routes_table)
    (request : Request) (version : string) (w : world) :
  supported_version version = false ->
  handle_body fuel routes request version w
  = (Raise (HttpError 505 "Version Not Supported"), w).
Proof. intros Hv. unfold handle_body. now rewrite Hv. Qed.

End Handle.

(** C4, at a failing input.  The request line [GET /ping] has two items:
    [handle] writes nothing and returns, and the connection is left open:
    the early [return] sits before the [try ... finally] that closes it. *)
Theorem short_request_line_left_open :
  forall rt : Runtime,
  let out := serve_portal (receiving ["GET /ping" ++ CRLF]) in
  fst out = Ok tt
  /\ outgoing (conn (snd out)) = []
  /\ closed (conn (snd out)) = false.
Proof.
  intros rt. unfold serve_portal.
  rewrite (handle_rejects_without_closing 1 portal_routes
             (receiving ["GET /ping" ++ CRLF]) ("GET /ping" ++ CRLF) []
             ("GET /ping" ++ CRLF) eq_refl eq_refl).
  - simpl. auto.
  - vm_compute. discriminate.
Qed.

(* ================================================================= *)
(** ** Files on the wire *)

Lemma wrote_nil (w : world) : wrote [] w = w.
Proof.
  destruct w as [f st ap sl cm [i o c]]. unfold wrote, with_conn. simpl.
  now rewrite app_nil_r.
Qed.

Lemma concat_empty_cons (x : string) (xs : list string) :
  String.concat EmptyString (x :: xs) = x ++ String.concat EmptyString xs.
Proof.
  destruct xs as [|y ys]; simpl; [|reflexivity].
  induction x as [|c x IH]; simpl; [reflexivity | now rewrite <- IH].
Qed.

Lemma substring_whole (s : string) : substring 0 (String.length s) s = s.
Proof. induction s as [|c s IH]; simpl; [reflexivity | now rewrite IH]. Qed.

Lemma substring_split (s : string) :
  forall n : nat,
    substring 0 n s ++ substring n (String.length s - n) s = s.
Proof.
  induction s as [|c s IH]; intros n.
  - destruct n; reflexivity.
  - destruct n as [|n]; simpl.
    + now rewrite substring_whole.
    + now rewrite IH.
Qed.

Lemma substring_rest_length (s : string) :
  forall n : nat,
    String.length (substring n (String.length s - n) s) = String.length s - n.
Proof.
  induction s as [|c s IH]; intros n.
  - destruct n; reflexivity.
  - destruct n as [|n]; simpl.
    + now rewrite substring_whole.
    + apply IH.
Qed.

Lemma substring_prefix_length (s : string) :
  forall n : nat,
    String.length (substring 0 n s) = Nat.min n (String.length s).
Proof.
  induction s as [|c s IH]; intros n.
  - destruct n; reflexivity.
  - destruct n as [|n]; simpl; [reflexivity | now rewrite IH].
Qed.

Lemma eqb_empty_length (s : string) :
  (s =? EmptyString) = false -> 1 <= String.length s.
Proof. destruct s; simpl; [discriminate | lia]. Qed.

Lemma append_length (a b : string) :
  String.length (a ++ b) = String.length a + String.length b.
Proof. induction a as [|c a IH]; simpl; [reflexivity | now rewrite IH]. Qed.

(** A text that starts with [p] is [p] followed by what comes after it. *)
Lemma prefix_split (p : string) :
  forall s : string,
    prefix p s = true ->
    p ++ substring (String.length p) (String.length s - String.length p) s = s.
Proof.
  induction p as [|c p IH]; intros s Hpre.
  - simpl. rewrite Nat.sub_0_r. apply substring_whole.
  - destruct s as [|d s]; [discriminate|]. simpl in Hpre.
    destruct (ascii_dec c d) as [<- | _]; [|discriminate].
    simpl. f_equal. now apply IH.
Qed.

(** The pieces read from a file, put together again, are the file; none is
    empty and none is longer than the segment. *)
Lemma segments_whole (segment : nat) :
  1 <= segment ->
  forall (fuel : nat) (s : string),
    String.length s <= fuel ->
    String.concat EmptyString (segments fuel segment s) = s
    /\ Forall (fun piece => 1 <= String.length piece <= segment)
              (segments fuel segment s).
Proof.
  intros Hseg. induction fuel as [|fuel IH]; intros s Hlen.
  - destruct s; [split; [reflexivity | constructor] | simpl in Hlen; lia].
  - cbn [segments]. destruct (s =? EmptyString) eqn:E.
    + apply String.eqb_eq in E. subst s. split; [reflexivity | constructor].
    + apply eqb_empty_length in E.
      destruct (IH (substring segment (String.length s - segment) s)) as [Hcat Hall].
      { rewrite substring_rest_length. lia. }
      split.
      * rewrite concat_empty_cons, Hcat. apply substring_split.
      * constructor; [|exact Hall]. rewrite substring_prefix_length. lia.
Qed.




Section FilesOnTheWire.
Context {rt : Runtime}.

(** In text mode the pieces are what [read] makes them; put together they
    are the file, and none is empty or longer than the segment. *)
Lemma text_segments_whole (segment : nat) :
  1 <= segment ->
  forall (fuel : nat) (s : string),
    String.length s <= fuel ->
    String.concat EmptyString (text_segments fuel segment s) = s
    /\ Forall (fun piece => 1 <= String.length piece <= segment)
              (text_segments fuel segment s).
Proof.
  intros Hseg. induction fuel as [|fuel IH]; intros s Hlen.
  - destruct s; [split; [reflexivity | constructor] | simpl in Hlen; lia].
  - cbn [text_segments].
    pose proof (read_chars_prefix segment s) as Hpre.
    pose proof (read_chars_bound segment s) as Hbound.
    destruct (read_chars segment s =? EmptyString) eqn:E.
    + apply String.eqb_eq in E.
      destruct s as [|c s]; [split; [reflexivity | constructor]|].
      exfalso.
      apply (read_chars_progress segment (String c s)); [lia | discriminate | exact E].
    + apply eqb_empty_length in E.
      pose proof (prefix_split _ _ Hpre) as Hsplit.
      pose proof (f_equal String.length Hsplit) as Hlens.
      rewrite append_length in Hlens.
      destruct (IH (substring (String.length (read_chars segment s))
                              (String.length s - String.length (read_chars segment s))
                              s)) as [Hcat Hall]; [lia|].
      split.
      * rewrite concat_empty_cons, Hcat. exact Hsplit.
      * constructor; [lia | exact Hall].
Qed.

Lemma write_all_wrote (request : Request) (chunks : list string) :
  forall w : world, write_all request chunks w = (Ok tt, wrote chunks w).
Proof.
  induction chunks as [|c chunks IH]; intros w; cbn [write_all].
  - unfold ret. now rewrite wrote_nil.
  - unfold bind. rewrite conn_write_wrote, IH, wrote_wrote. reflexivity.
Qed.

(** [send_file], case by case on what [open] finds. *)
Lemma send_file_outcome (request : Request) (filename : string) (binary : bool)
    (w : world) :
  send_file request filename binary w
  = match file_lookup filename (files w) with
    | Some (Data content) =>
        (Ok tt,
         wrote (if binary
                then segments (String.length content) 64 content
                else text_segments (String.length content) 64 content) w)
    | Some (Unreadable errno) =>
        if (errno =? ENOENT)%Z
        then (Raise (HttpError 404 "File Not Found"), w)
        else (Raise (OSError errno), w)
    | None => (Raise (HttpError 404 "File Not Found"), w)
    end.
Proof.
  unfold send_file, try_except, bind, open_read.
  destruct (file_lookup filename (files w)) as [[content|errno]|].
  - now rewrite write_all_wrote.
  - cbn [is_OSError file_not_found]. destruct (errno =? ENOENT)%Z; reflexivity.
  - reflexivity.
Qed.

End FilesOnTheWire.

(* ================================================================= *)
(** ** Nanoweb.handle: routing *)

Lemma last_char_none (r : string) : last_char r = None -> r = EmptyString.
Proof.
  unfold last_char. intros H.
  destruct (rev (list_ascii_of_string r)) as [|c tl] eqn:E; [|discriminate].
  apply (f_equal (@rev ascii)) in E. rewrite rev_involutive in E. simpl in E.
  destruct r; [reflexivity | discriminate].
Qed.

Lemma ends_with_star (r : string) (c : ascii) :
  last_char r = Some c -> ends_with "*" r = (c =? "*")%char.
Proof.
  unfold last_char, ends_with, string_rev. intros H.
  destruct (rev (list_ascii_of_string r)) as [|c' tl]; [discriminate|].
  injection H as ->.
  change (prefix "*" (String c (string_of_list_ascii tl)) = (c =? "*")%char).
  cbn [prefix].
  destruct (ascii_dec "*" c) as [<-|Hne].
  - destruct (string_of_list_ascii tl); reflexivity.
  - symmetry. apply Ascii.eqb_neq. congruence.
Qed.

(** Once the exact lookup has failed, the loop of [handle] finds the first
    wildcard route that matches, provided no pattern is empty. *)
Lemma find_route_first_wildcard (u : string) (routes : routes_table) :
  routes_lookup u routes = None ->
  nonempty_patterns routes = true ->
  find_route u routes = Ok (find (fun rh => wildcard_matches (fst rh) u) routes).
Proof.
  induction routes as [|[r h] rest IH]; intros Hlookup Hne; [reflexivity|].
  simpl in Hlookup, Hne |- *.
  destruct (r =? u) eqn:Eru; [discriminate|].
  apply andb_true_iff in Hne as [Hr Hrest].
  unfold wildcard_matches.
  destruct (last_char r) as [c|] eqn:Elast.
  - rewrite (ends_with_star r c Elast).
    destruct ((c =? "*")%char && prefix (drop_last r) u); [reflexivity|].
    now apply IH.
  - apply last_char_none in Elast. subst r. discriminate.
Qed.

(** The routing of [handle], case by case, is the resolution of the
    specification followed by what is done for the target. *)
Lemma dispatch_resolves {rt : Runtime} (fuel : nat) (routes : routes_table)
    (request : Request) :
  nonempty_patterns routes = true ->
  dispatch fuel routes request
  = serve fuel (spec_resolve routes (url request)) request.
Proof.
  intros Hne.
  unfold dispatch, spec_resolve.
  destruct (routes_lookup (url request) routes) as [h|] eqn:Elookup; [reflexivity|].
  unfold bind, lift.
  rewrite (find_route_first_wildcard (url request) routes Elookup Hne).
  destruct (find _ routes) as [[pattern h]|]; [reflexivity|].
  destruct ((url request =? EmptyString) || (url request =? "/")); [reflexivity|].
  destruct (has_asset_extension (url request)); reflexivity.
Qed.



(** The five cases on small tables. *)
Example route_exact_before_wildcard :
  spec_resolve [("/a*", HFile "wild.html"); ("/ab", HFile "exact.html")] "/ab"
  = ExactRoute (HFile "exact.html").
Proof. reflexivity. Qed.

Example route_first_wildcard :
  spec_resolve [("/a*", HFile "one.html"); ("/ab*", HFile "two.html")] "/abc"
  = WildcardRoute "/a*" (HFile "one.html").
Proof. reflexivity. Qed.

Example route_index : spec_resolve (portal_routes (rt := sample_runtime)) "/" = IndexDocument.
Proof. reflexivity. Qed.

Example route_asset :
  spec_resolve (portal_routes (rt := sample_runtime)) "/app.js" = StaticAsset.
Proof. reflexivity. Qed.

Example route_not_found :
  spec_resolve (portal_routes (rt := sample_runtime)) "/nope" = NotFound.
Proof. reflexivity. Qed.

(** An empty pattern in the table is outside the theorem: [route[-1]]
    raises [IndexError] when the loop reaches it. *)
Example route_empty_pattern :
  find_route "/x" [(EmptyString, HFile "index.html")] = Raise IndexError.
Proof. reflexivity. Qed.

(* ================================================================= *)
(** ** json_read and the /wifi/add handler *)

Lemma try_except_ok {A : Type} (body : M A) (catches : exn -> bool)
    (handler : exn -> M A) (w w1 : world) (a : A) :
  body w = (Ok a, w1) -> try_except body catches handler w = (Ok a, w1).
Proof. intros H. unfold try_except. now rewrite H. Qed.

Lemma try_except_caught {A : Type} (body : M A) (catches : exn -> bool)
    (handler : exn -> M A) (w w1 : world) (e : exn) :
  body w = (Raise e, w1) -> catches e = true ->
  try_except body catches handler w = handler e w1.
Proof. intros H Hc. unfold try_except. now rewrite H, Hc. Qed.

Lemma bind_ok {A B : Type} (m : M A) (k : A -> M B) (w w1 : world) (a : A) :
  m w = (Ok a, w1) -> bind m k w = k a w1.
Proof. intros H. unfold bind. now rewrite H. Qed.

Lemma bind_raise {A B : Type} (m : M A) (k : A -> M B) (w w1 : world) (e : exn) :
  m w = (Raise e, w1) -> bind m k w = (Raise e, w1).
Proof. intros H. unfold bind. now rewrite H. Qed.

Section JsonRead.
Context {rt : Runtime}.

Lemma py_get_object (fields : dict) (key : string) (w : world) :
  py_get (PDict fields) key w = (Ok (field key fields), w).
Proof.
  unfold py_get, field. destruct (dict_lookup (PStr key) fields); reflexivity.
Qed.

Lemma read_unfold (request : Request) (w : world) :
  read request w
  = match header_lookup "Content-Length" (headers request) with
    | None => (Ok EmptyString, w)
    | Some value =>
        match int_of_str value with
        | Some n => conn_read n w
        | None => (Raise ValueError, w)
        end
    end.
Proof.
  unfold read.
  destruct (header_lookup "Content-Length" (headers request)) as [value|];
    [|reflexivity].
  unfold bind, parse_int. destruct (int_of_str value) as [n|]; reflexivity.
Qed.

(** Whatever [read] delivers, [json_read] answers: the parsed value, or the
    empty object when the content is not JSON. *)
Lemma json_read_content (request : Request) (w w1 : world) (content : string) :
  read request w = (Ok content, w1) ->
  json_read request w
  = (Ok (match json_loads content with Some v => v | None => PDict [] end), w1).
Proof.
  intros Hread. unfold json_read, bind. rewrite Hread.
  unfold try_except, loads.
  destruct (json_loads content) as [v|]; [reflexivity|].
  simpl. now rewrite json_loads_empty_object.
Qed.

(** [read] fails only on a Content-Length that is not an integer, and then
    [json_read] fails with it. *)
Lemma json_read_bad_length (request : Request) (w : world) (value : string) :
  header_lookup "Content-Length" (headers request) = Some value ->
  int_of_str value = None ->
  json_read request w = (Raise ValueError, w).
Proof.
  intros Hh Hint. unfold json_read, bind. rewrite read_unfold, Hh, Hint. reflexivity.
Qed.

(** Reading the body touches the connection only. *)
Lemma read_preserves (request : Request) (w w1 : world) (r : result string) :
  read request w = (r, w1) ->
  cred_manager w1 = cred_manager w /\ files w1 = files w
  /\ outgoing (conn w1) = outgoing (conn w) /\ closed (conn w1) = closed (conn w).
Proof.
  rewrite read_unfold.
  destruct (header_lookup "Content-Length" (headers request)) as [value|].
  - destruct (int_of_str value) as [n|].
    + unfold conn_read. intros H. injection H as _ <-. simpl. auto.
    + intros H. injection H as _ <-. auto.
  - intros H. injection H as _ <-. auto.
Qed.

Lemma json_read_preserves (request : Request) (w w1 : world) (r : result pyval) :
  json_read request w = (r, w1) ->
  cred_manager w1 = cred_manager w /\ files w1 = files w
  /\ outgoing (conn w1) = outgoing (conn w) /\ closed (conn w1) = closed (conn w).
Proof.
  unfold json_read, bind.
  destruct (read request w) as [[content| e |] w0] eqn:Hread;
    pose proof (read_preserves request w w0 _ Hread) as Hp.
  - unfold try_except, loads.
    destruct (json_loads content) as [v|].
    + intros H. injection H as _ <-. exact Hp.
    + simpl. destruct (json_loads "{}"); intros H; injection H as _ <-; exact Hp.
  - intros H. injection H as _ <-. exact Hp.
  - intros H. injection H as _ <-. exact Hp.
Qed.

(** The handler, once the body was read as a JSON object. *)
Lemma wifi_add_object (request : Request) (w w1 : world) (fields : dict) :
  json_read request w = (Ok (PDict fields), w1) ->
  wifi_add request w
  = if negb (truthy (field "ssid" fields)) || negb (truthy (field "password" fields))
    then (Ok None, wrote (json_error_chunks 400 "Bad Request" VALIDATION_MESSAGE) w1)
    else if hashable (field "ssid" fields)
         then (Ok None,
               wrote (json_ok_chunks (status_body "credentials saved"))
                 (snd (save
                   (with_credentials
                      (dict_store (field "ssid" fields) (field "password" fields)
                                  (credentials (cred_manager w1))) w1))))
         else (Ok None,
               wrote (json_error_chunks 500 "Internal Server Error"
                                        "Internal Server Error") w1).
Proof.
  intros Hread.
  unfold wifi_add, try_except.
  rewrite (bind_ok _ _ _ _ _ Hread).
  rewrite (bind_ok _ _ _ _ _ (py_get_object fields "ssid" w1)).
  rewrite (bind_ok _ _ _ _ _ (py_get_object fields "password" w1)).
  destruct (negb (truthy (field "ssid" fields))
            || negb (truthy (field "password" fields))).
  - unfold bind. rewrite json_error_wrote. reflexivity.
  - unfold add, bind, credentials_setitem, spawn, ret, await.
    destruct (hashable (field "ssid" fields)).
    + unfold save at 1, open_write.
      rewrite json_write_wrote. reflexivity.
    + cbn [any_exception]. now rewrite internal_server_error_wrote.
Qed.

(** A body that parses to something else than an object, or a
    Content-Length that is not an integer, ends in the catch-all of the
    handler: status 500. *)
Lemma wifi_add_not_object (request : Request) (w w1 : world) (v : pyval) :
  json_read request w = (Ok v, w1) ->
  (forall fields, v <> PDict fields) ->
  wifi_add request w
  = (Ok None,
     wrote (json_error_chunks 500 "Internal Server Error" "Internal Server Error") w1).
Proof.
  intros Hread Hv.
  unfold wifi_add, try_except, bind at 1. rewrite Hread.
  unfold py_get, bind at 1.
  destruct v; try (cbn [any_exception raise]; now rewrite internal_server_error_wrote).
  now contradiction (Hv items).
Qed.

Lemma wifi_add_read_failure (request : Request) (w w1 : world) (e : exn) :
  json_read request w = (Raise e, w1) ->
  wifi_add request w
  = (Ok None,
     wrote (json_error_chunks 500 "Internal Server Error" "Internal Server Error") w1).
Proof.
  intros Hread.
  unfold wifi_add, try_except, bind at 1. rewrite Hread.
  cbn [any_exception]. now rewrite internal_server_error_wrote.
Qed.

End JsonRead.

(** C8 as stated fails when the ssid is present and non-empty but is a
    list: [self.credentials[ssid] = password] raises [TypeError], the
    catch-all of the handler answers 500, and nothing is stored. *)
Lemma add_with_list_ssid_answers_500 :
  json_read (rt := sample_runtime) (add_request_of "37") (receiving [body_ssid_list])
  = (Ok (PDict [(PStr "ssid", PList [PStr "home"]); (PStr "password", PStr "secret")]),
     receiving [])
  /\ truthy (PList [PStr "home"]) = true
  /\ truthy (PStr "secret") = true
  /\ wifi_add (rt := sample_runtime) (add_request_of "37") (receiving [body_ssid_list])
     = (Ok None,
        wrote [ "HTTP/1.1 500 Internal Server Error" ++ CRLF;
                "Content-Type: application/json" ++ CRLF ++ CRLF;
                json_dumps (PDict [(PStr "error", PStr "Internal Server Error")]) ]
              (receiving []))
  /\ credentials
       (cred_manager
          (snd (wifi_add (rt := sample_runtime) (add_request_of "37")
                         (receiving [body_ssid_list]))))
     = []
  /\ files (snd (wifi_add (rt := sample_runtime) (add_request_of "37")
                          (receiving [body_ssid_list])))
     = [].
Proof. vm_compute. repeat split. Qed.

(** C8, amended.  [/wifi/add] with a body read as a JSON object.  When ssid
    or password is missing or empty (falsy), the response is status 400 with
    the message [both ssid and password must be provided], and neither the
    credential mapping nor any file changes.  When both are present and
    non-empty and the ssid can be a key (a string, a number, a boolean), the
    credential is stored: looking the ssid up in the mapping gives the
    password, every other entry is as it was, the backing file holds the
    serialisation of the new mapping, and the response is the JSON object
    with status [credentials saved].  When both are present and non-empty
    and the ssid is a list or an object, the response is status 500 and
    neither the mapping nor any file changes. *)
Theorem wifi_add_validation :
  forall (rt : Runtime) (request : Request) (w w1 : world) (fields : dict),
    json_read request w = (Ok (PDict fields), w1) ->
    (truthy (field "ssid" fields) = false \/ truthy (field "password" fields) = false ->
       wifi_add request w
       = (Ok None,
          wrote [ "HTTP/1.1 400 Bad Request" ++ CRLF;
                  "Content-Type: application/json" ++ CRLF ++ CRLF;
                  json_dumps
                    (PDict [(PStr "error",
                             PStr "both ssid and password must be provided")]) ]
                w1)
       /\ cred_manager (snd (wifi_add request w)) = cred_manager w
       /\ files (snd (wifi_add request w)) = files w)
    /\
    (truthy (field "ssid" fields) = true ->
     truthy (field "password" fields) = true ->
     hashable (field "ssid" fields) = true ->
       fst (wifi_add request w) = Ok None
       /\ dict_lookup (field "ssid" fields)
                      (credentials (cred_manager (snd (wifi_add request w))))
          = Some (field "password" fields)
       /\ (forall other,
              py_eqb other (field "ssid" fields) = false ->
              dict_lookup other (credentials (cred_manager (snd (wifi_add request w))))
              = dict_lookup other (credentials (cred_manager w)))
       /\ file_lookup (storage (cred_manager w)) (files (snd (wifi_add request w)))
          = Some (Data (json_dumps
                          (PDict (credentials
                                    (cred_manager (snd (wifi_add request w)))))))
       /\ outgoing (conn (snd (wifi_add request w)))
          = List.app (outgoing (conn w))
              [ "HTTP/1.1 200 OK" ++ CRLF;
                "Content-Type: application/json" ++ CRLF ++ CRLF;
                json_dumps (PDict [(PStr "status", PStr "credentials saved")]) ])
    /\
    (truthy (field "ssid" fields) = true ->
     truthy (field "password" fields) = true ->
     hashable (field "ssid" fields) = false ->
       wifi_add request w
       = (Ok None,
          wrote [ "HTTP/1.1 500 Internal Server Error" ++ CRLF;
                  "Content-Type: application/json" ++ CRLF ++ CRLF;
                  json_dumps (PDict [(PStr "error", PStr "Internal Server Error")]) ]
                w1)
       /\ cred_manager (snd (wifi_add request w)) = cred_manager w
       /\ files (snd (wifi_add request w)) = files w).
Proof.
  intros rt request w w1 fields Hread.
  pose proof (json_read_preserves request w w1 _ Hread) as [Hcm [Hfiles [Hout _]]].
  rewrite (wifi_add_object request w w1 fields Hread).
  split; [|split].
  - intros Hfalsy.
    assert (negb (truthy (field "ssid" fields))
            || negb (truthy (field "password" fields)) = true) as ->.
    { destruct Hfalsy as [-> | ->]; [reflexivity | apply orb_true_r]. }
    simpl. auto.
  - intros Hs Hp Hh. rewrite Hs, Hp, Hh. cbn [negb orb fst snd].
    split; [reflexivity|].
    split; [cbn; rewrite Hcm; now apply dict_lookup_store|].
    split; [intros other Hother; cbn; rewrite Hcm;
            now apply dict_lookup_store_other|].
    split; [cbn; rewrite Hcm; cbn; now rewrite String.eqb_refl|].
    cbn. now rewrite Hout.
  - intros Hs Hp Hh. rewrite Hs, Hp, Hh. cbn [negb orb fst snd]. auto.
Qed.

Lemma wifi_add_validation_witness :
  (wifi_add add_request (receiving [body_ssid_only])
   = (Ok None,
      wrote [ "HTTP/1.1 400 Bad Request" ++ CRLF;
              "Content-Type: application/json" ++ CRLF ++ CRLF;
              json_dumps
                (PDict [(PStr "error",
                         PStr "both ssid and password must be provided")]) ]
            (receiving []))
   /\ cred_manager (snd (wifi_add add_request (receiving [body_ssid_only])))
      = cred_manager (receiving [body_ssid_only])
   /\ files (snd (wifi_add add_request (receiving [body_ssid_only])))
      = files (receiving [body_ssid_only]))
  /\
  (fst (wifi_add (add_request_of "35") (receiving [body_ssid_password])) = Ok None
   /\ dict_lookup (PStr "home")
        (credentials
           (cred_manager
              (snd (wifi_add (add_request_of "35") (receiving [body_ssid_password])))))
      = Some (PStr "secret")
   /\ file_lookup "wifi.dat"
        (files (snd (wifi_add (add_request_of "35") (receiving [body_ssid_password]))))
      = Some (Data (json_dumps (PDict [(PStr "home", PStr "secret")])))).
Proof.
  split.
  - exact (proj1 (wifi_add_validation sample_runtime add_request
                    (receiving [body_ssid_only]) (receiving [])
                    [(PStr "ssid", PStr "home")] eq_refl)
                 (or_intror eq_refl)).
  - pose proof (proj1 (proj2 (wifi_add_validation sample_runtime
                                (add_request_of "35")
                                (receiving [body_ssid_password]) (receiving [])
                                [(PStr "ssid", PStr "home");
                                 (PStr "password", PStr "secret")] eq_refl))
                      eq_refl eq_refl eq_refl) as [Hret [Hstored [_ [Hfile _]]]].
    split; [exact Hret|]. split; [exact Hstored | exact Hfile].
Defined.

(** C10 as stated fails on a request that announces its body with a
    Content-Length that is not an integer: whatever the body, [int] raises
    inside [read], outside the [try] of [json_read], so [json_read] raises
    [ValueError] and [/wifi/add] answers 500, not 400. *)
Lemma bad_content_length_is_not_tolerated :
  json_read (rt := sample_runtime) (add_request_of "x") fresh_world
  = (Raise ValueError, fresh_world)
  /\ wifi_add (rt := sample_runtime) (add_request_of "x") fresh_world
     = (Ok None,
        wrote [ "HTTP/1.1 500 Internal Server Error" ++ CRLF;
                "Content-Type: application/json" ++ CRLF ++ CRLF;
                json_dumps (PDict [(PStr "error", PStr "Internal Server Error")]) ]
              fresh_world).
Proof. split; vm_compute; reflexivity. Qed.

(** C10, amended.  A request without Content-Length (no body), or with an
    integer Content-Length and a body that is absent or is not JSON:
    [json_read] returns the empty mapping and raises nothing, and
    [/wifi/add] answers with the validation error, status 400.  A request
    whose Content-Length is not an integer: [json_read] raises [ValueError]
    with nothing read, and [/wifi/add] answers status 500. *)
Theorem json_read_tolerates_bad_body :
  forall (rt : Runtime) (request : Request) (w : world),
    (header_lookup "Content-Length" (headers request) = None ->
       json_read request w = (Ok (PDict []), w)
       /\ wifi_add request w
          = (Ok None,
             wrote [ "HTTP/1.1 400 Bad Request" ++ CRLF;
                     "Content-Type: application/json" ++ CRLF ++ CRLF;
                     json_dumps
                       (PDict [(PStr "error",
                                PStr "both ssid and password must be provided")]) ]
                   w))
    /\
    (forall (value : string) (n : Z) (content : string) (w1 : world),
       header_lookup "Content-Length" (headers request) = Some value ->
       int_of_str value = Some n ->
       conn_read n w = (Ok content, w1) ->
       json_loads content = None ->
       json_read request w = (Ok (PDict []), w1)
       /\ wifi_add request w
          = (Ok None,
             wrote [ "HTTP/1.1 400 Bad Request" ++ CRLF;
                     "Content-Type: application/json" ++ CRLF ++ CRLF;
                     json_dumps
                       (PDict [(PStr "error",
                                PStr "both ssid and password must be provided")]) ]
                   w1))
    /\
    (forall value : string,
       header_lookup "Content-Length" (headers request) = Some value ->
       int_of_str value = None ->
       json_read request w = (Raise ValueError, w)
       /\ wifi_add request w
          = (Ok None,
             wrote [ "HTTP/1.1 500 Internal Server Error" ++ CRLF;
                     "Content-Type: application/json" ++ CRLF ++ CRLF;
                     json_dumps (PDict [(PStr "error", PStr "Internal Server Error")]) ]
                   w)).
Proof.
  intros rt request w. split; [|split].
  - intros Hnone.
    assert (json_read request w = (Ok (PDict []), w)) as Hread.
    { rewrite (json_read_content request w w EmptyString).
      - now rewrite json_loads_empty_text.
      - now rewrite read_unfold, Hnone. }
    split; [exact Hread|].
    now rewrite (wifi_add_object request w w [] Hread).
  - intros value n content w1 Hh Hint Hconn Hbad.
    assert (json_read request w = (Ok (PDict []), w1)) as Hread.
    { rewrite (json_read_content request w w1 content).
      - now rewrite Hbad.
      - now rewrite read_unfold, Hh, Hint. }
    split; [exact Hread|].
    now rewrite (wifi_add_object request w w1 [] Hread).
  - intros value Hh Hint.
    pose proof (json_read_bad_length request w value Hh Hint) as Hread.
    split; [exact Hread|].
    exact (wifi_add_read_failure request w w ValueError Hread).
Qed.

Lemma json_read_tolerates_bad_body_witness :
  (json_read {| url := "/wifi/add"; method := "POST"; headers := [];
                route := "/wifi/add" |} fresh_world
   = (Ok (PDict []), fresh_world)
   /\ wifi_add {| url := "/wifi/add"; method := "POST"; headers := [];
                  route := "/wifi/add" |} fresh_world
      = (Ok None,
         wrote (json_error_chunks 400 "Bad Request" VALIDATION_MESSAGE) fresh_world))
  /\
  (json_read add_request (receiving ["{ssid: home,,"])
   = (Ok (PDict []), receiving [])
   /\ wifi_add add_request (receiving ["{ssid: home,,"])
      = (Ok None,
         wrote (json_error_chunks 400 "Bad Request" VALIDATION_MESSAGE)
               (receiving [])))
  /\
  (json_read add_request fresh_world = (Ok (PDict []), fresh_world)
   /\ wifi_add add_request fresh_world
      = (Ok None,
         wrote (json_error_chunks 400 "Bad Request" VALIDATION_MESSAGE) fresh_world)).
Proof.
  split; [|split].
  - exact (proj1 (json_read_tolerates_bad_body sample_runtime
                    {| url := "/wifi/add"; method := "POST"; headers := [];
                       route := "/wifi/add" |} fresh_world) eq_refl).
  - exact (proj1 (proj2 (json_read_tolerates_bad_body sample_runtime add_request
                           (receiving ["{ssid: home,,"])))
                 "15" 15%Z "{ssid: home,," (receiving [])
                 eq_refl eq_refl eq_refl eq_refl).
  - exact (proj1 (proj2 (json_read_tolerates_bad_body sample_runtime add_request
                           fresh_world))
                 "15" 15%Z EmptyString fresh_world
                 eq_refl eq_refl eq_refl eq_refl).
Defined.

(* ================================================================= *)
(** ** Error responses *)

Section ErrorResponses.
Context {rt : Runtime}.

Lemma read_headers_parsed (request : Request) (w : world)
    (headers' : list (string * string)) (rest : list string) :
  parse_headers (incoming (conn w)) (headers request) = (Ok headers', rest) ->
  read_headers request w = (Ok (set_headers headers' request), consumed rest w).
Proof. intros H. unfold read_headers. now rewrite H. Qed.

Lemma handle_body_supported (fuel : nat) (routes : routes_table)
    (request request' : Request) (version : string) (w w1 : world) :
  supported_version version = true ->
  read_headers request w = (Ok request', w1) ->
  handle_body fuel routes request version w = dispatch fuel routes request' w1.
Proof.
  intros Hv Hread. unfold handle_body. rewrite Hv. simpl.
  now rewrite (bind_ok _ _ _ _ _ Hread).
Qed.

Lemma dispatch_not_found (fuel : nat) (routes : routes_table) (request : Request)
    (w : world) :
  nonempty_patterns routes = true ->
  spec_resolve routes (url request) = NotFound ->
  dispatch fuel routes request w = (Raise (HttpError 404 "File Not Found"), w).
Proof.
  intros Hne Hres. rewrite (dispatch_resolves fuel routes request Hne), Hres.
  reflexivity.
Qed.

Lemma send_file_missing (request : Request) (filename : string) (binary : bool)
    (w : world) :
  file_lookup filename (files w) = None ->
  send_file request filename binary w = (Raise (HttpError 404 "File Not Found"), w).
Proof.
  intros Hmissing.
  unfold send_file, try_except, bind, open_read. rewrite Hmissing. reflexivity.
Qed.

End ErrorResponses.

(** C7 as stated fails for 404: the answer to an unknown url is the status
    line [HTTP/1.1 404 File Not Found] followed by an HTML heading; no chunk
    of the response is a JSON object with the key [error]. *)
Lemma not_found_response_is_html :
  outgoing (conn (snd (serve_portal
                         (receiving ["GET /nope HTTP/1.1" ++ CRLF; CRLF]))))
  = [ "HTTP/1.1 404 File Not Found" ++ CRLF ++ CRLF; "<h1>File Not Found</h1>" ]
  /\ ~ (exists message : string,
          In (json_dumps (PDict [(PStr "error", PStr message)]))
             (outgoing (conn (snd (serve_portal
                         (receiving ["GET /nope HTTP/1.1" ++ CRLF; CRLF])))))).
Proof.
  assert (outgoing (conn (snd (serve_portal
                         (receiving ["GET /nope HTTP/1.1" ++ CRLF; CRLF]))))
          = [ "HTTP/1.1 404 File Not Found" ++ CRLF ++ CRLF;
              "<h1>File Not Found</h1>" ]) as Hout by (vm_compute; reflexivity).
  split; [exact Hout|].
  intros [message Hin]. rewrite Hout in Hin.
  simpl in Hin. destruct Hin as [H | [H | []]]; discriminate H.
Qed.

(** C7, amended.  The errors of the portal handlers, 400 and 500, are
    written by [json_error]: the status line with the code, the JSON
    content type, and the body that serialises the object with the key
    [error] and the message.  The errors of the protocol engine, 505 for an
    unsupported version and 404 for an unresolved url or a missing file, are
    raised as [HttpError] and answered by [error]: the status line with the
    code, then an HTML heading with the reason, and no JSON. *)
Theorem error_responses :
  forall (rt : Runtime) (fuel : nat) (routes : routes_table) (request : Request)
         (w : world),
    (forall code reason message,
        json_error request code reason message w
        = (Ok tt, wrote (json_error_chunks code reason message) w))
    /\ internal_server_error request w
       = (Ok None,
          wrote (json_error_chunks 500 "Internal Server Error"
                                       "Internal Server Error") w)
    /\ (forall w1 fields,
          json_read request w = (Ok (PDict fields), w1) ->
          truthy (field "ssid" fields) = false
          \/ truthy (field "password" fields) = false ->
          wifi_add request w
          = (Ok None,
             wrote (json_error_chunks 400 "Bad Request" VALIDATION_MESSAGE) w1))
    /\ (forall version,
          supported_version version = false ->
          handle_guarded fuel routes request version w
          = (Ok tt,
             hung_up (wrote (html_error_chunks 505 "Version Not Supported") w)))
    /\ (forall version code reason w1,
          handle_body fuel routes request version w
          = (Raise (HttpError code reason), w1) ->
          handle_guarded fuel routes request version w
          = (Ok tt, hung_up (wrote (html_error_chunks code reason) w1)))
    /\ (nonempty_patterns routes = true ->
        spec_resolve routes (url request) = NotFound ->
        dispatch fuel routes request w
        = (Raise (HttpError 404 "File Not Found"), w))
    /\ (forall filename binary,
          file_lookup filename (files w) = None ->
          send_file request filename binary w
          = (Raise (HttpError 404 "File Not Found"), w)).
Proof.
  intros rt fuel routes request w.
  split; [intros; apply json_error_wrote|].
  split; [apply internal_server_error_wrote|].
  split.
  { intros w1 fields Hread Hfalsy.
    rewrite (wifi_add_object request w w1 fields Hread).
    destruct Hfalsy as [-> | ->]; [reflexivity|].
    now rewrite orb_true_r. }
  split.
  { intros version Hv. apply handle_guarded_http_error.
    now apply handle_body_unsupported. }
  split; [intros; now apply handle_guarded_http_error|].
  split; [intros; now apply dispatch_not_found|].
  intros; now apply send_file_missing.
Qed.

Lemma error_responses_witness :
  handle_guarded 1 portal_routes
    {| url := "/ping"; method := "GET"; headers := []; route := EmptyString |}
    "HTTP/2" (receiving [CRLF])
  = (Ok tt,
     hung_up (wrote (html_error_chunks 505 "Version Not Supported")
                    (receiving [CRLF])))
  /\
  dispatch 1 portal_routes
    {| url := "/nope"; method := "GET"; headers := []; route := EmptyString |}
    (receiving [])
  = (Raise (HttpError 404 "File Not Found"), receiving []).
Proof.
  split.
  - pose proof (error_responses sample_runtime 1 portal_routes
                  {| url := "/ping"; method := "GET"; headers := [];
                     route := EmptyString |} (receiving [CRLF]))
      as [_ [_ [_ [H505 _]]]].
    exact (H505 "HTTP/2" eq_refl).
  - pose proof (error_responses sample_runtime 1 portal_routes
                  {| url := "/nope"; method := "GET"; headers := [];
                     route := EmptyString |} (receiving []))
      as [_ [_ [_ [_ [_ [H404 _]]]]]].
    exact (H404 eq_refl eq_refl).
Defined.

(** The protocol round trip of the specification, and the requests of the
    claims, through the whole engine. *)
Example ping_round_trip :
  let out := serve_portal (receiving ["GET /ping HTTP/1.1" ++ CRLF; CRLF]) in
  fst out = Ok tt
  /\ outgoing (conn (snd out)) = json_ok_chunks PONG
  /\ closed (conn (snd out)) = true.
Proof. vm_compute. auto. Qed.

Example post_without_password :
  let out := serve_portal
               (receiving ["POST /wifi/add HTTP/1.1" ++ CRLF;
                           "Content-Length: 15" ++ CRLF; CRLF; body_ssid_only]) in
  outgoing (conn (snd out)) = json_error_chunks 400 "Bad Request" VALIDATION_MESSAGE
  /\ credentials (cred_manager (snd out)) = []
  /\ files (snd out) = []
  /\ closed (conn (snd out)) = true.
Proof. vm_compute. auto. Qed.

Example post_with_both_fields :
  let out := serve_portal
               (receiving ["POST /wifi/add HTTP/1.1" ++ CRLF;
                           "Content-Length: 35" ++ CRLF; CRLF; body_ssid_password]) in
  outgoing (conn (snd out)) = json_ok_chunks (status_body "credentials saved")
  /\ credentials (cred_manager (snd out)) = [(PStr "home", PStr "secret")]
  /\ converged (snd out).
Proof. vm_compute. auto. Qed.

(** Outside the claims: a Content-Length that is not an integer makes
    [read] raise before any body is read, and the handler answers 500. *)
Example post_with_bad_length :
  outgoing (conn (snd (serve_portal
                         (receiving ["POST /wifi/add HTTP/1.1" ++ CRLF;
                                     "Content-Length: x" ++ CRLF; CRLF]))))
  = json_error_chunks 500 "Internal Server Error" "Internal Server Error".
Proof. vm_compute. reflexivity. Qed.

(* ================================================================= *)
(** ** scan_available_networks *)

(** *** The rows *)

Lemma scan_rows_decodable (nets : list network) :
  Forall decodable nets ->
  scan_rows nets = Ok (map row_of (filter shown nets)).
Proof.
  induction 1 as [|n nets Hn Hnets IH]; [reflexivity|].
  cbn [scan_rows filter]. rewrite IH. unfold decode_utf8, shown.
  unfold decodable in Hn.
  destruct (code_points (net_ssid n)); [|contradiction].
  destruct (negb (net_ssid n =? EmptyString) && is_printable (net_ssid n));
    reflexivity.
Qed.

Lemma scan_rows_undecodable (nets : list network) :
  Exists (fun n => code_points (net_ssid n) = None) nets ->
  scan_rows nets = Raise UnicodeError.
Proof.
  induction 1 as [n nets Hn | n nets Hnets IH]; cbn [scan_rows]; unfold decode_utf8.
  - now rewrite Hn.
  - rewrite IH. destruct (code_points (net_ssid n)); reflexivity.
Qed.

(** One name that [decode] refuses is enough for the whole scan to raise,
    wherever the sort puts it. *)
Lemma scan_of_undecodable_name {rt : Runtime} (w : world) :
  Exists (fun n => code_points (net_ssid n) = None) (sta_visible (wlan_sta w)) ->
  scan_available_networks w = (Raise UnicodeError, w).
Proof.
  intros Hbad.
  unfold scan_available_networks, bind, sta_scan, lift.
  rewrite scan_rows_undecodable; [reflexivity|].
  apply Exists_exists in Hbad as [n [Hin Hn]].
  apply Exists_exists. exists n. split; [|exact Hn].
  eapply Permutation_in; [apply sorted_by_rssi_perm | exact Hin].
Qed.

(** The example of the specification, with the accented name in UTF-8, on
    the sample runtime. *)
Example scan_filters_and_sorts :
  fst (scan_available_networks (rt := sample_runtime)
         (seeing [ access_point EmptyString (-30);
                   access_point CAFE_UTF8 (-80);
                   access_point "Home" (-40) ]))
  = Ok [("Home", "00:11:22:ab:cd:ef", (-40)%Z)].
Proof. vm_compute. reflexivity. Qed.

(** C5, at a failing input.  A network whose name is the Latin-1 bytes of
    the accented word has a byte outside 32..126, so the specification has
    the entry dropped and [Home] returned; [ssid.decode('utf-8')] raises
    [UnicodeError] on it and the scan returns no list at all. *)
Theorem scan_raises_on_latin1_name :
  forall rt : Runtime,
    kept (access_point CAFE_LATIN1 (-80)) = false
    /\ kept (access_point "Home" (-40)) = true
    /\ scan_available_networks
         (seeing [ access_point CAFE_LATIN1 (-80); access_point "Home" (-40) ])
       = (Raise UnicodeError,
          seeing [ access_point CAFE_LATIN1 (-80); access_point "Home" (-40) ]).
Proof.
  intros rt.
  split; [vm_compute; reflexivity|].
  split; [vm_compute; reflexivity|].
  apply scan_of_undecodable_name.
  apply Exists_cons_hd. vm_compute. reflexivity.
Qed.

(* ================================================================= *)
(** * Further properties of the code *)

(* ================================================================= *)
(** ** retry_until: the first success, and a failing action *)

(** X1.  [retry_until] stops at the first result that satisfies the
    predicate: when the first [k] results fail it and the next one, within
    the [max_retries] allowed, satisfies it, the answer is (True, that
    result), in the world left by [k] rounds of action and sleep followed by
    one more action and no sleep.  An exception of the action, raised after
    [k] failed rounds, leaves [retry_until] as it is. *)
Theorem retry_until_first_success :
  forall (R : Type) (predicate : R -> bool) (action : M R)
         (max_retries k : nat) (delay_ms : Z) (w : world),
    k < max_retries ->
    (forall j, j < k ->
       exists rj, fst (action (attempts action delay_ms j w)) = Ok rj
                  /\ predicate rj = false) ->
    (forall r w',
        action (attempts action delay_ms k w) = (Ok r, w') ->
        predicate r = true ->
        retry_until predicate action (PInt (Z.of_nat max_retries)) delay_ms w
        = (Ok (true, Some r), w'))
    /\
    (forall e w',
        action (attempts action delay_ms k w) = (Raise e, w') ->
        retry_until predicate action (PInt (Z.of_nat max_retries)) delay_ms w
        = (Raise e, w')).
Proof.
  intros R predicate action max_retries k delay_ms w Hk Hfail.
  unfold retry_until, bind, lift. rewrite range_len_count.
  split.
  - intros r w' Hact Hpred.
    now apply (retry_loop_success_at predicate action delay_ms k).
  - intros e w' Hact.
    now apply (retry_loop_raises_at predicate action delay_ms k).
Qed.

Lemma retry_until_first_success_witness :
  retry_until (fun r => py_eqb r (PBool true)) connected_now (PInt 5) 1000
    late_link_world
  = (Ok (true, Some (PBool true)),
     snd (connected_now (attempts connected_now 1000 2 late_link_world))).
Proof.
  apply (proj1 (retry_until_first_success pyval (fun r => py_eqb r (PBool true))
                  connected_now 5 2 1000 late_link_world
                  ltac:(lia)
                  ltac:(intros j Hj; exists (PBool false);
                        destruct j as [|[|j]]; [split; reflexivity .. | lia]))
               (PBool true)
               (snd (connected_now (attempts connected_now 1000 2 late_link_world))));
    reflexivity.
Defined.

(* ================================================================= *)
(** ** ConnectionManager: polling, disconnect, boot *)

(** X2.  [connected(max_retries, delay_ms)] with an integer count: when
    none of the next [max_retries] polls finds a link it answers False after
    exactly [max_retries] polls and as many sleeps; when the link is first
    found at poll number [k] (counting from 0, within the count) it answers
    True after [k + 1] polls and [k] sleeps.  Nothing but the poll counter
    and the sleep log changes. *)
Theorem connected_polls :
  forall (max_retries : nat) (delay_ms : Z) (w : world),
    ((forall j, j < max_retries -> link_at w j = false) ->
     connected (PInt (Z.of_nat max_retries)) delay_ms w
     = (Ok false, advance max_retries max_retries delay_ms w))
    /\
    (forall k,
        k < max_retries ->
        (forall j, j < k -> link_at w j = false) ->
        link_at w k = true ->
        connected (PInt (Z.of_nat max_retries)) delay_ms w
        = (Ok true, advance (S k) k delay_ms w)).
Proof.
  intros max_retries delay_ms w. unfold connected. split.
  - intros Hdown.
    now rewrite (bind_ok _ _ _ _ _ (poll_until_never true max_retries delay_ms w Hdown)).
  - intros k Hk Hdown Hup.
    now rewrite (bind_ok _ _ _ _ _
                   (poll_until_found true max_retries k delay_ms w Hk Hdown Hup)).
Qed.

Lemma connected_polls_witness :
  connected (PInt 3) 1000 fresh_world = (Ok false, advance 3 3 1000 fresh_world)
  /\ connected (PInt 5) 1000 late_link_world
     = (Ok true, advance 3 2 1000 late_link_world).
Proof.
  split.
  - apply (proj1 (connected_polls 3 1000 fresh_world)). intros j _. reflexivity.
  - apply (proj2 (connected_polls 5 1000 late_link_world) 2); [lia | | reflexivity].
    intros j Hj. destruct j as [|[|j]]; [reflexivity | reflexivity | lia].
Defined.

Lemma connected_now_start (delay_ms : Z) (w : world) :
  connected_now w = (Ok (PBool (link_at w 0)), advance 1 0 delay_ms w).
Proof.
  rewrite <- (advance_zero delay_ms w) at 1. apply connected_now_advance.
Qed.

Lemma link_at_dropped (w : world) (j : nat) : link_at (dropped w) j = link_at w j.
Proof. reflexivity. Qed.

(** [disconnect] in closed form, by what the polls find. *)
Lemma disconnect_outcome :
  forall w : world,
    (link_at w 0 = false -> disconnect w = (Ok true, advance 1 0 1000 w))
    /\ (forall k,
          link_at w 0 = true ->
          k < 3 ->
          (forall j, j < k -> link_at w (1 + j) = true) ->
          link_at w (1 + k) = false ->
          disconnect w
          = (Ok true, advance (S k) k 1000 (dropped (advance 1 0 1000 w))))
    /\ (link_at w 0 = true ->
        (forall j, j < 3 -> link_at w (1 + j) = true) ->
        disconnect w = (Ok false, advance 3 3 1000 (dropped (advance 1 0 1000 w)))).
Proof.
  intros w. unfold disconnect.
  rewrite (bind_ok _ _ _ _ _ (connected_now_start 1000 w)).
  split; [|split].
  - intros Hdown. now rewrite Hdown.
  - intros k Hup Hk Hstill Hgone. rewrite Hup. cbn [truthy].
    rewrite (bind_ok _ _ _ _ _ (eq_refl : sta_disconnect (advance 1 0 1000 w)
                                          = (Ok tt, dropped (advance 1 0 1000 w)))).
    rewrite (bind_ok _ _ _ _ _
               (poll_until_found false 3 k 1000 (dropped (advance 1 0 1000 w)) Hk
                  ltac:(intros j Hj; rewrite link_at_dropped, link_at_advance;
                        now apply Hstill)
                  ltac:(now rewrite link_at_dropped, link_at_advance))).
    reflexivity.
  - intros Hup Hstill. rewrite Hup. cbn [truthy].
    rewrite (bind_ok _ _ _ _ _ (eq_refl : sta_disconnect (advance 1 0 1000 w)
                                          = (Ok tt, dropped (advance 1 0 1000 w)))).
    rewrite (bind_ok _ _ _ _ _
               (poll_until_never false 3 1000 (dropped (advance 1 0 1000 w))
                  ltac:(intros j Hj; rewrite link_at_dropped, link_at_advance;
                        now apply Hstill))).
    reflexivity.
Qed.

(** X3.  [disconnect()]: when the first poll finds no link it answers True
    at once, without telling the radio to disconnect and without sleeping.
    When the first poll finds a link it tells the radio to disconnect and
    polls again, at most three times, one second apart: it answers True at
    the first of these polls that finds the link down, and False when all
    three still find it up.  It never polls more than four times. *)
Theorem disconnect_polls :
  forall w : world,
    (link_at w 0 = false -> disconnect w = (Ok true, advance 1 0 1000 w))
    /\ (forall k,
          link_at w 0 = true ->
          k < 3 ->
          (forall j, j < k -> link_at w (1 + j) = true) ->
          link_at w (1 + k) = false ->
          disconnect w
          = (Ok true, advance (S k) k 1000 (dropped (advance 1 0 1000 w))))
    /\ (link_at w 0 = true ->
        (forall j, j < 3 -> link_at w (1 + j) = true) ->
        disconnect w = (Ok false, advance 3 3 1000 (dropped (advance 1 0 1000 w)))).
Proof. exact disconnect_outcome. Qed.

Lemma disconnect_polls_witness :
  disconnect fresh_world = (Ok true, advance 1 0 1000 fresh_world)
  /\ disconnect linked_world
     = (Ok false, advance 3 3 1000 (dropped (advance 1 0 1000 linked_world))).
Proof.
  split.
  - exact (proj1 (disconnect_polls fresh_world) eq_refl).
  - exact (proj2 (proj2 (disconnect_polls linked_world)) eq_refl
                 (fun j _ => eq_refl)).
Defined.

(** *** auto_connect *)

Lemma link_at_gave_up (ssid password : pyval) (n : nat) (w : world) (j : nat) :
  link_at (gave_up ssid password n w) j = link_at w (n + j).
Proof. unfold link_at, gave_up. simpl. f_equal. lia. Qed.

Lemma link_at_tried (creds : list (pyval * pyval)) :
  forall (w : world) (j : nat),
    link_at (tried creds w) j = link_at w (10 * List.length creds + j).
Proof.
  induction creds as [|[ssid password] creds IH]; intros w j; [reflexivity|].
  cbn [tried List.length]. rewrite IH, link_at_gave_up. f_equal. lia.
Qed.

(** The default timeout of [connect], 10000 ms, is ten polls. *)
Lemma connect_default_never (ssid password : pyval) (w : world) :
  (forall j, j < 10 -> link_at w j = false) ->
  connect ssid password 10000 w = (Ok false, gave_up ssid password 10 w).
Proof. exact (proj1 (connect_outcome ssid password 10000 w)). Qed.

Lemma connect_default_found (ssid password : pyval) (w : world) (k : nat) :
  k < 10 ->
  (forall j, j < k -> link_at w j = false) ->
  link_at w k = true ->
  connect ssid password 10000 w
  = (Ok true, advance (S k) k 1000 (asked_to_join ssid password w)).
Proof. exact (proj2 (connect_outcome ssid password 10000 w) k). Qed.

Lemma auto_connect_unfold (w : world) :
  auto_connect w = auto_connect_loop (credentials (cred_manager w)) w.
Proof.
  unfold auto_connect, bind, list_credentials.
  destruct (credentials (cred_manager w)); reflexivity.
Qed.

Lemma auto_connect_loop_never (creds : list (pyval * pyval)) :
  forall w : world,
    (forall j, j < 10 * List.length creds -> link_at w j = false) ->
    auto_connect_loop creds w = (Ok false, tried creds w).
Proof.
  induction creds as [|[ssid password] creds IH]; intros w Hdown; [reflexivity|].
  cbn [auto_connect_loop tried List.length] in *.
  rewrite (bind_ok _ _ _ _ _ (connect_default_never ssid password w
                                ltac:(intros j Hj; apply Hdown; lia))).
  apply IH. intros j Hj. rewrite link_at_gave_up. apply Hdown. lia.
Qed.

Lemma auto_connect_loop_found (done : list (pyval * pyval)) :
  forall (w : world) (ssid password : pyval) (rest : list (pyval * pyval))
         (k : nat),
    k < 10 ->
    (forall j, j < 10 * List.length done + k -> link_at w j = false) ->
    link_at w (10 * List.length done + k) = true ->
    auto_connect_loop (done ++ (ssid, password) :: rest)%list w
    = (Ok true,
       advance (S k) k 1000 (asked_to_join ssid password (tried done w))).
Proof.
  induction done as [|[s0 p0] done IH]; intros w ssid password rest k Hk Hdown Hup.
  - cbn [app auto_connect_loop tried List.length] in *.
    rewrite (bind_ok _ _ _ _ _ (connect_default_found ssid password w k Hk
                                  ltac:(intros j Hj; apply Hdown; lia) Hup)).
    reflexivity.
  - cbn [app auto_connect_loop tried List.length] in *.
    rewrite (bind_ok _ _ _ _ _ (connect_default_never s0 p0 w
                                  ltac:(intros j Hj; apply Hdown; lia))).
    apply IH; [exact Hk | |].
    + intros j Hj. rewrite link_at_gave_up. apply Hdown. lia.
    + rewrite link_at_gave_up. rewrite <- Hup. f_equal. lia.
Qed.

(** X4.  [auto_connect()] tries the stored credentials in the order of the
    store, each with the ten polls of the default timeout, and stops at the
    first network that links.  With an empty store it answers False and
    touches nothing.  When the radio finds no link in any of the polls it
    answers False, having given up on every credential in turn, the station
    radio switched off.  When the link comes up while a credential is being
    tried it answers True at that poll, the station radio left on that
    network, and no later credential is tried. *)
Theorem auto_connect_tries_in_order :
  forall w : world,
    text_credentials (credentials (cred_manager w)) ->
    (credentials (cred_manager w) = [] -> auto_connect w = (Ok false, w))
    /\ ((forall j, j < 10 * List.length (credentials (cred_manager w)) ->
                   link_at w j = false) ->
        auto_connect w = (Ok false, tried (credentials (cred_manager w)) w))
    /\ (forall done ssid password rest k,
          credentials (cred_manager w) = (done ++ (ssid, password) :: rest)%list ->
          k < 10 ->
          (forall j, j < 10 * List.length done + k -> link_at w j = false) ->
          link_at w (10 * List.length done + k) = true ->
          auto_connect w
          = (Ok true,
             advance (S k) k 1000 (asked_to_join ssid password (tried done w)))).
Proof.
  intros w _. rewrite auto_connect_unfold.
  split; [intros ->; reflexivity|].
  split; [apply auto_connect_loop_never|].
  intros done ssid password rest k ->. apply auto_connect_loop_found.
Qed.

Lemma auto_connect_tries_in_order_witness :
  auto_connect fresh_world = (Ok false, fresh_world)
  /\ auto_connect (with_credentials [(PStr "home", PStr "secret");
                                     (PStr "work", PStr "hunter2")] fresh_world)
     = (Ok false,
        with_slept (repeat 1000%Z 20)
          (with_sta {| sta_active := false;
                       sta_joining := Some (PStr "work", PStr "hunter2");
                       sta_polls := 20; sta_link := fun _ => false;
                       sta_visible := [] |}
             (with_credentials [(PStr "home", PStr "secret");
                                (PStr "work", PStr "hunter2")] fresh_world)))
  /\ auto_connect (with_credentials [(PStr "home", PStr "secret");
                                     (PStr "work", PStr "hunter2")] late_link_world)
     = (Ok true,
        with_slept [1000; 1000]%Z
          (with_sta {| sta_active := true;
                       sta_joining := Some (PStr "home", PStr "secret");
                       sta_polls := 3; sta_link := fun k => Nat.leb 2 k;
                       sta_visible := [] |}
             (with_credentials [(PStr "home", PStr "secret");
                                (PStr "work", PStr "hunter2")] fresh_world))).
Proof.
  split; [|split].
  - exact (proj1 (auto_connect_tries_in_order fresh_world (Forall_nil _)) eq_refl).
  - refine (proj1 (proj2 (auto_connect_tries_in_order
                            (with_credentials [(PStr "home", PStr "secret");
                                               (PStr "work", PStr "hunter2")]
                                              fresh_world) _))
                  (fun j _ => eq_refl)).
    repeat constructor; eexists _, _; reflexivity.
  - refine (proj2 (proj2 (auto_connect_tries_in_order
                            (with_credentials [(PStr "home", PStr "secret");
                                               (PStr "work", PStr "hunter2")]
                                              late_link_world) _))
                  [] (PStr "home") (PStr "secret") [(PStr "work", PStr "hunter2")]
                  2 eq_refl _ _ eq_refl).
    + repeat constructor; eexists _, _; reflexivity.
    + lia.
    + intros j Hj. destruct j as [|[|j]]; [reflexivity | reflexivity | simpl in Hj; lia].
Defined.

(** X5.  [boot()]: one poll in [disconnect], three polls a second apart in
    [connected], and then the stored credentials.  On a radio that stays
    down it answers False after giving up on every credential.  When the
    link comes up while a credential is being tried it answers True at that
    poll.  On a radio whose link stays up it spends three seconds failing
    to disconnect and answers True on the next poll, the store unread. *)
Theorem boot_outcomes :
  forall w : world,
    text_credentials (credentials (cred_manager w)) ->
    ((forall j, link_at w j = false) ->
       boot w
       = (Ok false, tried (credentials (cred_manager w)) (advance 4 3 1000 w)))
    /\ (forall done ssid password rest k,
          credentials (cred_manager w) = (done ++ (ssid, password) :: rest)%list ->
          k < 10 ->
          (forall j, j < 4 + 10 * List.length done + k -> link_at w j = false) ->
          link_at w (4 + 10 * List.length done + k) = true ->
          boot w
          = (Ok true,
             advance (S k) k 1000
               (asked_to_join ssid password (tried done (advance 4 3 1000 w)))))
    /\ ((forall j, link_at w j = true) ->
          boot w
          = (Ok true,
             advance 1 0 1000 (advance 3 3 1000 (dropped (advance 1 0 1000 w))))).
Proof.
  intros w _. unfold boot.
  assert (forall n, (forall j, j < n -> link_at w j = false) -> 4 <= n ->
          (_ <- disconnect ;;
           up <- connected (PInt 3) 1000 ;;
           if negb up then auto_connect else ret true) w
          = auto_connect_loop (credentials (cred_manager w)) (advance 4 3 1000 w))
    as Hdown4.
  { intros n Hdown Hn.
    rewrite (bind_ok _ _ _ _ _ (proj1 (disconnect_outcome w)
                                  (Hdown 0 ltac:(lia)))).
    assert (connected (PInt 3) 1000 (advance 1 0 1000 w)
            = (Ok false, advance 4 3 1000 w)) as Hconn.
    { unfold connected.
      rewrite (bind_ok _ _ _ _ _
                 (poll_until_never true 3 1000 (advance 1 0 1000 w)
                    ltac:(intros j Hj; rewrite link_at_advance; apply Hdown; lia))).
      now rewrite advance_advance. }
    rewrite (bind_ok _ _ _ _ _ Hconn). cbn [negb].
    now rewrite auto_connect_unfold. }
  split; [|split].
  - intros Hdown.
    rewrite (Hdown4 4 (fun j _ => Hdown j) (le_n 4)).
    apply auto_connect_loop_never.
    intros j _. rewrite link_at_advance. apply Hdown.
  - intros done ssid password rest k Hcreds Hk Hdown Hup.
    rewrite (Hdown4 4 ltac:(intros j Hj; apply Hdown; lia) (le_n 4)).
    rewrite Hcreds. apply auto_connect_loop_found; [exact Hk | |].
    + intros j Hj. rewrite link_at_advance. apply Hdown. lia.
    + rewrite link_at_advance. rewrite <- Hup. f_equal; lia.
  - intros Hup.
    rewrite (bind_ok _ _ _ _ _
               (proj2 (proj2 (disconnect_outcome w)) (Hup 0) (fun j _ => Hup (1 + j)))).
    assert (connected (PInt 3) 1000
              (advance 3 3 1000 (dropped (advance 1 0 1000 w)))
            = (Ok true,
               advance 1 0 1000 (advance 3 3 1000 (dropped (advance 1 0 1000 w)))))
      as Hconn.
    { unfold connected.
      rewrite (bind_ok _ _ _ _ _
                 (poll_until_found true 3 0 1000
                    (advance 3 3 1000 (dropped (advance 1 0 1000 w)))
                    ltac:(lia) ltac:(intros j Hj; lia)
                    ltac:(rewrite link_at_advance, link_at_dropped, link_at_advance;
                          apply Hup))).
      reflexivity. }
    now rewrite (bind_ok _ _ _ _ _ Hconn).
Qed.

Lemma boot_outcomes_witness :
  boot fresh_world = (Ok false, advance 4 3 1000 fresh_world)
  /\ boot linked_world
     = (Ok true,
        advance 1 0 1000 (advance 3 3 1000 (dropped (advance 1 0 1000 linked_world)))).
Proof.
  split.
  - exact (proj1 (boot_outcomes fresh_world (Forall_nil _)) (fun j => eq_refl)).
  - exact (proj2 (proj2 (boot_outcomes linked_world (Forall_nil _)))
                 (fun j => eq_refl)).
Defined.

(* ================================================================= *)
(** ** The portal handlers *)

Lemma scan_rows_finishes (nets : list network) : scan_rows nets <> Running.
Proof.
  induction nets as [|n nets IH]; cbn [scan_rows]; [discriminate|].
  destruct (decode_utf8 (net_ssid n)) as [name|e|] eqn:E; try discriminate.
  - destruct (scan_rows nets) as [rows|e|]; try discriminate; [|contradiction].
    destruct (negb (name =? EmptyString) && is_printable name); discriminate.
  - unfold decode_utf8 in E. destruct (code_points (net_ssid n)); discriminate.
Qed.

Section PortalHandlers.
Context {rt : Runtime}.

Lemma json_read_finishes (request : Request) (w : world) :
  fst (json_read request w) <> Running.
Proof.
  unfold json_read, bind. rewrite read_unfold.
  destruct (header_lookup "Content-Length" (headers request)) as [value|].
  - destruct (int_of_str value) as [n|]; [|discriminate].
    unfold conn_read, try_except, loads.
    destruct (json_loads _); [discriminate|].
    cbn. rewrite json_loads_empty_object. discriminate.
  - unfold try_except, loads. rewrite json_loads_empty_text. cbn.
    rewrite json_loads_empty_object. discriminate.
Qed.

Lemma wifi_scan_outcome (request : Request) (w : world) :
  wifi_scan request w
  = match scan_rows (sorted_by_rssi (sta_visible (wlan_sta w))) with
    | Ok rows =>
        (Ok None,
         wrote (json_ok_chunks
                  (json_dumps (PDict [(PStr "networks",
                                        PList (map network_json rows))]))) w)
    | _ =>
        (Ok None,
         wrote (json_error_chunks 500 "Internal Server Error"
                                      "Internal Server Error") w)
    end.
Proof.
  unfold wifi_scan, try_except, scan_available_networks, sta_scan, bind, lift.
  pose proof (scan_rows_finishes (sorted_by_rssi (sta_visible (wlan_sta w)))) as Hfin.
  destruct (scan_rows (sorted_by_rssi (sta_visible (wlan_sta w)))) as [rows|e|].
  - now rewrite json_write_wrote.
  - cbn [any_exception]. now rewrite internal_server_error_wrote.
  - contradiction.
Qed.

Lemma wifi_list_outcome (request : Request) (w : world) :
  wifi_list request w
  = (Ok None,
     wrote (json_ok_chunks
              (json_dumps
                 (PDict [(PStr "credentials",
                          PList (map masked_json (credentials (cred_manager w))))])))
           w).
Proof.
  unfold wifi_list, try_except, list_credentials, bind.
  now rewrite json_write_wrote.
Qed.

Lemma wifi_clear_outcome (request : Request) (w : world) :
  wifi_clear request w
  = (Ok None,
     wrote (json_ok_chunks (status_body "credentials cleared"))
           (snd (save (with_credentials [] w)))).
Proof.
  unfold wifi_clear, try_except, clear, bind, spawn, ret, await.
  unfold save at 1, open_write. now rewrite json_write_wrote.
Qed.

(** The retry loop on the station radio always returns, and touches
    nothing but the radio and the sleep log. *)
Lemma poll_loop_returns (predicate : pyval -> bool) (delay_ms : Z) (n : nat) :
  forall w : world,
    exists r w1,
      retry_loop predicate connected_now delay_ms n w = (Ok r, w1)
      /\ conn w1 = conn w /\ wlan_ap_active w1 = wlan_ap_active w.
Proof.
  induction n as [|n IH]; intros w.
  - exists (false, None), w. auto.
  - cbn [retry_loop]. unfold bind at 1. cbn [connected_now sta_isconnected].
    destruct (predicate _).
    + eexists _, _. split; [reflexivity|]. split; reflexivity.
    + unfold bind at 1. cbn [sleep_ms].
      match goal with |- context [retry_loop _ _ _ n ?w0] =>
        destruct (IH w0) as [r [w1 [Hloop [Hconn Hap]]]] end.
      exists r, w1. split; [exact Hloop|]. split; [exact Hconn | exact Hap].
Qed.

Lemma connect_returns (ssid password : pyval) (timeout_ms : Z) (w : world) :
  exists b w1,
    connect ssid password timeout_ms w = (Ok b, w1)
    /\ conn w1 = conn w /\ wlan_ap_active w1 = wlan_ap_active w.
Proof.
  rewrite connect_unfold.
  destruct (poll_loop_returns (fun result => py_eqb result (PBool true)) 1000
              (Z.to_nat ((timeout_ms + 999) / 1000))
              (asked_to_join ssid password w)) as [r [w1 [Hloop [Hconn Hap]]]].
  unfold bind. rewrite Hloop. cbn [ret fst].
  destruct (fst r); cbn [negb sta_set_active];
    eexists _, _; (split; [reflexivity|]); split; assumption.
Qed.

Lemma auto_connect_loop_returns (creds : list (pyval * pyval)) :
  forall w : world,
    exists b w1,
      auto_connect_loop creds w = (Ok b, w1)
      /\ conn w1 = conn w /\ wlan_ap_active w1 = wlan_ap_active w.
Proof.
  induction creds as [|[ssid password] creds IH]; intros w.
  - exists false, w. auto.
  - cbn [auto_connect_loop].
    destruct (connect_returns ssid password 10000 w) as [b [w1 [Hc [Hconn Hap]]]].
    rewrite (bind_ok _ _ _ _ _ Hc). destruct b.
    + exists true, w1. auto.
    + destruct (IH w1) as [b' [w2 [Hl [Hconn' Hap']]]].
      exists b', w2. split; [exact Hl|]. split; congruence.
Qed.

Lemma wifi_connect_outcome (request : Request) (w : world) :
  exists b w1,
    auto_connect w = (Ok b, w1)
    /\ conn w1 = conn w
    /\ wlan_ap_active w1 = wlan_ap_active w
    /\ wifi_connect request w
       = (Ok None,
          if (b : bool)
          then with_ap_active false
                 (wrote (json_ok_chunks (status_body "success")) w1)
          else wrote (json_ok_chunks (status_body "failed")) w1).
Proof.
  destruct (auto_connect_loop_returns (credentials (cred_manager w)) w)
    as [b [w1 [Hl [Hconn Hap]]]].
  rewrite <- auto_connect_unfold in Hl.
  exists b, w1. split; [exact Hl|]. split; [exact Hconn|]. split; [exact Hap|].
  unfold wifi_connect, try_except. rewrite (bind_ok _ _ _ _ _ Hl).
  destruct b; unfold bind; rewrite json_write_wrote; reflexivity.
Qed.

End PortalHandlers.

(** X6.  [/wifi/connect] reports what [auto_connect] found.  When a stored
    network links it answers the JSON status [success] and then switches
    the access point off; when the store is empty, or no poll finds a link,
    it answers the JSON status [failed] and leaves the access point as it
    was. *)
Theorem wifi_connect_answers :
  forall (rt : Runtime) (request : Request) (w : world),
    text_credentials (credentials (cred_manager w)) ->
    ((forall j, j < 10 * List.length (credentials (cred_manager w)) ->
                link_at w j = false) ->
       wifi_connect request w
       = (Ok None,
          wrote (json_ok_chunks
                   (json_dumps (PDict [(PStr "status", PStr "failed")])))
                (tried (credentials (cred_manager w)) w)))
    /\ (forall done ssid password rest k,
          credentials (cred_manager w) = (done ++ (ssid, password) :: rest)%list ->
          k < 10 ->
          (forall j, j < 10 * List.length done + k -> link_at w j = false) ->
          link_at w (10 * List.length done + k) = true ->
          wifi_connect request w
          = (Ok None,
             with_ap_active false
               (wrote (json_ok_chunks
                         (json_dumps (PDict [(PStr "status", PStr "success")])))
                      (advance (S k) k 1000
                         (asked_to_join ssid password (tried done w)))))).
Proof.
  intros rt request w _.
  destruct (wifi_connect_outcome request w) as [b [w1 [Hauto [_ [_ ->]]]]].
  rewrite auto_connect_unfold in Hauto.
  split.
  - intros Hdown.
    rewrite (auto_connect_loop_never _ w Hdown) in Hauto.
    injection Hauto as <- <-. reflexivity.
  - intros done ssid password rest k Hcreds Hk Hdown Hup.
    rewrite Hcreds, (auto_connect_loop_found done w ssid password rest k Hk Hdown Hup)
      in Hauto.
    injection Hauto as <- <-. reflexivity.
Qed.

Lemma wifi_connect_answers_witness :
  wifi_connect add_request fresh_world
  = (Ok None,
     wrote (json_ok_chunks (json_dumps (PDict [(PStr "status", PStr "failed")])))
           fresh_world)
  /\ wlan_ap_active
       (snd (wifi_connect add_request
               (with_credentials [(PStr "home", PStr "secret")] late_link_world)))
     = false.
Proof.
  split.
  - exact (proj1 (wifi_connect_answers sample_runtime add_request fresh_world
                    (Forall_nil _))
                 (fun j _ => eq_refl)).
  - refine (f_equal (fun out => wlan_ap_active (snd out))
              (proj2 (wifi_connect_answers sample_runtime add_request
                        (with_credentials [(PStr "home", PStr "secret")]
                                          late_link_world) _)
                     [] (PStr "home") (PStr "secret") [] 2 eq_refl _ _ eq_refl)).
    + repeat constructor; eexists _, _; reflexivity.
    + lia.
    + intros j Hj. destruct j as [|[|j]]; [reflexivity | reflexivity | simpl in Hj; lia].
Defined.

(** The outcome of any of the six handlers. *)
Lemma portal_handler_outcome :
  forall (rt : Runtime) (h : Request -> M (option handler)) (request : Request)
         (w : world),
    In h portal_handlers ->
    exists (w' : world) (chunks : list string),
      h request w = (Ok None, w')
      /\ outgoing (conn w') = (outgoing (conn w) ++ chunks)%list
      /\ json_response chunks
      /\ closed (conn w') = closed (conn w).
Proof.
  intros rt h request w Hin.
  assert (forall body, json_response (json_ok_chunks body)) as Hok.
  { intros body. left. now exists body. }
  assert (forall code reason message,
             json_response (json_error_chunks code reason message)) as Herr.
  { intros code reason message. right. now exists code, reason, message. }
  destruct Hin as [<- | [<- | [<- | [<- | [<- | [<- | []]]]]]].
  - (* ping *)
    eexists _, _. unfold ping, bind. rewrite json_write_wrote.
    split; [reflexivity|]. split; [reflexivity|]. split; [apply Hok | reflexivity].
  - (* wifi_scan *)
    rewrite wifi_scan_outcome.
    destruct (scan_rows _) as [rows|e|]; eexists _, _;
      (split; [reflexivity|]); (split; [reflexivity|]);
      (split; [first [apply Hok | apply Herr] | reflexivity]).
  - (* wifi_add *)
    destruct (json_read request w) as [[v|e|] w1] eqn:Hread.
    + pose proof (json_read_preserves request w w1 _ Hread) as [_ [_ [Hout Hcl]]].
      destruct v;
        try (rewrite (wifi_add_not_object request w w1 _ Hread)
               by (intros fields; discriminate);
             eexists _, _; split; [reflexivity|];
             split; [simpl; now rewrite Hout|];
             split; [apply Herr | simpl; exact Hcl]).
      rewrite (wifi_add_object request w w1 items Hread).
      destruct (negb (truthy (field "ssid" items))
                || negb (truthy (field "password" items))).
      * eexists _, _. split; [reflexivity|].
        split; [simpl; now rewrite Hout|].
        split; [apply Herr | simpl; exact Hcl].
      * destruct (hashable (field "ssid" items)).
        -- eexists _, _. split; [reflexivity|].
           split; [simpl; now rewrite Hout|].
           split; [apply Hok | simpl; exact Hcl].
        -- eexists _, _. split; [reflexivity|].
           split; [simpl; now rewrite Hout|].
           split; [apply Herr | simpl; exact Hcl].
    + pose proof (json_read_preserves request w w1 _ Hread) as [_ [_ [Hout Hcl]]].
      rewrite (wifi_add_read_failure request w w1 e Hread).
      eexists _, _. split; [reflexivity|].
      split; [simpl; now rewrite Hout|].
      split; [apply Herr | simpl; exact Hcl].
    + pose proof (json_read_finishes request w) as Hfin.
      rewrite Hread in Hfin. now contradiction Hfin.
  - (* wifi_list *)
    rewrite wifi_list_outcome. eexists _, _.
    split; [reflexivity|]. split; [reflexivity|]. split; [apply Hok | reflexivity].
  - (* wifi_clear *)
    rewrite wifi_clear_outcome. eexists _, _.
    split; [reflexivity|]. split; [reflexivity|]. split; [apply Hok | reflexivity].
  - (* wifi_connect *)
    destruct (wifi_connect_outcome request w) as [b [w1 [_ [Hconn [_ ->]]]]].
    destruct b; eexists _, _; (split; [reflexivity|]);
      (split; [simpl; now rewrite Hconn|]);
      (split; [apply Hok | simpl; now rewrite Hconn]).
Qed.

(** X7.  Every handler of the portal answers, whatever the request and the
    state of the device: it returns normally, with no next handler, having
    written exactly one complete JSON response (status line, content type,
    body) and nothing else to the connection, which it leaves open for the
    engine to close. *)
Theorem portal_handlers_answer :
  forall (rt : Runtime) (h : Request -> M (option handler)) (request : Request)
         (w : world),
    In h portal_handlers ->
    exists (w' : world) (chunks : list string),
      h request w = (Ok None, w')
      /\ outgoing (conn w') = (outgoing (conn w) ++ chunks)%list
      /\ json_response chunks
      /\ closed (conn w') = closed (conn w).
Proof. exact portal_handler_outcome. Qed.

Lemma portal_handlers_answer_witness :
  exists (w' : world) (chunks : list string),
    wifi_add add_request (receiving [body_ssid_only]) = (Ok None, w')
    /\ outgoing (conn w')
       = (outgoing (conn (receiving [body_ssid_only])) ++ chunks)%list
    /\ json_response chunks
    /\ closed (conn w') = closed (conn (receiving [body_ssid_only])).
Proof.
  apply (portal_handlers_answer sample_runtime wifi_add add_request
           (receiving [body_ssid_only])).
  simpl. auto.
Defined.

(* ================================================================= *)
(** ** The engine: files, headers, and the end of a connection *)

Section Engine.
Context {rt : Runtime}.

Lemma generate_output_answered (fuel : nat) (request : Request)
    (f : Request -> M (option handler)) (w w' : world) :
  f request w = (Ok None, w') ->
  generate_output (S fuel) request (HCall f) w = (Ok tt, w').
Proof. intros H. cbn [generate_output]. now rewrite (bind_ok _ _ _ _ _ H). Qed.

Lemma parse_headers_finishes (lines : list string) :
  forall kept, fst (parse_headers lines kept) <> Running.
Proof.
  induction lines as [|line lines IH]; intros kept; cbn [parse_headers].
  - discriminate.
  - unfold decode_ascii, decode_utf8.
    destruct (code_points line); [|discriminate].
    destruct (split_colon line) as [[header value]|]; [|discriminate].
    destruct (existsb (String.eqb header) extract_headers); apply IH.
Qed.

Lemma read_headers_finishes (request : Request) (w : world) :
  fst (read_headers request w) <> Running.
Proof.
  unfold read_headers.
  pose proof (parse_headers_finishes (incoming (conn w)) (headers request)) as H.
  destruct (parse_headers (incoming (conn w)) (headers request)) as [[kept|e|] rest];
    simpl in *; [discriminate | discriminate | contradiction].
Qed.

Lemma routes_lookup_in (u : string) (routes : routes_table) (h : handler) :
  routes_lookup u routes = Some h -> In (u, h) routes.
Proof.
  induction routes as [|[r h'] rest IH]; simpl; [discriminate|].
  destruct (r =? u) eqn:E.
  - intros H. injection H as <-. apply String.eqb_eq in E. subst. now left.
  - intros H. right. now apply IH.
Qed.

Lemma portal_routes_handlers (pattern : string) (h : handler) :
  In (pattern, h) portal_routes ->
  exists f, h = HCall f /\ In f portal_handlers.
Proof.
  unfold portal_routes, portal_handlers.
  intros [H | [H | [H | [H | [H | [H | []]]]]]]; injection H as _ <-;
    eexists; (split; [reflexivity|]); simpl; auto 10.
Qed.

Lemma portal_call_finishes (f : Request -> M (option handler)) (request : Request)
    (w : world) :
  In f portal_handlers ->
  exists w', generate_output 1 request (HCall f) w = (Ok tt, w').
Proof.
  intros Hin.
  destruct (portal_handler_outcome rt f request w Hin) as [w' [chunks [Hf _]]].
  exists w'. now apply generate_output_answered.
Qed.

Lemma portal_dispatch_finishes (request : Request) (w : world) :
  fst (dispatch 1 portal_routes request w) <> Running.
Proof.
  rewrite (dispatch_resolves 1 portal_routes request eq_refl).
  unfold spec_resolve.
  destruct (routes_lookup (url request) portal_routes) as [h|] eqn:E.
  - apply routes_lookup_in, portal_routes_handlers in E as [f [-> Hf]].
    cbn [serve].
    destruct (portal_call_finishes f (set_route (url request) request) w Hf)
      as [w' ->].
    discriminate.
  - destruct (find _ portal_routes) as [[pattern h]|] eqn:Ef.
    + apply find_some in Ef as [Hin _].
      apply portal_routes_handlers in Hin as [f [-> Hf]].
      cbn [serve].
      destruct (portal_call_finishes f (set_route pattern request) w Hf) as [w' ->].
      discriminate.
    + destruct ((url request =? EmptyString) || (url request =? "/")).
      * cbn [serve]. rewrite send_file_outcome.
        destruct (file_lookup _ _) as [[c|e]|]; try discriminate.
        destruct (e =? ENOENT)%Z; discriminate.
      * destruct (has_asset_extension (url request)); cbn [serve];
          [|discriminate].
        rewrite send_file_outcome.
        destruct (file_lookup _ _) as [[c|e]|]; try discriminate.
        destruct (e =? ENOENT)%Z; discriminate.
Qed.

Lemma portal_body_finishes (request : Request) (version : string) (w : world) :
  fst (handle_body 1 portal_routes request version w) <> Running.
Proof.
  unfold handle_body.
  destruct (negb (supported_version version)); [discriminate|].
  unfold bind.
  pose proof (read_headers_finishes request w) as Hread.
  destruct (read_headers request w) as [[request'|e|] w1];
    [apply portal_dispatch_finishes | discriminate | contradiction].
Qed.

(** When the body of the request comes to an end, so does [handle], with
    the connection closed. *)
Lemma handle_guarded_finishes (fuel : nat) (routes : routes_table)
    (request : Request) (version : string) (w : world) :
  fst (handle_body fuel routes request version w) <> Running ->
  fst (handle_guarded fuel routes request version w) <> Running
  /\ closed (conn (snd (handle_guarded fuel routes request version w))) = true.
Proof.
  intros Hbody. unfold handle_guarded, try_finally, try_except.
  destruct (handle_body fuel routes request version w) as [[u|e|] w1];
    [| |contradiction].
  - simpl. split; [discriminate | reflexivity].
  - destruct e; cbn [is_HttpError is_OSError render_http_error skip_connection_reset];
      try (destruct (errno =? ECONNRESET)%Z);
      simpl; split; first [discriminate | reflexivity].
Qed.

End Engine.

(** X8.  The portal closes every connection whose request line has three
    items: whatever the method, the url, the version, the headers, the body
    and the state of the device, serving the request comes to an end and the
    connection is closed when it does. *)
Theorem portal_always_closes :
  forall (rt : Runtime) (w : world) (line : string) (rest : list string)
         (text method_ url_ version : string),
    incoming (conn w) = line :: rest ->
    decode_ascii line = Ok text ->
    py_split text = [method_; url_; version] ->
    fst (serve_portal w) <> Running
    /\ closed (conn (snd (serve_portal w))) = true.
Proof.
  intros rt w line rest text method_ url_ version Hin Hdec Hsplit.
  unfold serve_portal.
  rewrite (handle_unfold 1 portal_routes w line rest text Hin Hdec), Hsplit.
  apply handle_guarded_finishes, portal_body_finishes.
Qed.

Lemma portal_always_closes_witness :
  fst (serve_portal (receiving ["GET /ping HTTP/1.1" ++ CRLF; CRLF])) <> Running
  /\ closed (conn (snd (serve_portal
                          (receiving ["GET /ping HTTP/1.1" ++ CRLF; CRLF])))) = true.
Proof.
  exact (portal_always_closes sample_runtime
           (receiving ["GET /ping HTTP/1.1" ++ CRLF; CRLF])
           ("GET /ping HTTP/1.1" ++ CRLF) [CRLF] ("GET /ping HTTP/1.1" ++ CRLF)
           "GET" "/ping" "HTTP/1.1" eq_refl eq_refl eq_refl).
Defined.

(** *** Headers *)

Lemma header_lookup_store (name header value : string)
    (kept : list (string * string)) :
  header_lookup name (header_store header value kept)
  = if header =? name then Some value else header_lookup name kept.
Proof.
  induction kept as [|[n v] kept IH]; simpl.
  - reflexivity.
  - destruct (n =? header) eqn:Enh; simpl.
    + apply String.eqb_eq in Enh. subst n.
      destruct (header =? name); reflexivity.
    + rewrite IH. destruct (n =? name) eqn:Enn; [|reflexivity].
      apply String.eqb_eq in Enn. subst n. now rewrite String.eqb_sym, Enh.
Qed.

Lemma parse_headers_whitelist (lines : list string) :
  forall kept kept' rest,
    parse_headers lines kept = (Ok kept', rest) ->
    (forall name value,
        header_lookup name kept' = Some value ->
        In name extract_headers \/ header_lookup name kept = Some value)
    /\ exists taken, lines = (taken ++ rest)%list.
Proof.
  induction lines as [|line lines IH]; intros kept kept' rest Hparse;
    cbn [parse_headers] in Hparse.
  - injection Hparse as <- <-. split; [auto | now exists []].
  - destruct (decode_ascii line) as [text|e|]; try discriminate.
    destruct (split_colon text) as [[header value]|].
    + destruct (existsb (String.eqb header) extract_headers) eqn:Ewl.
      * destruct (IH _ _ _ Hparse) as [Hnames [taken ->]].
        split; [|now exists (line :: taken)].
        intros name v Hv. destruct (Hnames name v Hv) as [Hin | Hold]; [now left|].
        rewrite header_lookup_store in Hold.
        destruct (header =? name) eqn:Ehn; [|now right].
        left. apply String.eqb_eq in Ehn. subst name.
        apply existsb_exists in Ewl as [x [Hx Heq]].
        apply String.eqb_eq in Heq. now subst x.
      * destruct (IH _ _ _ Hparse) as [Hnames [taken ->]].
        split; [exact Hnames | now exists (line :: taken)].
    + injection Hparse as <- <-. split; [auto | now exists [line]].
Qed.

(** X9.  The header loop keeps nothing but the three whitelisted headers:
    after it, every header of the request is Authorization, Content-Length
    or Content-Type (or was there before the loop), url and method are as
    they were, and the lines left on the connection are a suffix of the
    lines that were there, so that the body is still to be read. *)
Theorem read_headers_whitelist :
  forall (request request' : Request) (w w1 : world),
    read_headers request w = (Ok request', w1) ->
    (forall name value,
        header_lookup name (headers request') = Some value ->
        In name extract_headers
        \/ header_lookup name (headers request) = Some value)
    /\ url request' = url request
    /\ method request' = method request
    /\ (exists taken, incoming (conn w) = (taken ++ incoming (conn w1))%list)
    /\ outgoing (conn w1) = outgoing (conn w).
Proof.
  intros request request' w w1. unfold read_headers.
  destruct (parse_headers (incoming (conn w)) (headers request))
    as [[kept|e|] rest] eqn:Hparse; try discriminate.
  intros H. injection H as <- <-.
  destruct (parse_headers_whitelist _ _ _ _ Hparse) as [Hnames Htaken].
  simpl. auto.
Qed.

Lemma read_headers_whitelist_witness :
  url (set_headers [("Content-Length", "15")]
         {| url := "/wifi/add"; method := "POST"; headers := [];
            route := EmptyString |}) = "/wifi/add"
  /\ method (set_headers [("Content-Length", "15")]
               {| url := "/wifi/add"; method := "POST"; headers := [];
                  route := EmptyString |}) = "POST"
  /\ (exists taken,
        incoming (conn (receiving ["Host: 192.168.4.1" ++ CRLF;
                                   "Content-Length: 15" ++ CRLF;
                                   "X-Secret: 1" ++ CRLF; CRLF; body_ssid_only]))
        = (taken ++ incoming (conn (receiving [body_ssid_only])))%list)
  /\ outgoing (conn (receiving [body_ssid_only]))
     = outgoing (conn (receiving ["Host: 192.168.4.1" ++ CRLF;
                                  "Content-Length: 15" ++ CRLF;
                                  "X-Secret: 1" ++ CRLF; CRLF; body_ssid_only])).
Proof.
  exact (proj2 (read_headers_whitelist
                  {| url := "/wifi/add"; method := "POST"; headers := [];
                     route := EmptyString |}
                  (set_headers [("Content-Length", "15")]
                     {| url := "/wifi/add"; method := "POST"; headers := [];
                        route := EmptyString |})
                  (receiving ["Host: 192.168.4.1" ++ CRLF;
                              "Content-Length: 15" ++ CRLF;
                              "X-Secret: 1" ++ CRLF; CRLF; body_ssid_only])
                  (receiving [body_ssid_only])
                  eq_refl)).
Defined.

(** *** Files on the wire *)



Section StaticRoutes.
Context {rt : Runtime}.

Lemma generate_output_missing_file (fuel : nat) (request : Request)
    (path : string) (w : world) :
  file_lookup path (files w) = None ->
  generate_output fuel request (HFile path) w
  = (Raise (HttpError 404 "File Not Found"), wrote [OK_LINE ++ CRLF] w).
Proof.
  intros Hmissing. destruct fuel; cbn [generate_output]; unfold write, bind;
    rewrite conn_write_wrote, send_file_outcome; simpl; now rewrite Hmissing.
Qed.

Lemma dispatch_exact (fuel : nat) (routes : routes_table) (request : Request)
    (h : handler) (w : world) :
  routes_lookup (url request) routes = Some h ->
  dispatch fuel routes request w
  = generate_output fuel (set_route (url request) request) h w.
Proof. intros H. unfold dispatch. now rewrite H. Qed.

End StaticRoutes.

(** X11.  A route that maps to the path of a file that does not exist is
    answered with two status lines: [generate_output] writes
    [HTTP/1.1 200 OK] before it opens the file, and the 404 raised by
    [send_file] is then written after it, followed by the HTML heading; the
    connection is closed. *)
Theorem route_to_missing_file :
  forall (rt : Runtime) (fuel : nat) (routes : routes_table)
         (request request' : Request) (version path : string) (w w1 : world),
    supported_version version = true ->
    read_headers request w = (Ok request', w1) ->
    routes_lookup (url request') routes = Some (HFile path) ->
    file_lookup path (files w1) = None ->
    handle_guarded fuel routes request version w
    = (Ok tt,
       hung_up (wrote ((OK_LINE ++ CRLF) :: html_error_chunks 404 "File Not Found")
                      w1)).
Proof.
  intros rt fuel routes request request' version path w w1 Hv Hread Hroute Hmissing.
  rewrite (handle_guarded_http_error fuel routes request version w
             (wrote [OK_LINE ++ CRLF] w1) 404 "File Not Found").
  - now rewrite wrote_wrote.
  - rewrite (handle_body_supported fuel routes request request' version w w1 Hv Hread).
    rewrite (dispatch_exact fuel routes request' (HFile path) w1 Hroute).
    now apply generate_output_missing_file.
Qed.

Lemma route_to_missing_file_witness :
  handle_guarded 1 [("/about", HFile "about.html")]
    {| url := "/about"; method := "GET"; headers := []; route := EmptyString |}
    "HTTP/1.1" (receiving [CRLF])
  = (Ok tt,
     hung_up (wrote ((OK_LINE ++ CRLF) :: html_error_chunks 404 "File Not Found")
                    (receiving []))).
Proof.
  exact (route_to_missing_file sample_runtime 1 [("/about", HFile "about.html")]
           {| url := "/about"; method := "GET"; headers := []; route := EmptyString |}
           {| url := "/about"; method := "GET"; headers := []; route := EmptyString |}
           "HTTP/1.1" "about.html" (receiving [CRLF]) (receiving [])
           eq_refl eq_refl eq_refl eq_refl).
Defined.

(** X12.  The index document and the static assets are sent bare: when no
    route matches (neither by exact url nor in the wildcard loop) and the
    url is [/] or empty, or else ends in a whitelisted extension, and the
    file exists, the bytes written to the connection are the content of the
    file and nothing else, with no status line and no header before it;
    then the connection is closed. *)
Theorem static_file_sent_bare :
  forall (rt : Runtime) (fuel : nat) (routes : routes_table)
         (request request' : Request) (version content : string) (w w1 : world),
    supported_version version = true ->
    read_headers request w = (Ok request', w1) ->
    routes_lookup (url request') routes = None ->
    find_route (url request') routes = Ok None ->
    ((url request' = EmptyString \/ url request' = "/")
     /\ file_lookup INDEX_FILE (files w1) = Some (Data content))
    \/ (url request' <> EmptyString
        /\ url request' <> "/"
        /\ has_asset_extension (url request') = true
        /\ file_lookup (STATIC_DIR ++ "/" ++ url request') (files w1)
           = Some (Data content)) ->
    exists chunks,
      handle_guarded fuel routes request version w
      = (Ok tt, hung_up (wrote chunks w1))
      /\ String.concat EmptyString chunks = content.
Proof.
  intros rt fuel routes request request' version content w w1 Hv Hread Hlookup
         Hfind Hfile.
  unfold handle_guarded, try_finally, try_except.
  rewrite (handle_body_supported fuel routes request request' version w w1 Hv Hread).
  unfold dispatch. rewrite Hlookup. unfold bind, lift. rewrite Hfind.
  destruct Hfile as [[Hu Hdata] | [Hu1 [Hu2 [Hext Hdata]]]].
  - assert ((url request' =? EmptyString) || (url request' =? "/") = true) as ->.
    { destruct Hu as [-> | ->]; reflexivity. }
    rewrite send_file_outcome, Hdata.
    eexists. split; [reflexivity|]. apply text_segments_whole; lia.
  - apply String.eqb_neq in Hu1, Hu2. rewrite Hu1, Hu2, Hext. cbn [orb].
    rewrite send_file_outcome, Hdata.
    eexists. split; [reflexivity|]. apply segments_whole; lia.
Qed.

Lemma static_file_sent_bare_witness :
  exists chunks,
    handle_guarded 1 portal_routes
      {| url := "/"; method := "GET"; headers := []; route := EmptyString |}
      "HTTP/1.1"
      (with_files [("./index.html", Data "<html>portal</html>")] (receiving [CRLF]))
    = (Ok tt,
       hung_up (wrote chunks
                  (with_files [("./index.html", Data "<html>portal</html>")]
                              (receiving []))))
    /\ String.concat EmptyString chunks = "<html>portal</html>".
Proof.
  exact (static_file_sent_bare sample_runtime 1 portal_routes
           {| url := "/"; method := "GET"; headers := []; route := EmptyString |}
           {| url := "/"; method := "GET"; headers := []; route := EmptyString |}
           "HTTP/1.1" "<html>portal</html>"
           (with_files [("./index.html", Data "<html>portal</html>")]
                       (receiving [CRLF]))
           (with_files [("./index.html", Data "<html>portal</html>")] (receiving []))
           eq_refl eq_refl eq_refl eq_refl
           (or_introl (conj (or_intror eq_refl) eq_refl))).
Defined.

(** *** The method of a request *)

Section Method.
Context {rt : Runtime}.

Lemma portal_handler_ignores_method (f : Request -> M (option handler))
    (r1 r2 : Request) (w : world) :
  In f portal_handlers ->
  headers r1 = headers r2 ->
  f r1 w = f r2 w.
Proof.
  intros Hin Hh.
  destruct r1 as [u1 m1 h1 rt1], r2 as [u2 m2 h2 rt2]. simpl in Hh. subst h2.
  destruct Hin as [<- | [<- | [<- | [<- | [<- | [<- | []]]]]]]; reflexivity.
Qed.

Lemma portal_dispatch_ignores_method (r1 r2 : Request) (w : world) :
  url r1 = url r2 ->
  headers r1 = headers r2 ->
  dispatch 1 portal_routes r1 w = dispatch 1 portal_routes r2 w.
Proof.
  intros Hu Hh.
  rewrite !(dispatch_resolves 1 portal_routes _ eq_refl). rewrite Hu.
  unfold spec_resolve.
  destruct (routes_lookup (url r2) portal_routes) as [h|] eqn:E.
  - apply routes_lookup_in, portal_routes_handlers in E as [f [-> Hf]].
    cbn [serve]. rewrite Hu.
    destruct (portal_handler_outcome rt f (set_route (url r2) r2) w Hf)
      as [w' [chunks [Hout _]]].
    rewrite (generate_output_answered 0 _ f w w' Hout).
    apply generate_output_answered.
    now rewrite (portal_handler_ignores_method f (set_route (url r2) r1)
                   (set_route (url r2) r2) w Hf Hh).
  - destruct (find _ portal_routes) as [[pattern h]|] eqn:Ef.
    + apply find_some in Ef as [Hin _].
      apply portal_routes_handlers in Hin as [f [-> Hf]].
      cbn [serve].
      destruct (portal_handler_outcome rt f (set_route pattern r2) w Hf)
        as [w' [chunks [Hout _]]].
      rewrite (generate_output_answered 0 _ f w w' Hout).
      apply generate_output_answered.
      now rewrite (portal_handler_ignores_method f (set_route pattern r1)
                     (set_route pattern r2) w Hf Hh).
    + destruct ((url r2 =? EmptyString) || (url r2 =? "/")).
      * cbn [serve]. now rewrite !send_file_outcome.
      * destruct (has_asset_extension (url r2)); cbn [serve]; [|reflexivity].
        now rewrite !send_file_outcome, Hu.
Qed.

Lemma portal_body_ignores_method (r1 r2 : Request) (version : string) (w : world) :
  url r1 = url r2 ->
  headers r1 = headers r2 ->
  handle_body 1 portal_routes r1 version w
  = handle_body 1 portal_routes r2 version w.
Proof.
  intros Hu Hh. unfold handle_body.
  destruct (negb (supported_version version)); [reflexivity|].
  unfold bind, read_headers. rewrite Hh.
  destruct (parse_headers (incoming (conn w)) (headers r2)) as [[kept|e|] rest];
    try reflexivity.
  apply portal_dispatch_ignores_method; simpl; [exact Hu | reflexivity].
Qed.

End Method.

(** X13.  Neither the engine nor the portal looks at the method of a
    request: two requests that differ only in their method are served alike,
    with the same response and the same effect on the device.  A GET of
    [/wifi/clear] clears the store as a POST does. *)
Theorem method_is_ignored :
  forall (rt : Runtime) (r1 r2 : Request) (version : string) (w : world),
    url r1 = url r2 ->
    headers r1 = headers r2 ->
    handle_guarded 1 portal_routes r1 version w
    = handle_guarded 1 portal_routes r2 version w.
Proof.
  intros rt r1 r2 version w Hu Hh.
  unfold handle_guarded.
  assert (render_http_error r1 = render_http_error r2) as -> by reflexivity.
  unfold try_finally, try_except.
  now rewrite (portal_body_ignores_method r1 r2 version w Hu Hh).
Qed.

Lemma method_is_ignored_witness :
  handle_guarded 1 portal_routes
    {| url := "/wifi/clear"; method := "GET"; headers := []; route := EmptyString |}
    "HTTP/1.1"
    (with_credentials [(PStr "home", PStr "secret")] (receiving [CRLF]))
  = handle_guarded 1 portal_routes
      {| url := "/wifi/clear"; method := "POST"; headers := [];
         route := EmptyString |}
      "HTTP/1.1"
      (with_credentials [(PStr "home", PStr "secret")] (receiving [CRLF])).
Proof.
  exact (method_is_ignored sample_runtime
           {| url := "/wifi/clear"; method := "GET"; headers := [];
              route := EmptyString |}
           {| url := "/wifi/clear"; method := "POST"; headers := [];
              route := EmptyString |}
           "HTTP/1.1"
           (with_credentials [(PStr "home", PStr "secret")] (receiving [CRLF]))
           eq_refl eq_refl).
Defined.

Example get_clears_the_store :
  let out := serve_portal
               (with_credentials [(PStr "home", PStr "secret")]
                  (receiving ["GET /wifi/clear HTTP/1.1" ++ CRLF; CRLF])) in
  credentials (cred_manager (snd out)) = []
  /\ outgoing (conn (snd out)) = json_ok_chunks (status_body "credentials cleared").
Proof. vm_compute. auto. Qed.

(* ================================================================= *)
(** ** Scanning, when every name is text *)

Lemma filter_perm {A : Type} (p : A -> bool) (l l' : list A) :
  Permutation l l' -> Permutation (filter p l) (filter p l').
Proof.
  induction 1 as [|x l l' Hl IH|x y l|l l' l'' H1 IH1 H2 IH2]; simpl.
  - apply perm_nil.
  - destruct (p x); [now apply perm_skip | exact IH].
  - destruct (p x), (p y);
      first [apply perm_swap | apply Permutation_refl].
  - now apply perm_trans with (filter p l').
Qed.

Lemma filter_sorted {A : Type} (R : A -> A -> Prop) (p : A -> bool) (l : list A) :
  StronglySorted R l -> StronglySorted R (filter p l).
Proof.
  induction 1 as [|x l Hs IH Hx]; simpl; [constructor|].
  destruct (p x); [|exact IH].
  constructor; [exact IH|].
  rewrite Forall_forall in *. intros y Hy.
  apply filter_In in Hy as [Hy _]. now apply Hx.
Qed.

Lemma rows_sorted (l : list network) :
  StronglySorted stronger_or_equal l ->
  StronglySorted (fun a b : scan_row => (snd b <= snd a)%Z) (map row_of l).
Proof.
  induction 1 as [|n l Hs IH Hn]; simpl; constructor; [exact IH|].
  rewrite Forall_forall in *. intros row Hrow.
  apply in_map_iff in Hrow as [m [<- Hm]]. exact (Hn m Hm).
Qed.

(** On plain ASCII bytes the check passes and every byte is its own code
    point. *)
Lemma utf8_check_ascii (bs : list N) :
  Forall (fun b => (b < 128)%N) bs -> utf8_check 0 bs = true.
Proof.
  induction 1 as [|b bs Hb Hbs IH]; [reflexivity|].
  cbn [utf8_check]. apply N.ltb_lt in Hb. now rewrite Hb.
Qed.

Lemma ascii_not_cont (b : N) : (b < 128)%N -> is_cont b = false.
Proof.
  intros Hb. unfold is_cont. apply andb_false_iff. left.
  apply N.leb_gt. exact Hb.
Qed.

Lemma utf8_ords_ascii (bs : list N) :
  Forall (fun b => (b < 128)%N) bs ->
  utf8_ords None bs = bs /\ forall c, utf8_ords (Some c) bs = c :: bs.
Proof.
  induction 1 as [|b bs Hb Hbs [IHn IHs]]; [split; reflexivity|].
  cbn [utf8_ords]. rewrite (ascii_not_cont b Hb).
  unfold lead_bits. apply N.ltb_lt in Hb. rewrite Hb.
  split; [apply IHs | intros c; now rewrite IHs].
Qed.

Lemma printable_code_point_is_byte (b : N) :
  ((31 <? b) && (b <? 127))%N = ((32 <=? b) && (b <=? 126))%N.
Proof.
  destruct (31 <? b)%N eqn:E1, (b <? 127)%N eqn:E2,
           (32 <=? b)%N eqn:E3, (b <=? 126)%N eqn:E4;
    try reflexivity;
    repeat match goal with
           | H : (_ <? _)%N = true |- _ => apply N.ltb_lt in H
           | H : (_ <? _)%N = false |- _ => apply N.ltb_ge in H
           | H : (_ <=? _)%N = true |- _ => apply N.leb_le in H
           | H : (_ <=? _)%N = false |- _ => apply N.leb_gt in H
           end; lia.
Qed.

(** On a name of plain ASCII bytes the filter of the code is the filter of
    the specification. *)
Lemma shown_plain_ascii (n : network) :
  plain_ascii (net_ssid n) -> shown n = kept n.
Proof.
  intros Hplain. unfold shown, kept, is_printable, printable_bytes, ords, code_points.
  rewrite (utf8_check_ascii _ Hplain), (proj1 (utf8_ords_ascii _ Hplain)).
  f_equal. clear Hplain.
  induction (byte_values (net_ssid n)) as [|b bs IH]; [reflexivity|].
  cbn [forallb]. now rewrite printable_code_point_is_byte, IH.
Qed.

Lemma scan_of_decodable_names {rt : Runtime} (w : world) :
  Forall decodable (sta_visible (wlan_sta w)) ->
  scan_available_networks w
  = (Ok (map row_of (filter shown (sorted_by_rssi (sta_visible (wlan_sta w))))), w).
Proof.
  intros Hvalid.
  unfold scan_available_networks, bind, sta_scan, lift.
  rewrite scan_rows_decodable; [reflexivity|].
  eapply Permutation_Forall; [apply sorted_by_rssi_perm | exact Hvalid].
Qed.

Lemma shown_rows_of_sort {rt : Runtime} (nets : list network) :
  Permutation (map row_of (filter shown (sorted_by_rssi nets)))
              (map row_of (filter shown nets))
  /\ StronglySorted (fun a b : scan_row => (snd b <= snd a)%Z)
                    (map row_of (filter shown (sorted_by_rssi nets))).
Proof.
  split.
  - apply Permutation_map, filter_perm, Permutation_sym, sorted_by_rssi_perm.
  - apply rows_sorted, filter_sorted, sorted_by_rssi_sorted.
Qed.

(** X14.  When [decode] accepts every name in range,
    [scan_available_networks] returns one row (name, colon-hex address,
    strength) for each network whose name is not empty and has every code
    point in 32..126, and for no other: the rows are an arrangement of
    these networks' rows, strongest first; the order among rows of equal
    strength is the runtime's.  On a name of plain ASCII bytes the test on
    the code points is the test of the specification on the bytes.  The
    radio is only read. *)
Theorem scan_of_text_names :
  forall (rt : Runtime) (w : world),
    Forall decodable (sta_visible (wlan_sta w)) ->
    (exists rows,
        scan_available_networks w = (Ok rows, w)
        /\ Permutation rows (map row_of (filter shown (sta_visible (wlan_sta w))))
        /\ StronglySorted (fun a b : scan_row => (snd b <= snd a)%Z) rows)
    /\ (forall n, plain_ascii (net_ssid n) -> shown n = kept n).
Proof.
  intros rt w Hvalid. split; [|apply shown_plain_ascii].
  exists (map row_of (filter shown (sorted_by_rssi (sta_visible (wlan_sta w))))).
  split; [now apply scan_of_decodable_names|].
  apply shown_rows_of_sort.
Qed.

Lemma scan_of_text_names_witness :
  exists rows,
    scan_available_networks (rt := sample_runtime)
      (seeing [ access_point "Attic" (-70); access_point CAFE_UTF8 (-30);
                access_point "Home" (-40); access_point EmptyString (-20) ])
    = (Ok rows,
       seeing [ access_point "Attic" (-70); access_point CAFE_UTF8 (-30);
                access_point "Home" (-40); access_point EmptyString (-20) ])
    /\ Permutation rows
         [ ("Attic", "00:11:22:ab:cd:ef", (-70)%Z);
           ("Home", "00:11:22:ab:cd:ef", (-40)%Z) ]
    /\ StronglySorted (fun a b : scan_row => (snd b <= snd a)%Z) rows.
Proof.
  apply (proj1 (scan_of_text_names sample_runtime
           (seeing [ access_point "Attic" (-70); access_point CAFE_UTF8 (-30);
                     access_point "Home" (-40); access_point EmptyString (-20) ])
           ltac:(repeat constructor; discriminate))).
Defined.

(** X15.  [/wifi/scan] answers the JSON error 500 as soon as one network in
    range has a name that [decode] refuses, whatever the other networks;
    when every name is accepted it answers 200 with the list of the
    networks shown, strongest first, each as its ssid, mac and rssi.  In
    both cases nothing but the connection changes. *)
Theorem wifi_scan_answers :
  forall (rt : Runtime) (request : Request) (w : world),
    (Exists (fun n => code_points (net_ssid n) = None) (sta_visible (wlan_sta w)) ->
       wifi_scan request w
       = (Ok None,
          wrote (json_error_chunks 500 "Internal Server Error"
                                       "Internal Server Error") w))
    /\ (Forall decodable (sta_visible (wlan_sta w)) ->
        exists rows,
          Permutation rows (map row_of (filter shown (sta_visible (wlan_sta w))))
          /\ StronglySorted (fun a b : scan_row => (snd b <= snd a)%Z) rows
          /\ wifi_scan request w
             = (Ok None,
                wrote (json_ok_chunks
                         (json_dumps
                            (PDict [(PStr "networks",
                                     PList (map (fun row : scan_row =>
                                                   PDict [(PStr "ssid", PStr (fst (fst row)));
                                                          (PStr "mac", PStr (snd (fst row)));
                                                          (PStr "rssi", PInt (snd row))])
                                                rows))])))
                      w)).
Proof.
  intros rt request w. rewrite wifi_scan_outcome. split.
  - intros Hbad. rewrite scan_rows_undecodable; [reflexivity|].
    apply Exists_exists in Hbad as [n [Hin Hn]].
    apply Exists_exists. exists n. split; [|exact Hn].
    eapply Permutation_in; [apply sorted_by_rssi_perm | exact Hin].
  - intros Hvalid.
    exists (map row_of (filter shown (sorted_by_rssi (sta_visible (wlan_sta w))))).
    destruct (shown_rows_of_sort (sta_visible (wlan_sta w))) as [Hperm Hsorted].
    split; [exact Hperm|]. split; [exact Hsorted|].
    rewrite scan_rows_decodable.
    + erewrite (map_ext network_json); [reflexivity|].
      intros [[ssid mac] rssi]. reflexivity.
    + eapply Permutation_Forall; [apply sorted_by_rssi_perm | exact Hvalid].
Qed.

Lemma wifi_scan_answers_witness :
  wifi_scan add_request
    (seeing [ access_point "Home" (-40); access_point CAFE_LATIN1 (-80) ])
  = (Ok None,
     wrote (json_error_chunks 500 "Internal Server Error" "Internal Server Error")
           (seeing [ access_point "Home" (-40); access_point CAFE_LATIN1 (-80) ])).
Proof.
  apply (proj1 (wifi_scan_answers sample_runtime add_request
                  (seeing [ access_point "Home" (-40);
                            access_point CAFE_LATIN1 (-80) ]))).
  apply Exists_cons_tl, Exists_cons_hd. reflexivity.
Defined.

(* ================================================================= *)
(** ** The credential store as a mapping *)









(* ================================================================= *)
(** ** The portal and the store *)

Lemma py_eqb_str (s : string) (k : pyval) :
  py_eqb (PStr s) k = true -> k = PStr s.
Proof.
  destruct k; simpl; try discriminate.
  intros H. apply String.eqb_eq in H. now subst.
Qed.

Lemma dict_store_in_str (s : string) (v : pyval) (d : dict) :
  In (PStr s, v) (dict_store (PStr s) v d).
Proof.
  induction d as [|[k' v'] d IH]; cbn [dict_store]; [now left|].
  destruct (py_eqb (PStr s) k') eqn:E.
  - left. now rewrite (py_eqb_str s k' E).
  - now right.
Qed.

Lemma masked_json_entry (cred : pyval * pyval) :
  masked_json cred = masked_entry (fst cred).
Proof. reflexivity. Qed.

(** X18.  [/wifi/list] gives no secret away: its response is determined by
    the names of the stored networks alone, so two devices that store the
    same names with different secrets answer with the same bytes; and the
    handler changes neither the store nor any file. *)
Theorem wifi_list_hides_secrets :
  forall (rt : Runtime) (request : Request) (w1 w2 : world),
    map fst (credentials (cred_manager w1)) = map fst (credentials (cred_manager w2)) ->
    outgoing (conn w1) = outgoing (conn w2) ->
    outgoing (conn (snd (wifi_list request w1)))
    = outgoing (conn (snd (wifi_list request w2)))
    /\ cred_manager (snd (wifi_list request w1)) = cred_manager w1
    /\ files (snd (wifi_list request w1)) = files w1.
Proof.
  intros rt request w1 w2 Hnames Hout.
  rewrite !wifi_list_outcome. simpl. rewrite Hout.
  replace (map masked_json (credentials (cred_manager w1)))
    with (map masked_entry (map fst (credentials (cred_manager w1))))
    by (rewrite map_map; reflexivity).
  replace (map masked_json (credentials (cred_manager w2)))
    with (map masked_entry (map fst (credentials (cred_manager w2))))
    by (rewrite map_map; reflexivity).
  now rewrite Hnames.
Qed.

Lemma wifi_list_hides_secrets_witness :
  outgoing (conn (snd (wifi_list add_request
                         (with_credentials [(PStr "home", PStr "secret")]
                                           fresh_world))))
  = outgoing (conn (snd (wifi_list add_request
                           (with_credentials [(PStr "home", PStr "hunter2")]
                                             fresh_world)))).
Proof.
  exact (proj1 (wifi_list_hides_secrets sample_runtime add_request
                  (with_credentials [(PStr "home", PStr "secret")] fresh_world)
                  (with_credentials [(PStr "home", PStr "hunter2")] fresh_world)
                  eq_refl eq_refl)).
Defined.

(** X19.  A network added through [/wifi/add] shows in [/wifi/list]: after
    a request whose body is an object with a non-empty string ssid and a
    truthy password, the list answered by [/wifi/list] holds the entry with
    that ssid and the password masked as four stars. *)
Theorem added_network_is_listed :
  forall (rt : Runtime) (request request' : Request) (w w1 : world)
         (fields : dict) (ssid : string),
    json_read request w = (Ok (PDict fields), w1) ->
    field "ssid" fields = PStr ssid ->
    ssid <> EmptyString ->
    truthy (field "password" fields) = true ->
    exists entries,
      wifi_list request' (snd (wifi_add request w))
      = (Ok None,
         wrote (json_ok_chunks
                  (json_dumps (PDict [(PStr "credentials", PList entries)])))
               (snd (wifi_add request w)))
      /\ In (masked_entry (PStr ssid)) entries.
Proof.
  intros rt request request' w w1 fields ssid Hread Hssid Hne Hpw.
  exists (map masked_json (credentials (cred_manager (snd (wifi_add request w))))).
  split; [apply wifi_list_outcome|].
  rewrite (wifi_add_object request w w1 fields Hread), Hssid, Hpw.
  assert (truthy (PStr ssid) = true) as ->.
  { simpl. apply negb_true_iff. now apply String.eqb_neq. }
  simpl.
  change (masked_entry (PStr ssid))
    with (masked_json (PStr ssid, field "password" fields)).
  apply in_map. apply dict_store_in_str.
Qed.

Lemma added_network_is_listed_witness :
  exists entries,
    wifi_list add_request
      (snd (wifi_add {| url := "/wifi/add"; method := "POST";
                        headers := [("Content-Length", "35")];
                        route := "/wifi/add" |}
                     (receiving [body_ssid_password])))
    = (Ok None,
       wrote (json_ok_chunks
                (json_dumps (PDict [(PStr "credentials", PList entries)])))
             (snd (wifi_add {| url := "/wifi/add"; method := "POST";
                               headers := [("Content-Length", "35")];
                               route := "/wifi/add" |}
                            (receiving [body_ssid_password]))))
    /\ In (masked_entry (PStr "home")) entries.
Proof.
  apply (added_network_is_listed sample_runtime
           {| url := "/wifi/add"; method := "POST";
              headers := [("Content-Length", "35")]; route := "/wifi/add" |}
           add_request (receiving [body_ssid_password]) (receiving [])
           [(PStr "ssid", PStr "home"); (PStr "password", PStr "secret")] "home");
    [reflexivity | reflexivity | discriminate | reflexivity].
Defined.

(** X20.  [/wifi/clear] empties the store for good: after the handler the
    mapping is empty and the backing file holds the serialisation of the
    empty mapping (the handler awaits [save] itself), and the answer is the
    JSON status [credentials cleared]; a following [/wifi/list] answers the
    empty list. *)
Theorem wifi_clear_persists :
  forall (rt : Runtime) (request request' : Request) (w : world),
    fst (wifi_clear request w) = Ok None
    /\ credentials (cred_manager (snd (wifi_clear request w))) = []
    /\ converged (snd (wifi_clear request w))
    /\ outgoing (conn (snd (wifi_clear request w)))
       = (outgoing (conn w)
          ++ json_ok_chunks (status_body "credentials cleared"))%list
    /\ wifi_list request' (snd (wifi_clear request w))
       = (Ok None,
          wrote (json_ok_chunks
                   (json_dumps (PDict [(PStr "credentials", PList [])])))
                (snd (wifi_clear request w))).
Proof.
  intros rt request request' w.
  rewrite wifi_list_outcome, wifi_clear_outcome. simpl.
  repeat split.
  unfold converged. simpl. now rewrite String.eqb_refl.
Qed.

(** X21.  [json_read] raises in one case only: a Content-Length header
    whose value [int] refuses, and then the exception is that [ValueError],
    raised before anything is read.  In every other case it returns a
    value, having touched nothing but the input of the connection. *)
Theorem json_read_raises_only_on_bad_length :
  forall (rt : Runtime) (request : Request) (w : world),
    (forall value,
        header_lookup "Content-Length" (headers request) = Some value ->
        int_of_str value = None ->
        json_read request w = (Raise ValueError, w))
    /\
    ((header_lookup "Content-Length" (headers request) = None
      \/ exists value n,
           header_lookup "Content-Length" (headers request) = Some value
           /\ int_of_str value = Some n) ->
     exists v w1,
       json_read request w = (Ok v, w1)
       /\ cred_manager w1 = cred_manager w
       /\ files w1 = files w
       /\ outgoing (conn w1) = outgoing (conn w)).
Proof.
  intros rt request w. split.
  - intros value Hh Hint. now apply (json_read_bad_length request w value).
  - intros Hok.
    assert (exists content w1, read request w = (Ok content, w1)) as [content [w1 Hread]].
    { rewrite read_unfold.
      destruct Hok as [-> | [value [n [-> ->]]]]; [now eexists _, _|].
      unfold conn_read. now eexists _, _. }
    pose proof (json_read_content request w w1 content Hread) as Hjson.
    eexists _, w1. split; [exact Hjson|].
    destruct (json_read_preserves request w w1 _ Hjson) as [Hcm [Hf [Ho _]]].
    auto.
Qed.

Lemma json_read_raises_only_on_bad_length_witness :
  json_read {| url := "/wifi/add"; method := "POST";
               headers := [("Content-Length", "x")]; route := "/wifi/add" |}
            (receiving [body_ssid_only])
  = (Raise ValueError, receiving [body_ssid_only]).
Proof.
  exact (proj1 (json_read_raises_only_on_bad_length sample_runtime
                  {| url := "/wifi/add"; method := "POST";
                     headers := [("Content-Length", "x")]; route := "/wifi/add" |}
                  (receiving [body_ssid_only]))
               "x" eq_refl eq_refl).
Defined.

(* ================================================================= *)
(** ** What leaves [handle] *)

(** X22.  The outcome of [handle] past the request line, by the outcome of
    its body.  A body that returns, and a body that raises the [OSError] of
    a connection reset, end quietly; an [HttpError] is answered in HTML; any
    other exception, an [OSError] with another errno included, leaves
    [handle] as it is, with no response written for it.  In each of these
    cases the connection is closed first. *)
Theorem handle_outcomes :
  forall (rt : Runtime) (fuel : nat) (routes : routes_table) (request : Request)
         (version : string) (w w1 : world),
    (handle_body fuel routes request version w = (Ok tt, w1) ->
       handle_guarded fuel routes request version w = (Ok tt, hung_up w1))
    /\ (handle_body fuel routes request version w = (Raise (OSError ECONNRESET), w1) ->
          handle_guarded fuel routes request version w = (Ok tt, hung_up w1))
    /\ (forall code reason,
          handle_body fuel routes request version w
          = (Raise (HttpError code reason), w1) ->
          handle_guarded fuel routes request version w
          = (Ok tt, hung_up (wrote (html_error_chunks code reason) w1)))
    /\ (forall e,
          handle_body fuel routes request version w = (Raise e, w1) ->
          is_HttpError e = false ->
          e <> OSError ECONNRESET ->
          handle_guarded fuel routes request version w = (Raise e, hung_up w1)).
Proof.
  intros rt fuel routes request version w w1.
  split; [|split; [|split]].
  - intros H. unfold handle_guarded, try_finally, try_except. now rewrite H.
  - intros H. unfold handle_guarded, try_finally, try_except. now rewrite H.
  - intros code reason H. now apply handle_guarded_http_error.
  - intros e H Hhttp Hreset.
    unfold handle_guarded, try_finally, try_except. rewrite H, Hhttp.
    destruct e; try discriminate Hhttp; try reflexivity.
    cbn [is_OSError skip_connection_reset].
    destruct (errno =? ECONNRESET)%Z eqn:E; [|reflexivity].
    apply Z.eqb_eq in E. subst. now contradiction Hreset.
Qed.

Lemma handle_outcomes_witness :
  handle_guarded 1 portal_routes
    {| url := "/ping"; method := "GET"; headers := []; route := EmptyString |}
    "HTTP/1.1" (receiving [bytes_of [72; 111; 115; 116; 58; 32; 233]%N; CRLF])
  = (Raise UnicodeError, hung_up (receiving [CRLF])).
Proof.
  exact (proj2 (proj2 (proj2
           (handle_outcomes sample_runtime 1 portal_routes
              {| url := "/ping"; method := "GET"; headers := [];
                 route := EmptyString |}
              "HTTP/1.1"
              (receiving [bytes_of [72; 111; 115; 116; 58; 32; 233]%N; CRLF])
              (receiving [CRLF]))))
           UnicodeError eq_refl eq_refl ltac:(discriminate)).
Defined.

(* ================================================================= *)
(** ** The urls of the portal *)

Lemma routes_lookup_none (u : string) (routes : routes_table) :
  ~ In u (map fst routes) -> routes_lookup u routes = None.
Proof.
  induction routes as [|[r h] rest IH]; simpl; [reflexivity|].
  intros Hnot. destruct (r =? u) eqn:E.
  - apply String.eqb_eq in E. subst. exfalso. apply Hnot. now left.
  - apply IH. intros Hin. apply Hnot. now right.
Qed.

Lemma find_route_no_wildcard (u : string) (routes : routes_table) :
  ~ In u (map fst routes) ->
  forallb (fun rh => match last_char (fst rh) with
                     | Some c => negb (c =? "*")%char
                     | None => false
                     end) routes = true ->
  find_route u routes = Ok None.
Proof.
  induction routes as [|[r h] rest IH]; [reflexivity|].
  cbn [map fst forallb find_route]. intros Hnot Hplain.
  apply andb_true_iff in Hplain as [Hr Hrest].
  destruct (r =? u) eqn:E.
  - apply String.eqb_eq in E. subst. exfalso. apply Hnot. now left.
  - destruct (last_char r) as [c|]; [|discriminate].
    apply negb_true_iff in Hr. rewrite Hr. cbn [andb].
    apply IH; [|exact Hrest]. intros Hin. apply Hnot. now right.
Qed.

(** X23.  The portal routes by exact url only: a url that is not one of
    its six paths, character for character (a query string or a trailing
    slash is enough), reaches no handler, whatever the state of the device;
    it is answered with the index document when it is [/] or empty, with a
    static file when it ends in [.html], [.css] or [.js], and with 404
    otherwise. *)
Theorem portal_urls_are_exact :
  forall (rt : Runtime) (fuel : nat) (request : Request) (w : world),
    ~ In (url request)
         ["/ping"; "/wifi/scan"; "/wifi/add"; "/wifi/list"; "/wifi/clear";
          "/wifi/connect"] ->
    dispatch fuel portal_routes request w
    = (if (url request =? EmptyString) || (url request =? "/")
       then send_file request INDEX_FILE false w
       else if has_asset_extension (url request)
            then send_file request (STATIC_DIR ++ "/" ++ url request) true w
            else (Raise (HttpError 404 "File Not Found"), w)).
Proof.
  intros rt fuel request w Hnot. unfold dispatch.
  rewrite (routes_lookup_none (url request) portal_routes Hnot).
  unfold bind, lift.
  rewrite (find_route_no_wildcard (url request) portal_routes Hnot eq_refl).
  destruct ((url request =? EmptyString) || (url request =? "/")); [reflexivity|].
  destruct (has_asset_extension (url request)); reflexivity.
Qed.

Lemma portal_urls_are_exact_witness :
  dispatch (rt := sample_runtime) 1 portal_routes
    {| url := "/ping?x=1"; method := "GET"; headers := []; route := EmptyString |}
    fresh_world
  = (Raise (HttpError 404 "File Not Found"), fresh_world)
  /\ dispatch (rt := sample_runtime) 1 portal_routes
       {| url := "/wifi/list/"; method := "GET"; headers := [];
          route := EmptyString |}
       fresh_world
     = (Raise (HttpError 404 "File Not Found"), fresh_world).
Proof.
  split.
  - apply (portal_urls_are_exact sample_runtime 1
             {| url := "/ping?x=1"; method := "GET"; headers := [];
                route := EmptyString |} fresh_world).
    simpl. intros [H|[H|[H|[H|[H|[H|[]]]]]]]; discriminate H.
  - apply (portal_urls_are_exact sample_runtime 1
             {| url := "/wifi/list/"; method := "GET"; headers := [];
                route := EmptyString |} fresh_world).
    simpl. intros [H|[H|[H|[H|[H|[H|[]]]]]]]; discriminate H.
Defined.

(* ================================================================= *)
(** ** The hardware address of a scan row *)

Lemma hex2_shape (c : ascii) :
  exists d1 d2,
    hex2 (N_of_ascii c) = String d1 (String d2 EmptyString)
    /\ is_lower_hex d1 = true /\ is_lower_hex d2 = true.
Proof.
  destruct c as [[] [] [] [] [] [] [] []];
    eexists _, _; (split; [vm_compute; reflexivity|]); split; reflexivity.
Qed.

Lemma concat_colon_cons (x y : string) (rest : list string) :
  String.concat ":" (x :: y :: rest) = x ++ ":" ++ String.concat ":" (y :: rest).
Proof. reflexivity. Qed.

Lemma format_bssid_shape (bytes : list ascii) :
  bytes <> [] ->
  String.length (String.concat ":" (map hex2 (map N_of_ascii bytes)))
  = 3 * List.length bytes - 1
  /\ forallb (fun c => is_lower_hex c || (c =? ":")%char)
             (list_ascii_of_string
                (String.concat ":" (map hex2 (map N_of_ascii bytes)))) = true.
Proof.
  induction bytes as [|c bytes IH]; [contradiction|]. intros _.
  destruct (hex2_shape c) as [d1 [d2 [Hc [H1 H2]]]].
  destruct bytes as [|c' bytes].
  - cbn [map String.concat]. rewrite Hc. simpl. now rewrite H1, H2.
  - cbn [map]. rewrite concat_colon_cons, Hc.
    destruct IH as [IHlen IHhex]; [discriminate|].
    cbn [map] in IHlen, IHhex.
    cbn [append String.length list_ascii_of_string forallb].
    rewrite IHlen, IHhex, H1, H2. simpl. split; [lia | reflexivity].
Qed.

(** X24.  The hardware address of a scan row is two lower-case hexadecimal
    digits per byte, the bytes separated by colons: 17 characters for the
    six bytes of a BSSID, and made of [0-9], [a-f] and [:] only. *)
Theorem format_bssid_is_colon_hex :
  forall bssid : string,
    bssid <> EmptyString ->
    String.length (format_bssid bssid) = 3 * String.length bssid - 1
    /\ forallb (fun c => is_lower_hex c || (c =? ":")%char)
               (list_ascii_of_string (format_bssid bssid)) = true.
Proof.
  intros bssid Hne. unfold format_bssid, byte_values.
  replace (String.length bssid) with (List.length (list_ascii_of_string bssid)).
  - apply format_bssid_shape. destruct bssid; [contradiction | discriminate].
  - clear Hne. induction bssid as [|c s IH]; simpl; [reflexivity | now rewrite IH].
Qed.

Lemma format_bssid_is_colon_hex_witness :
  String.length (format_bssid SAMPLE_BSSID) = 3 * String.length SAMPLE_BSSID - 1
  /\ forallb (fun c => is_lower_hex c || (c =? ":")%char)
             (list_ascii_of_string (format_bssid SAMPLE_BSSID)) = true.
Proof.
  apply (format_bssid_is_colon_hex SAMPLE_BSSID). discriminate.
Defined.

(* ================================================================= *)
(** ** The internal errors of /wifi/add *)

(** X25.  [/wifi/add] answers the JSON error 500, and stores nothing, in
    three cases: the body is JSON but not an object (a list, a string, a
    number: [content.get] does not exist), the ssid is truthy but cannot be
    a dict key (a list or an object), or the body could not be read because
    the Content-Length is not an integer. *)
Theorem wifi_add_internal_errors :
  forall (rt : Runtime) (request : Request) (w w1 : world),
    (forall v,
        json_read request w = (Ok v, w1) ->
        (forall fields, v <> PDict fields) ->
        wifi_add request w
        = (Ok None,
           wrote (json_error_chunks 500 "Internal Server Error"
                                        "Internal Server Error") w1))
    /\ (forall fields,
          json_read request w = (Ok (PDict fields), w1) ->
          truthy (field "ssid" fields) = true ->
          truthy (field "password" fields) = true ->
          hashable (field "ssid" fields) = false ->
          wifi_add request w
          = (Ok None,
             wrote (json_error_chunks 500 "Internal Server Error"
                                          "Internal Server Error") w1))
    /\ (forall value,
          header_lookup "Content-Length" (headers request) = Some value ->
          int_of_str value = None ->
          wifi_add request w
          = (Ok None,
             wrote (json_error_chunks 500 "Internal Server Error"
                                          "Internal Server Error") w))
    /\ (forall r, json_read request w = (r, w1) ->
          cred_manager w1 = cred_manager w /\ files w1 = files w).
Proof.
  intros rt request w w1.
  split; [intros v Hread Hv; now apply (wifi_add_not_object request w w1 v)|].
  split.
  { intros fields Hread Hs Hp Hh.
    rewrite (wifi_add_object request w w1 fields Hread), Hs, Hp, Hh. reflexivity. }
  split.
  { intros value Hh Hint.
    apply (wifi_add_read_failure request w w ValueError).
    now apply (json_read_bad_length request w value). }
  intros r Hread.
  destruct (json_read_preserves request w w1 r Hread) as [Hcm [Hf _]]. auto.
Qed.

Lemma wifi_add_internal_errors_witness :
  wifi_add {| url := "/wifi/add"; method := "POST";
              headers := [("Content-Length", "x")]; route := "/wifi/add" |}
           (receiving [body_ssid_password])
  = (Ok None,
     wrote (json_error_chunks 500 "Internal Server Error" "Internal Server Error")
           (receiving [body_ssid_password])).
Proof.
  exact (proj1 (proj2 (proj2
           (wifi_add_internal_errors sample_runtime
              {| url := "/wifi/add"; method := "POST";
                 headers := [("Content-Length", "x")]; route := "/wifi/add" |}
              (receiving [body_ssid_password]) (receiving [body_ssid_password]))))
           "x" eq_refl eq_refl).
Defined.

(* ================================================================= *)
(** ** Templates *)

Section Templates.
Context {rt : Runtime}.

(** The loop over the lines of a template: the lines that format are
    written in order, and the first one that does not ends the loop with
    its exception, the lines before it already sent. *)
Lemma write_formatted_outcome (request : Request) (context : dict)
    (lines : list string) :
  forall (texts : list string) (w : world),
    (Forall2 (fun l t => str_format l context = Ok t) lines texts ->
     write_formatted request context lines w = (Ok tt, wrote texts w))
    /\ (forall done l rest e,
          lines = (done ++ l :: rest)%list ->
          Forall2 (fun l t => str_format l context = Ok t) done texts ->
          str_format l context = Raise e ->
          write_formatted request context lines w = (Raise e, wrote texts w)).
Proof.
  induction lines as [|l0 lines IH]; intros texts w; split.
  - intros H. inversion H. subst. cbn [write_formatted]. unfold ret.
    now rewrite wrote_nil.
  - intros done l rest e Hsplit. now destruct done.
  - intros H. inversion H as [|? t ? texts' Hl0 Hrest]. subst.
    cbn [write_formatted]. unfold bind, lift, write. rewrite Hl0.
    rewrite conn_write_wrote, (proj1 (IH texts' _) Hrest), wrote_wrote.
    reflexivity.
  - intros done l rest e Hsplit Hdone Hfail.
    destruct done as [|d done].
    + inversion Hdone. subst. simpl in Hsplit. inversion Hsplit. subst.
      cbn [write_formatted]. unfold bind, lift. rewrite Hfail.
      now rewrite wrote_nil.
    + inversion Hdone as [|? t ? texts' Hd Hrest]. subst.
      simpl in Hsplit. inversion Hsplit. subst.
      cbn [write_formatted]. unfold bind, lift, write. rewrite Hd.
      rewrite conn_write_wrote,
        (proj2 (IH texts' _) done l rest e eq_refl Hrest Hfail), wrote_wrote.
      reflexivity.
Qed.

End Templates.

(** X26.  A template is sent line by line after the status line.  When
    every line of the file formats, the response is [HTTP/1.1 200 OK], the
    blank line, and the formatted lines in the order of the file.  When a
    line does not format (a placeholder that the context lacks, say), the
    status line and the lines before it have already been sent, and the
    exception of [format] leaves [generate_output] as it is: it is not
    turned into a 404. *)
Theorem template_sent_line_by_line :
  forall (rt : Runtime) (fuel : nat) (request : Request) (filename : string)
         (context : dict) (content : string) (w : world),
    file_lookup filename (files w) = Some (Data content) ->
    (forall texts,
        Forall2 (fun l t => str_format l context = Ok t)
                (file_lines EmptyString content) texts ->
        generate_output fuel request (HTemplate filename (ContextDict context)) w
        = (Ok tt, wrote ((OK_LINE ++ CRLF) :: texts) w))
    /\ (forall done l rest texts e,
          file_lines EmptyString content = (done ++ l :: rest)%list ->
          Forall2 (fun l t => str_format l context = Ok t) done texts ->
          str_format l context = Raise e ->
          is_OSError e = false ->
          generate_output fuel request (HTemplate filename (ContextDict context)) w
          = (Raise e, wrote ((OK_LINE ++ CRLF) :: texts) w)).
Proof.
  intros rt fuel request filename context content w Hfile.
  assert (generate_output fuel request (HTemplate filename (ContextDict context))
          = render_template request filename (ContextDict context)) as ->
      by (destruct fuel; reflexivity).
  unfold render_template, write.
  rewrite (bind_ok _ _ _ _ _ (conn_write_wrote (OK_LINE ++ CRLF) w)).
  unfold bind at 1, ret. unfold try_except, bind, open_read.
  change (files (wrote [OK_LINE ++ CRLF] w)) with (files w). rewrite Hfile.
  split.
  - intros texts Hall.
    rewrite (proj1 (write_formatted_outcome request context _ texts _) Hall).
    now rewrite wrote_wrote.
  - intros done l rest texts e Hsplit Hdone Hfail Hos.
    rewrite (proj2 (write_formatted_outcome request context _ texts _)
               done l rest e Hsplit Hdone Hfail).
    rewrite Hos. now rewrite wrote_wrote.
Qed.

Lemma template_sent_line_by_line_witness :
  generate_output (rt := sample_runtime) 0
    {| url := "/"; method := "GET"; headers := []; route := "/" |}
    (HTemplate "page.html" (ContextDict []))
    (with_files [("page.html", Data ("<h1>" ++ String "010" "</h1>"))] fresh_world)
  = (Ok tt,
     wrote [OK_LINE ++ CRLF; "<h1>" ++ String "010" EmptyString; "</h1>"]
           (with_files [("page.html", Data ("<h1>" ++ String "010" "</h1>"))]
                       fresh_world)).
Proof.
  exact (proj1 (template_sent_line_by_line sample_runtime 0
                  {| url := "/"; method := "GET"; headers := []; route := "/" |}
                  "page.html" [] ("<h1>" ++ String "010" "</h1>")
                  (with_files [("page.html", Data ("<h1>" ++ String "010" "</h1>"))]
                              fresh_world)
                  eq_refl)
           ["<h1>" ++ String "010" EmptyString; "</h1>"]
           (Forall2_cons _ _ eq_refl (Forall2_cons _ _ eq_refl (Forall2_nil _)))).
Defined.
